(** * Scheduler service: slot derivation and booking conflict resolution

    A shallow embedding of the core of the scheduler service
    (internal/service/availability_service.go, internal/service/booking_service.go,
    internal/repository/postgres/{availability,booking}_repo.go and
    internal/models) together with the properties stated about it.
    It also covers the API keys (internal/service/api_key_service.go and
    internal/repository/postgres/api_key_repo.go), the booking endpoints of
    internal/handlers/availability.go, and the part of the calendar import
    of internal/app that writes a rule and a booking for an event.

    Conventions of the embedding
    - [time.Time] is an absolute instant: an integer number of nanoseconds
      since the Unix epoch (1970-01-01T00:00:00Z).  Locations only affect
      presentation, so [UTC] is the identity on instants.  The saturation of
      the Go representation, some 292 billion years away from the epoch, is
      not modelled.
    - [time.Duration] is a signed 64-bit count of nanoseconds; arithmetic on
      durations wraps around ([wrap64]).
    - Go's [int] is the 64-bit signed integer of the usual targets.
    - [error] values are identified by what the callers inspect: the
      sentinel [pgx.ErrNoRows], the message of an [errors.New]/[fmt.Errorf]
      value, or a [*time.ParseError].
    - The two PostgreSQL tables are lists of rows in insertion order;
      [gen_random_uuid()] draws from a counter kept next to the tables.
      The storage layer is reliable: statements do not fail for transport
      reasons.
    - Loops that the source does not bound carry a [fuel] argument; [None]
      means that the fuel ran out before the loop returned.
    - SHA-256 and the text of a PostgreSQL error are parameters of the
      functions on API keys; the length in minutes of an imported event,
      which the source computes in floating point, is a parameter of the
      import. *)

From Stdlib Require Import ZArith Lia Bool List Ascii String Sorting.Sorted Permutation.
From stdpp Require Import base decidable option list gmap strings pretty.

Local Open Scope Z_scope.

(** ** Results of fallible calls *)

Inductive error :=
| ErrNoRows                         (* pgx.ErrNoRows *)
| errorString (msg : string)        (* errors.New(msg), fmt.Errorf(...) *)
| ParseError (layout value : string). (* *time.ParseError *)

Inductive result (A : Type) :=
| Ok (a : A)
| Err (e : error).
Arguments Ok {A} a.
Arguments Err {A} e.

Module errors.
Definition New (msg : string) : error := errorString msg.
End errors.

(** ** Package time *)

Module time.

Definition Time := Z.
Definition Duration := Z.

Definition Nanosecond : Duration := 1.
Definition Microsecond : Duration := 1000 * Nanosecond.
Definition Millisecond : Duration := 1000 * Microsecond.
Definition Second : Duration := 1000 * Millisecond.
Definition Minute : Duration := 60 * Second.
Definition Hour : Duration := 60 * Minute.

(** Two's-complement wrap-around of a 64-bit signed integer. *)
Definition wrap64 (z : Z) : Z := (z + 2 ^ 63) mod 2 ^ 64 - 2 ^ 63.

(** [time.Duration(n) * d] *)
Definition mulDuration (n : Z) (d : Duration) : Duration := wrap64 (n * d).

Definition Add (t : Time) (d : Duration) : Time := t + d.
Definition After (t u : Time) : bool := u <? t.
Definition Before (t u : Time) : bool := t <? u.
Definition Equal (t u : Time) : bool := t =? u.
Definition UTC (t : Time) : Time := t.

(** Seconds between 0001-01-01T00:00:00Z, the zero [Time], and the Unix
    epoch ([unixToInternal] in the Go runtime). *)
Definition unixToInternal : Z := 62135596800.

(** [t.Truncate(d)]: round down to a multiple of [d] since the zero time;
    [t] itself when [d <= 0]. *)
Definition Truncate (t : Time) (d : Duration) : Time :=
  if d <=? 0 then t else t - (t + unixToInternal * Second) mod d.

(** [t.Unix()]: whole seconds since the epoch, rounded down. *)
Definition Unix (t : Time) : Z := t / Second.

(** [int(t.Weekday())] in UTC, Sunday = 0; the epoch was a Thursday. *)
Definition Weekday (t : Time) : Z := (t / (24 * Hour) + 4) mod 7.

(** [t.Hour()] and [t.Minute()] in UTC. *)
Definition HourOf (t : Time) : Z := (t mod (24 * Hour)) / Hour.
Definition MinuteOf (t : Time) : Z := (t mod Hour) / Minute.

(** [y, m, d := t.Date(); time.Date(y, m, d, hour, min, 0, 0, time.UTC)]:
    the instant [hour:min:00] of the civil day (UTC) that contains [t]. *)
Definition DateClock (t : Time) (hour min : Z) : Time :=
  (t - t mod (24 * Hour)) + hour * Hour + min * Minute.

(** 0000-01-01T00:00:00Z, the day on which [Parse] places a bare clock time. *)
Definition yearZero : Time := -62167219200 * Second.

(** *** [time.Parse("15:04", value)] *)

Definition isDigit (s : string) (i : nat) : bool :=
  match String.get i s with
  | Some c => (48 <=? Z.of_N (N_of_ascii c)) && (Z.of_N (N_of_ascii c) <=? 57)
  | None => false
  end.

Definition digit (s : string) (i : nat) : Z :=
  match String.get i s with
  | Some c => Z.of_N (N_of_ascii c) - 48
  | None => 0
  end.

Definition drop (n : nat) (s : string) : string :=
  String.substring n (String.length s - n) s.

(** [getnum]: one or two decimal digits; exactly two when [fixed]. *)
Definition getnum (s : string) (fixed : bool) : option (Z * string) :=
  if negb (isDigit s 0) then None
  else if negb (isDigit s 1) then
    if fixed then None else Some (digit s 0, drop 1 s)
  else Some (digit s 0 * 10 + digit s 1, drop 2 s).

(** [skip(value, ":")] *)
Definition skipColon (value : string) : option string :=
  match value with
  | String c rest => if Ascii.eqb c ":"%char then Some rest else None
  | EmptyString => None
  end.

Definition layout1504 : string := "15:04".

Definition Parse1504 (value : string) : result Time :=
  match getnum value false with
  | None => Err (ParseError layout1504 value)
  | Some (hour, value1) =>
    if (hour <? 0) || (24 <=? hour) then Err (ParseError layout1504 value)
    else match skipColon value1 with
    | None => Err (ParseError layout1504 value)
    | Some value2 =>
      match getnum value2 true with
      | None => Err (ParseError layout1504 value)
      | Some (min, value3) =>
        if (min <? 0) || (60 <=? min) then Err (ParseError layout1504 value)
        else if negb (String.eqb value3 "") then Err (ParseError layout1504 value)
        else Ok (yearZero + hour * Hour + min * Minute)
      end
    end
  end.

End time.

(** ** Package models *)

Module AvailabilityRule.
Record t := mk {
  ID : string;
  UserID : string;
  DayOfWeek : Z;
  StartTime : string;
  EndTime : string;
  SlotLengthMins : Z;
  Title : string;
  Available : bool;
  CreatedAt : time.Time;
  UpdatedAt : time.Time
}.
End AvailabilityRule.

Module Booking.
Record t := mk {
  ID : string;
  UserID : string;
  CandidateEmail : string;
  StartAtUTC : time.Time;
  EndAtUTC : time.Time;
  Status : string;
  Source : string;
  Type_ : string;
  Description : string;
  Title : string;
  CreatedAt : time.Time
}.
End Booking.

(** ** The relational store *)

(** [gen_random_uuid()]: the [n]-th identifier handed out. *)
Definition gen_random_uuid (n : nat) : string :=
  String.append "uuid-" (pretty n).

Record DB := mkDB {
  availability_rules : list AvailabilityRule.t;
  bookings : list Booking.t;
  uuid_seq : nat
}.

(** Rows inserted by a transaction that has not committed yet. *)
Record Tx := mkTx { pending : list Booking.t }.

(** [repository.Querier]: the connection pool, or an open transaction. *)
Inductive Querier :=
| viaPool
| viaTx (tx : Tx).

(** Bookings a statement sees (read committed: what is committed, and the
    transaction's own writes). *)
Definition visible (db : DB) (q : Querier) : list Booking.t :=
  match q with
  | viaPool => bookings db
  | viaTx tx => bookings db ++ pending tx
  end.

Definition Begin (db : DB) : Tx := mkTx [].

Definition Commit (db : DB) (tx : Tx) : DB :=
  mkDB (availability_rules db) (bookings db ++ pending tx) (uuid_seq db).

(** ** Package repository/postgres *)

Module AvailabilityRepo.
Import AvailabilityRule.

(** INSERT INTO availability_rules ... RETURNING id, scanned into [ar.ID]. *)
Definition InsertAvailabilityRule (db : DB) (ar : t) (now : time.Time) : t * DB :=
  let id := gen_random_uuid (uuid_seq db) in
  let row := mk id (UserID ar) (DayOfWeek ar) (StartTime ar) (EndTime ar)
                (SlotLengthMins ar) (Title ar) (Available ar) now now in
  (mk id (UserID ar) (DayOfWeek ar) (StartTime ar) (EndTime ar)
      (SlotLengthMins ar) (Title ar) (Available ar) (CreatedAt ar) (UpdatedAt ar),
   mkDB (availability_rules db ++ [row]) (bookings db) (S (uuid_seq db))).

Definition matches (userID ruleID : string) (r : t) : bool :=
  String.eqb (ID r) ruleID && String.eqb (UserID r) userID.

(** SELECT ... WHERE id=$1 AND user_id=$2, first row. *)
Definition GetAvailabilityRule (db : DB) (userID ruleID : string) : result t :=
  match List.find (matches userID ruleID) (availability_rules db) with
  | Some r => Ok r
  | None => Err ErrNoRows
  end.

(** ORDER BY id *)
Fixpoint insert_by_id (r : t) (l : list t) : list t :=
  match l with
  | [] => [r]
  | x :: l' => if String.leb (ID r) (ID x) then r :: l else x :: insert_by_id r l'
  end.

Definition order_by_id (l : list t) : list t := foldr insert_by_id [] l.

(** SELECT ... WHERE user_id=$1 ORDER BY id *)
Definition ListAvailabilityRules (db : DB) (userID : string) : list t :=
  order_by_id (List.filter (fun r => String.eqb (UserID r) userID) (availability_rules db)).

Definition update_row (ar : t) (now : time.Time) (r : t) : t :=
  mk (ID r) (UserID r) (DayOfWeek ar) (StartTime ar) (EndTime ar)
     (SlotLengthMins ar) (Title ar) (Available ar) (CreatedAt r) now.

(** UPDATE availability_rules SET ... WHERE id=$8 AND user_id=$9 RETURNING id *)
Definition UpdateAvailabilityRule (db : DB) (userID ruleID : string) (ar : t)
    (now : time.Time) : result string * DB :=
  match List.find (matches userID ruleID) (availability_rules db) with
  | None => (Err ErrNoRows, db)
  | Some r =>
    (Ok (ID r),
     mkDB (map (fun x => if matches userID ruleID x then update_row ar now x else x)
               (availability_rules db))
          (bookings db) (uuid_seq db))
  end.
End AvailabilityRepo.

Module BookingRepo.
Import Booking.

(** The columns a listing selects; the others keep their zero value. *)
Definition scan_listed (b : t) : t :=
  mk (ID b) (UserID b) (CandidateEmail b) (StartAtUTC b) (EndAtUTC b) (Status b)
     "" "" "" "" (CreatedAt b).

(** SELECT ... WHERE user_id=$1 AND start_at_utc >= $2 AND start_at_utc < $3
    AND status='confirmed' *)
Definition ListBookingsInRange (db : DB) (q : Querier) (userID : string)
    (from to : time.Time) : list t :=
  map scan_listed
    (List.filter (fun b => String.eqb (UserID b) userID && (from <=? StartAtUTC b)
                           && (StartAtUTC b <? to) && String.eqb (Status b) "confirmed")
                 (visible db q)).

(** SELECT ... WHERE user_id=$1 [AND start_at_utc >= $2 AND start_at_utc < $3]
    AND status != 'cancelled' ORDER BY start_at_utc *)
Fixpoint insert_by_start (b : t) (l : list t) : list t :=
  match l with
  | [] => [b]
  | x :: l' => if StartAtUTC b <=? StartAtUTC x then b :: l else x :: insert_by_start b l'
  end.

Definition ListBookings (db : DB) (q : Querier) (userID : string)
    (from to : time.Time) (filtered : bool) : list t :=
  foldr insert_by_start []
    (map scan_listed
      (List.filter (fun b => String.eqb (UserID b) userID
                             && (negb filtered || ((from <=? StartAtUTC b) && (StartAtUTC b <? to)))
                             && negb (String.eqb (Status b) "cancelled"))
                   (visible db q))).

Definition confirmed_at (userID : string) (start : time.Time) (b : t) : bool :=
  String.eqb (UserID b) userID && String.eqb (Status b) "confirmed"
  && (StartAtUTC b =? start).

(** SELECT id FROM bookings WHERE user_id=$1 AND status='confirmed'
    AND start_at_utc = $2 FOR UPDATE; the id is empty together with
    [pgx.ErrNoRows]. *)
Definition CheckExistingBookingAtStart (db : DB) (q : Querier) (userID : string)
    (start : time.Time) : string * option error :=
  match List.find (confirmed_at userID start) (visible db q) with
  | Some b => (ID b, None)
  | None => (""%string, Some ErrNoRows)
  end.

(** INSERT INTO bookings ... VALUES (gen_random_uuid(), ..., 'confirmed', ..., now())
    RETURNING id, inside the transaction. *)
Definition InsertBooking (db : DB) (tx : Tx) (b : t) (pg_now : time.Time)
    : string * DB * Tx :=
  let id := gen_random_uuid (uuid_seq db) in
  let row := mk id (UserID b) (CandidateEmail b) (StartAtUTC b) (EndAtUTC b)
                "confirmed" (Source b) (Type_ b) (Description b) (Title b) pg_now in
  (id, mkDB (availability_rules db) (bookings db) (S (uuid_seq db)),
   mkTx (pending tx ++ [row])).

(** SELECT status FROM bookings WHERE id=$1 *)
Definition GetBookingStatus (db : DB) (id : string) : string * option error :=
  match List.find (fun b => String.eqb (ID b) id) (bookings db) with
  | Some b => (Status b, None)
  | None => (""%string, Some ErrNoRows)
  end.

Definition cancellable (id : string) (b : t) : bool :=
  String.eqb (ID b) id && negb (String.eqb (Status b) "cancelled").

Definition cancel_row (b : t) : t :=
  mk (ID b) (UserID b) (CandidateEmail b) (StartAtUTC b) (EndAtUTC b) "cancelled"
     (Source b) (Type_ b) (Description b) (Title b) (CreatedAt b).

(** UPDATE bookings SET status='cancelled' WHERE id=$1 AND status != 'cancelled';
    returns the number of rows affected. *)
Definition CancelBooking (db : DB) (id : string) : Z * DB :=
  (Z.of_nat (List.length (List.filter (cancellable id) (bookings db))),
   mkDB (availability_rules db)
        (map (fun b => if cancellable id b then cancel_row b else b) (bookings db))
        (uuid_seq db)).
End BookingRepo.

(** ** Package service *)

Record Slot := mkSlot { StartUTC : time.Time; EndUTC : time.Time }.

Record CreateBookingParams := mkParams {
  pCandidateEmail : string;
  pStart : time.Time;
  pEnd : time.Time;
  pSource : string;
  pType : string;
  pDescription : string;
  pTitle : string
}.

Definition errSlotAlreadyBooked : error := errors.New "slot already booked".
Definition errSlotNotAvailable : error := errors.New "slot not available".
Definition errBookingNotFound : error := errors.New "booking not found".
Definition errAlreadyCancelled : error := errors.New "already cancelled".
Definition errEndBeforeStart : error := errors.New "end_time must be after start_time".
Definition errNoTransactions : error := errors.New "db does not support transactions".

Module AvailabilityService.
Import AvailabilityRule.

Definition parseHHMM (s : string) : result time.Time :=
  if (String.length s <? 5)%nat
  then Err (errorString (String.append "invalid time string: " s))
  else time.Parse1504 (String.substring 0 5 s).

Definition validateAvailabilityRule (rule : t) : option error :=
  match time.Parse1504 (StartTime rule) with
  | Err e => Some e
  | Ok startTime =>
    match time.Parse1504 (EndTime rule) with
    | Err e => Some e
    | Ok endTime =>
      if negb (time.After endTime startTime) then Some errEndBeforeStart else None
    end
  end.

(** The clock reading [now] stands for the [time.Now()] calls of one
    request. *)
Fixpoint SetAvailability_from (db : DB) (userID : string) (rules : list t)
    (now : time.Time) (saved : list t) : result (list t) * DB :=
  match rules with
  | [] => (Ok saved, db)
  | r :: rest =>
    let r1 := mk (ID r) userID (DayOfWeek r) (StartTime r) (EndTime r)
                 (SlotLengthMins r) (Title r) (Available r) now now in
    match validateAvailabilityRule r1 with
    | Some err => (Err err, db)
    | None =>
      let '(r2, db') := AvailabilityRepo.InsertAvailabilityRule db r1 now in
      SetAvailability_from db' userID rest now (saved ++ [r2])
    end
  end.

Definition SetAvailability (db : DB) (userID : string) (rules : list t)
    (now : time.Time) : result (list t) * DB :=
  SetAvailability_from db userID rules now [].

Definition with_DayOfWeek (rule : t) (d : Z) : t :=
  mk (ID rule) (UserID rule) d (StartTime rule) (EndTime rule)
     (SlotLengthMins rule) (Title rule) (Available rule) (CreatedAt rule) (UpdatedAt rule).

Definition UpdateAvailability (db : DB) (userID ruleID : string) (rule : t)
    (now : time.Time) : result t * DB :=
  match AvailabilityRepo.GetAvailabilityRule db userID ruleID with
  | Err err => (Err err, db)
  | Ok existing =>
    let rule := if DayOfWeek rule =? 0 then with_DayOfWeek rule (DayOfWeek existing)
                else rule in
    match validateAvailabilityRule rule with
    | Some err => (Err err, db)
    | None =>
      match AvailabilityRepo.UpdateAvailabilityRule db userID ruleID rule now with
      | (Err err, db') => (Err err, db')
      | (Ok id, db') =>
        match AvailabilityRepo.GetAvailabilityRule db' userID id with
        | Err err => (Err err, db')
        | Ok updatedRule => (Ok updatedRule, db')
        end
      end
    end
  end.

Definition ListAvailability (db : DB) (userID : string) : list t :=
  AvailabilityRepo.ListAvailabilityRules db userID.

(** The innermost loop of [GenerateAvailableSlots]:
    [for s0 := utcStart; s0+slotLen == utcEnd || s0+slotLen < utcEnd; s0 += slotLen]. *)
Fixpoint tile (fuel : nat) (s0 utcEnd : time.Time) (slotLen : time.Duration)
    (fromUTC toUTC : time.Time) (available : bool) (candidate : list Slot)
    : option (list Slot) :=
  match fuel with
  | O => None
  | S fuel' =>
    if time.Equal (time.Add s0 slotLen) utcEnd || time.Before (time.Add s0 slotLen) utcEnd
    then
      let startUTC := s0 in
      let endUTC := time.Add s0 slotLen in
      if negb (time.After endUTC fromUTC) || negb (time.Before startUTC toUTC)
      then tile fuel' (time.Add s0 slotLen) utcEnd slotLen fromUTC toUTC available candidate
      else if negb available
      then tile fuel' (time.Add s0 slotLen) utcEnd slotLen fromUTC toUTC available candidate
      else tile fuel' (time.Add s0 slotLen) utcEnd slotLen fromUTC toUTC available
                (candidate ++ [mkSlot startUTC endUTC])
    else Some candidate
  end.

Definition errEndBeforeStartFor (id : string) : error :=
  errorString (String.append "end_time must be after start_time for rule " id).

(** [for _, r := range rules] on one day. *)
Fixpoint over_rules (fuel : nat) (day : time.Time) (rules : list t)
    (fromUTC toUTC : time.Time) (candidate : list Slot) : option (result (list Slot)) :=
  match rules with
  | [] => Some (Ok candidate)
  | r :: rest =>
    if negb (time.Weekday day =? DayOfWeek r)
    then over_rules fuel day rest fromUTC toUTC candidate
    else
      match parseHHMM (StartTime r) with
      | Err err => Some (Err err)
      | Ok startTOD =>
        match parseHHMM (EndTime r) with
        | Err err => Some (Err err)
        | Ok endTOD =>
          if negb (time.After endTOD startTOD) then Some (Err (errEndBeforeStartFor (ID r)))
          else
            let utcStart := time.DateClock day (time.HourOf startTOD) (time.MinuteOf startTOD) in
            let utcEnd := time.DateClock day (time.HourOf endTOD) (time.MinuteOf endTOD) in
            let slotLen := time.mulDuration (SlotLengthMins r) time.Minute in
            match tile fuel utcStart utcEnd slotLen fromUTC toUTC (Available r) candidate with
            | None => None
            | Some candidate' => over_rules fuel day rest fromUTC toUTC candidate'
            end
        end
      end
  end.

(** [for day := startDate; !day.After(endDate); day = day.Add(24h)] *)
Fixpoint over_days (fuel_days fuel : nat) (day endDate : time.Time) (rules : list t)
    (fromUTC toUTC : time.Time) (candidate : list Slot) : option (result (list Slot)) :=
  match fuel_days with
  | O => None
  | S fuel_days' =>
    if negb (time.After day endDate)
    then
      match over_rules fuel day rules fromUTC toUTC candidate with
      | None => None
      | Some (Err err) => Some (Err err)
      | Some (Ok candidate') =>
        over_days fuel_days' fuel (time.Add day (24 * time.Hour)) endDate rules
                  fromUTC toUTC candidate'
      end
    else Some (Ok candidate)
  end.

(** The candidate slots: everything up to the lookup of the bookings. *)
Definition candidates (fuel : nat) (rules : list t) (fromUTC toUTC : time.Time)
    : option (result (list Slot)) :=
  let startDate := time.Truncate fromUTC (24 * time.Hour) in
  let endDate := time.Truncate toUTC (24 * time.Hour) in
  over_days fuel fuel startDate endDate rules fromUTC toUTC [].

(** [booked := map[int64]struct{}{}], filled with the Unix second of each
    booking's start. *)
Definition booked_set (bs : list Booking.t) : gset Z :=
  list_to_set (map (fun b => time.Unix (Booking.StartAtUTC b)) bs).

Definition GenerateAvailableSlots (fuel : nat) (db : DB) (userID : string)
    (fromUTC toUTC : time.Time) : option (result (list Slot)) :=
  let rules := AvailabilityRepo.ListAvailabilityRules db userID in
  if (List.length rules =? 0)%nat then Some (Ok [])
  else
    match candidates fuel rules fromUTC toUTC with
    | None => None
    | Some (Err err) => Some (Err err)
    | Some (Ok candidate) =>
      let bookings := BookingRepo.ListBookingsInRange db viaPool userID
                        (time.Add fromUTC (-1 * time.Hour)) (time.Add toUTC (1 * time.Hour)) in
      let booked := booked_set bookings in
      Some (Ok (List.filter (fun sl => negb (bool_decide (time.Unix (StartUTC sl) ∈ booked)))
                            candidate))
    end.
End AvailabilityService.

Module BookingService.
Import Booking.

Definition with_ID (b : t) (id : string) : t :=
  mk id (UserID b) (CandidateEmail b) (StartAtUTC b) (EndAtUTC b) (Status b)
     (Source b) (Type_ b) (Description b) (Title b) (CreatedAt b).

Definition slot_is (start end_ : time.Time) (s : Slot) : bool :=
  time.Equal (StartUTC s) start && time.Equal (EndUTC s) end_.

(** [now] is the reading of the service's clock, [pg_now] that of the
    database.  The availability service queries through the pool, the
    booking repository through the transaction. *)
Definition CreateBooking (fuel : nat) (db : DB) (userID : string)
    (req : CreateBookingParams) (now pg_now : time.Time) : option (result t * DB) :=
  let start := time.UTC (pStart req) in
  let end_ := time.UTC (pEnd req) in
  let trx := Begin db in
  match BookingRepo.CheckExistingBookingAtStart db (viaTx trx) userID start with
  | (_, Some (errorString m)) => Some (Err (errorString m), db)
  | (_, Some (ParseError l v)) => Some (Err (ParseError l v), db)
  | (id, _) =>
    if negb (String.eqb id "") then Some (Err errSlotAlreadyBooked, db)
    else
      match AvailabilityService.GenerateAvailableSlots fuel db userID
              (time.Add start (-1 * time.Second)) (time.Add end_ (1 * time.Second)) with
      | None => None
      | Some (Err err) => Some (Err err, db)
      | Some (Ok slots) =>
        if negb (existsb (slot_is start end_) slots) then Some (Err errSlotNotAvailable, db)
        else
          let b := mk "" userID (pCandidateEmail req) start end_ "confirmed"
                      (pSource req) (pType req) (pDescription req) (pTitle req) now in
          let '(newID, db1, trx1) := BookingRepo.InsertBooking db trx b pg_now in
          let db2 := Commit db1 trx1 in
          Some (Ok (with_ID b newID), db2)
      end
  end.

(** The two statements of [CancelBooking] run on the pool, outside any
    transaction: [others] is what other requests commit between them
    (the identity when the call runs alone). *)
Definition CancelBooking (others : DB -> DB) (db : DB) (id : string) : option error * DB :=
  match BookingRepo.GetBookingStatus db id with
  | (_, Some ErrNoRows) => (Some errBookingNotFound, db)
  | (_, Some err) => (Some err, db)
  | (status, None) =>
    if String.eqb status "cancelled" then (Some errAlreadyCancelled, db)
    else
      let '(rows, db') := BookingRepo.CancelBooking (others db) id in
      if rows =? 0 then (Some errBookingNotFound, db') else (None, db')
  end.
End BookingService.

(** ** Concurrent calls of [CreateBooking]

    Each call of [CreateBooking] owns a transaction and talks to the
    database one statement at a time; between two statements of one call,
    statements of other calls may run.  A [world] holds the committed store,
    the row locks and the calls in flight; [step] runs the next statement of
    one call.  Statements see what is committed and the writes of their own
    transaction (read committed, the default of [Begin]).  [SELECT ... FOR
    UPDATE] locks the rows it returns until its transaction ends, and waits
    while another transaction holds one of them. *)

Module Concurrent.

Inductive stage :=
| AtCheck                       (* begun; next: CheckExistingBookingAtStart *)
| AtDerive                      (* next: GenerateAvailableSlots, through the pool *)
| AtInsert                      (* next: InsertBooking *)
| AtCommit (b : Booking.t)      (* next: Commit *)
| AtRollback (err : error)      (* returning [err]: the deferred Rollback *)
| Returned (r : result Booking.t).

Record call := mkCall {
  userID : string;
  req : CreateBookingParams;
  at_stage : stage;
  trx : Tx
}.

Record world := mkWorld {
  store : DB;
  locks : list (string * nat);   (* booking id, index of the call that holds it *)
  calls : list call
}.

Definition locked_by_other (w : world) (i : nat) (id : string) : bool :=
  existsb (fun l => String.eqb (fst l) id && negb (Nat.eqb (snd l) i)) (locks w).

Definition release (i : nat) (ls : list (string * nat)) : list (string * nat) :=
  List.filter (fun l => negb (Nat.eqb (snd l) i)) ls.

Definition moved (c : call) (s : stage) (tx : Tx) : call :=
  mkCall (userID c) (req c) s tx.

Definition step (fuel : nat) (now pg_now : time.Time) (w : world) (i : nat) : option world :=
  match calls w !! i with
  | None => Some w
  | Some c =>
    let start := time.UTC (pStart (req c)) in
    let end_ := time.UTC (pEnd (req c)) in
    let continue db ls s tx := Some (mkWorld db ls (<[i := moved c s tx]> (calls w))) in
    match at_stage c with
    | AtCheck =>
      let matched := List.filter (BookingRepo.confirmed_at (userID c) start)
                                 (visible (store w) (viaTx (trx c))) in
      if existsb (fun b => locked_by_other w i (Booking.ID b)) matched then Some w
      else
        let ls := map (fun b => (Booking.ID b, i)) matched ++ locks w in
        match BookingRepo.CheckExistingBookingAtStart (store w) (viaTx (trx c))
                (userID c) start with
        | (_, Some (errorString m)) => continue (store w) ls (AtRollback (errorString m)) (trx c)
        | (_, Some (ParseError l v)) => continue (store w) ls (AtRollback (ParseError l v)) (trx c)
        | (id, _) =>
          if negb (String.eqb id "")
          then continue (store w) ls (AtRollback errSlotAlreadyBooked) (trx c)
          else continue (store w) ls AtDerive (trx c)
        end
    | AtDerive =>
      match AvailabilityService.GenerateAvailableSlots fuel (store w) (userID c)
              (time.Add start (-1 * time.Second)) (time.Add end_ (1 * time.Second)) with
      | None => None
      | Some (Err err) => continue (store w) (locks w) (AtRollback err) (trx c)
      | Some (Ok slots) =>
        if negb (existsb (BookingService.slot_is start end_) slots)
        then continue (store w) (locks w) (AtRollback errSlotNotAvailable) (trx c)
        else continue (store w) (locks w) AtInsert (trx c)
      end
    | AtInsert =>
      let b := Booking.mk "" (userID c) (pCandidateEmail (req c)) start end_ "confirmed"
                 (pSource (req c)) (pType (req c)) (pDescription (req c)) (pTitle (req c)) now in
      let '(newID, db1, trx1) := BookingRepo.InsertBooking (store w) (trx c) b pg_now in
      continue db1 (locks w) (AtCommit (BookingService.with_ID b newID)) trx1
    | AtCommit b =>
      continue (Commit (store w) (trx c)) (release i (locks w)) (Returned (Ok b)) (mkTx [])
    | AtRollback err =>
      continue (store w) (release i (locks w)) (Returned (Err err)) (mkTx [])
    | Returned _ => Some w
    end
  end.

(** Run the calls in the order of [schedule], one statement per entry. *)
Fixpoint run (fuel : nat) (now pg_now : time.Time) (schedule : list nat) (w : world)
    : option world :=
  match schedule with
  | [] => Some w
  | i :: rest =>
    match step fuel now pg_now w i with
    | None => None
    | Some w' => run fuel now pg_now rest w'
    end
  end.

(** The calls have begun their transactions; nothing is locked. *)
Definition begun (db : DB) (requests : list (string * CreateBookingParams)) : world :=
  mkWorld db [] (map (fun ur => mkCall (fst ur) (snd ur) AtCheck (Begin db)) requests).

Definition outcome (w : world) (i : nat) : option (result Booking.t) :=
  match calls w !! i with
  | Some c => match at_stage c with Returned r => Some r | _ => None end
  | None => None
  end.

End Concurrent.

(** ** Package app: bookings for imported calendar events *)

Module timeFormat.

(** [appendInt(b, x, 2)] for [0 <= x < 100]: two decimal digits. *)
Definition appendInt2 (x : Z) : string :=
  String (ascii_of_N (Z.to_N (48 + x / 10)))
    (String (ascii_of_N (Z.to_N (48 + x mod 10))) EmptyString).

(** [t.Format("15:04")] in UTC. *)
Definition Format1504 (t : time.Time) : string :=
  String.append (appendInt2 (time.HourOf t))
    (String ":"%char (appendInt2 (time.MinuteOf t))).

(** The zero [time.Time], 0001-01-01T00:00:00Z. *)
Definition zero : time.Time := - (time.unixToInternal * time.Second).

End timeFormat.

Module CalendarImport.

(** The fields of [CalendarEvent] that the import reads. *)
Record CalendarEvent := mkEvent {
  Summary : string;
  StartTime : time.Time;
  EndTime : time.Time;
  Creator : string;
  MeetingLink : string
}.

(** The availability rule written for an event. *)
Definition event_rule (ev : CalendarEvent) (durMins : Z) : AvailabilityRule.t :=
  AvailabilityRule.mk "" "" (time.Weekday (time.UTC (StartTime ev)))
    (timeFormat.Format1504 (time.UTC (StartTime ev)))
    (timeFormat.Format1504 (time.UTC (EndTime ev)))
    durMins (Summary ev) true timeFormat.zero timeFormat.zero.

(** The booking requested for an event. *)
Definition event_booking (ev : CalendarEvent) : CreateBookingParams :=
  mkParams (Creator ev) (time.UTC (StartTime ev)) (time.UTC (EndTime ev))
    "google_calendar" "google_meet" (MeetingLink ev) (Summary ev).

(** What [GetGoogleCalendarEvents] does for a Google Meet event with both
    times set when a user is given: it writes a rule for the event and books
    it; errors of either call are printed and otherwise ignored.  [durMins]
    is [int(endUTC.Sub(startUTC).Minutes())], which the source computes in
    floating point.  The result is the store and what [CreateBooking]
    returned, if it was called. *)
Definition import_meet_event (fuel : nat) (db : DB) (userID : string) (ev : CalendarEvent)
    (durMins : Z) (now now' pg_now : time.Time) : option (DB * option (result Booking.t)) :=
  let startUTC := time.UTC (StartTime ev) in
  let endUTC := time.UTC (EndTime ev) in
  if time.After endUTC startUTC then
    if durMins <=? 0 then Some (db, None)
    else
      let db1 := snd (AvailabilityService.SetAvailability db userID [event_rule ev durMins] now) in
      match BookingService.CreateBooking fuel db1 userID (event_booking ev) now' pg_now with
      | None => None
      | Some (r, db2) => Some (db2, Some r)
      end
  else Some (db, None).

End CalendarImport.

(** ** API keys

    The table [api_keys] has a primary key [id] and unique constraints on
    [email] and on [key_hash]; a statement that would break one of them
    fails and changes nothing.  SHA-256 and the text of PostgreSQL's error
    are parameters. *)

Module APIKey.
Record t := mk {
  ID : string;
  Email : string;
  KeyHash : string;
  CreatedAt : time.Time;
  LastUsedAt : option time.Time
}.
End APIKey.

Record KeyDB := mkKeyDB {
  api_keys : list APIKey.t;
  key_uuid_seq : nat
}.

(** The error of a statement that violates a unique constraint, with the
    name of the constraint. *)
Inductive PgError := UniqueViolation (constraint : string).

Definition errCredentialsRequired : error := errors.New "email and password are required".
Definition errKeyRequired : error := errors.New "API key is required".
Definition errInvalidKey : error := errors.New "invalid API key".

Section APIKeys.

(** [hex.EncodeToString(sha256.Sum256([]byte(s))[:])] *)
Variable sha256_hex : string -> string.

(** [err.Error()] of a [*pgconn.PgError]. *)
Variable Error : PgError -> string.

Definition hashAPIKey (apiKey : string) : string := sha256_hex apiKey.

Definition hashEmailPassword (email password : string) : string :=
  sha256_hex (String.append email (String ":"%char password)).

(** [fmt.Errorf(prefix + ": %w", err)] *)
Definition wrap (prefix : string) (err : PgError) : error :=
  errorString (String.append prefix (String.append ": " (Error err))).

(** INSERT INTO api_keys (id, email, key_hash, created_at)
    VALUES (gen_random_uuid(), $1, $2, now()) RETURNING ... *)
Definition CreateAPIKey (kdb : KeyDB) (email keyHash : string) (pg_now : time.Time)
    : (PgError + APIKey.t) * KeyDB :=
  if existsb (fun k => String.eqb (APIKey.Email k) email) (api_keys kdb)
  then (inl (UniqueViolation "api_keys_email_key"), kdb)
  else if existsb (fun k => String.eqb (APIKey.KeyHash k) keyHash) (api_keys kdb)
  then (inl (UniqueViolation "api_keys_key_hash_key"), kdb)
  else
    let row := APIKey.mk (gen_random_uuid (key_uuid_seq kdb)) email keyHash pg_now None in
    (inr row, mkKeyDB (api_keys kdb ++ [row]) (S (key_uuid_seq kdb))).

(** SELECT ... FROM api_keys WHERE key_hash = $1 *)
Definition GetAPIKeyByHash (kdb : KeyDB) (keyHash : string) : result APIKey.t :=
  match List.find (fun k => String.eqb (APIKey.KeyHash k) keyHash) (api_keys kdb) with
  | Some k => Ok k
  | None => Err ErrNoRows
  end.

(** SELECT ... FROM api_keys WHERE email = $1; no row is [nil, nil]. *)
Definition GetAPIKeyByEmail (kdb : KeyDB) (email : string) : PgError + option APIKey.t :=
  inr (List.find (fun k => String.eqb (APIKey.Email k) email) (api_keys kdb)).

Definition with_KeyHash (k : APIKey.t) (keyHash : string) : APIKey.t :=
  APIKey.mk (APIKey.ID k) (APIKey.Email k) keyHash (APIKey.CreatedAt k) (APIKey.LastUsedAt k).

(** UPDATE api_keys SET key_hash = $1 WHERE email = $2 *)
Definition UpdateAPIKeyHash (kdb : KeyDB) (email keyHash : string) : option PgError * KeyDB :=
  if existsb (fun k => negb (String.eqb (APIKey.Email k) email)
                       && String.eqb (APIKey.KeyHash k) keyHash) (api_keys kdb)
     || (1 <? List.length (List.filter (fun k => String.eqb (APIKey.Email k) email)
                                       (api_keys kdb)))%nat
  then (Some (UniqueViolation "api_keys_key_hash_key"), kdb)
  else (None,
        mkKeyDB (map (fun k => if String.eqb (APIKey.Email k) email
                               then with_KeyHash k keyHash else k) (api_keys kdb))
                (key_uuid_seq kdb)).

Definition with_LastUsedAt (k : APIKey.t) (t : time.Time) : APIKey.t :=
  APIKey.mk (APIKey.ID k) (APIKey.Email k) (APIKey.KeyHash k) (APIKey.CreatedAt k) (Some t).

(** UPDATE api_keys SET last_used_at = now() WHERE key_hash = $1 *)
Definition UpdateLastUsed (kdb : KeyDB) (keyHash : string) (pg_now : time.Time) : KeyDB :=
  mkKeyDB (map (fun k => if String.eqb (APIKey.KeyHash k) keyHash
                         then with_LastUsedAt k pg_now else k) (api_keys kdb))
          (key_uuid_seq kdb).

(** [uuid] is the text of [uuid.New()]. *)
Definition GenerateAPIKey (kdb : KeyDB) (email password uuid : string) (pg_now : time.Time)
    : result (string * option APIKey.t) * KeyDB :=
  if String.eqb email "" || String.eqb password "" then (Err errCredentialsRequired, kdb)
  else
    match GetAPIKeyByEmail kdb email with
    | inl err => (Err (wrap "failed to check existing key" err), kdb)
    | inr existing =>
      let _ := hashEmailPassword email password in
      let apiKey := String.append "sk_" uuid in
      let keyHash := hashAPIKey apiKey in
      match existing with
      | Some _ =>
        match UpdateAPIKeyHash kdb email keyHash with
        | (Some err, kdb') => (Err (wrap "failed to update API key" err), kdb')
        | (None, kdb') =>
          match GetAPIKeyByEmail kdb' email with
          | inl err => (Err (wrap "failed to fetch updated API key" err), kdb')
          | inr apiKeyRecord => (Ok (apiKey, apiKeyRecord), kdb')
          end
        end
      | None =>
        match CreateAPIKey kdb email keyHash pg_now with
        | (inl err, kdb') => (Err (wrap "failed to create API key" err), kdb')
        | (inr apiKeyRecord, kdb') => (Ok (apiKey, Some apiKeyRecord), kdb')
        end
      end
    end.

Definition ValidateAPIKey (kdb : KeyDB) (apiKey : string) (pg_now : time.Time)
    : result APIKey.t * KeyDB :=
  if String.eqb apiKey "" then (Err errKeyRequired, kdb)
  else
    let keyHash := hashAPIKey apiKey in
    match GetAPIKeyByHash kdb keyHash with
    | Err _ => (Err errInvalidKey, kdb)
    | Ok apiKeyRecord => (Ok apiKeyRecord, UpdateLastUsed kdb keyHash pg_now)
    end.

End APIKeys.

(** ** Package handlers: the booking endpoints

    What the handlers do once the request is bound and its instants are
    parsed: the call of the service and the choice of the answer. *)

Module handlers.

Record createBookingReq := mkReq {
  rUserID : string;
  rCandidateEmail : string;
  rStartAtUTCStr : string;
  rEndAtUTCStr : string;
  rSource : string;
  rType : string;
  rDescription : string;
  rTitle : string
}.

Definition serviceCreateReq (req : createBookingReq) (start end_ : time.Time)
    : CreateBookingParams :=
  mkParams (rCandidateEmail req) start end_ (rSource req) (rType req) (rDescription req)
           (rTitle req).

(** [err.Error() == msg], for the messages the handlers compare with: the
    text of a [*time.ParseError] starts with [parsing time], which none of
    them does. *)
Definition says (err : error) (msg : string) : bool :=
  match err with
  | ErrNoRows => String.eqb "no rows in result set" msg
  | errorString m => String.eqb m msg
  | ParseError _ _ => false
  end.

Definition StatusOK : Z := 200.
Definition StatusCreated : Z := 201.
Definition StatusBadRequest : Z := 400.
Definition StatusNotFound : Z := 404.
Definition StatusConflict : Z := 409.
Definition StatusInternalServerError : Z := 500.

(** The JSON object a handler answers with. *)
Inductive body :=
| ErrorText (msg : string)   (* gin.H{"error": msg} *)
| ErrorOf (err : error)      (* gin.H{"error": err.Error()} *)
| OkTrue                     (* gin.H{"ok": true} *)
| Created (booking : Booking.t) (optional : list (string * string)).

(** The keys of the answer that are set only for a non-empty value. *)
Definition optional_fields (req : createBookingReq) : list (string * string) :=
  List.filter (fun kv => negb (String.eqb (snd kv) ""))
    [("source"%string, rSource req); ("type"%string, rType req);
     ("description"%string, rDescription req); ("title"%string, rTitle req)].

(** POST /users/:id/bookings, with [start] and [end_] the parsed
    [start_at_utc] and [end_at_utc]. *)
Definition CreateBooking (fuel : nat) (db : DB) (userID : string) (req : createBookingReq)
    (start end_ : time.Time) (now pg_now : time.Time) : option ((Z * body) * DB) :=
  if negb (time.Before start end_)
  then Some ((StatusBadRequest, ErrorText "start must be before end"), db)
  else
    match BookingService.CreateBooking fuel db userID (serviceCreateReq req start end_)
            now pg_now with
    | None => None
    | Some (Err err, db') =>
      if says err "slot already booked" then Some ((StatusConflict, ErrorOf err), db')
      else if says err "slot not available" then Some ((StatusBadRequest, ErrorOf err), db')
      else Some ((StatusInternalServerError, ErrorOf err), db')
    | Some (Ok booking, db') =>
      Some ((StatusCreated, Created booking (optional_fields req)), db')
    end.

(** DELETE /bookings/:id *)
Definition CancelBooking (others : DB -> DB) (db : DB) (id : string) : (Z * body) * DB :=
  match BookingService.CancelBooking others db id with
  | (Some err, db') =>
    if match err with ErrNoRows => true | _ => false end || says err "booking not found"
    then ((StatusNotFound, ErrorText "booking not found"), db')
    else if says err "already cancelled"
    then ((StatusConflict, ErrorText "booking not found"), db')
    else ((StatusInternalServerError, ErrorOf err), db')
  | (None, db') => ((StatusOK, OkTrue), db')
  end.

End handlers.


(** * Vocabulary of the statements *)

(** ** Instants *)

(** The step of the day loop. *)
Definition Day : time.Duration := 24 * time.Hour.

(** A clock time produced by [Parse1504]. *)
Definition clock (h m : Z) : time.Time := time.yearZero + h * time.Hour + m * time.Minute.

(** The instant of a clock time on the day of [day]. *)
Definition on_day (day tod : time.Time) : time.Time :=
  time.DateClock day (time.HourOf tod) (time.MinuteOf tod).

(** ** Tiles and candidates *)

(** Iterations a positive slot length needs from [s0]. *)
Definition tile_steps (utcEnd : time.Time) (slotLen : time.Duration) (s0 : time.Time) : nat :=
  S (Z.to_nat ((utcEnd - s0) / slotLen)).

(** [sl] is one of the consecutive tiles of length [slotLen] that start at
    [s0] and end by [utcEnd]. *)
Definition tile_of (utcEnd : time.Time) (slotLen : time.Duration) (s0 : time.Time)
    (sl : Slot) : Prop :=
  exists k, 0 <= k /\ StartUTC sl = s0 + k * slotLen /\
            EndUTC sl = StartUTC sl + slotLen /\ EndUTC sl <= utcEnd.

(** [sl] ends strictly after [fromUTC] and starts strictly before [toUTC]. *)
Definition overlaps (fromUTC toUTC : time.Time) (sl : Slot) : Prop :=
  fromUTC < EndUTC sl /\ StartUTC sl < toUTC.

Section RuleVocabulary.
Import AvailabilityService AvailabilityRule.

(** The duration the source computes for a rule's slots. *)
Definition slot_len (r : t) : time.Duration :=
  time.mulDuration (SlotLengthMins r) time.Minute.

(** [sl] is a tile of rule [r] on the day [day]. *)
Definition tiled (r : t) (day : time.Time) (sl : Slot) : Prop :=
  exists startTOD endTOD,
    parseHHMM (StartTime r) = Ok startTOD /\
    parseHHMM (EndTime r) = Ok endTOD /\
    time.After endTOD startTOD = true /\
    time.Weekday day = DayOfWeek r /\
    0 < slot_len r /\
    tile_of (on_day day endTOD) (slot_len r) (on_day day startTOD) sl.

(** [sl] is a tile, on [day], of an available rule among [rules], and
    overlaps the window. *)
Definition produced (fromUTC toUTC : time.Time) (rules : list t) (day : time.Time)
    (sl : Slot) : Prop :=
  exists r, In r rules /\ Available r = true /\ tiled r day sl /\ overlaps fromUTC toUTC sl.

(** The stored rule after an update with the fields of [rule], the
    weekday [d] and the clock reading [now]. *)
Definition updated_rule (existing rule : t) (d : Z) (now : time.Time) : t :=
  mk (ID existing) (UserID existing) d (StartTime rule) (EndTime rule)
     (SlotLengthMins rule) (Title rule) (Available rule) (CreatedAt existing) now.

(** The rows a batch of valid rules adds, the first with the [n]-th
    identifier. *)
Fixpoint rows_for (n : nat) (userID : string) (now : time.Time) (rules : list t) : list t :=
  match rules with
  | [] => []
  | r :: rest =>
    mk (gen_random_uuid n) userID (DayOfWeek r) (StartTime r) (EndTime r)
       (SlotLengthMins r) (Title r) (Available r) now now
    :: rows_for (S n) userID now rest
  end.

Definition db_after_rules (db : DB) (userID : string) (now : time.Time) (rules : list t) : DB :=
  mkDB (availability_rules db ++ rows_for (uuid_seq db) userID now rules)
       (bookings db) (uuid_seq db + List.length rules).

End RuleVocabulary.

(** ** Stores *)

(** Iterations of the day loop from [day] to [endDate]. *)
Definition day_steps (day endDate : time.Time) : nat :=
  S (Z.to_nat ((endDate - day) / Day + 1)).

(** A confirmed booking of [userID]. *)
Definition confirmed_of (userID : string) (b : Booking.t) : Prop :=
  Booking.UserID b = userID /\ Booking.Status b = "confirmed"%string.

(** Whether the derivation finds the start second of [sl] occupied. *)
Definition occupied (db : DB) (userID : string) (fromUTC toUTC : time.Time) (sl : Slot) : Prop :=
  exists b, In b (bookings db) /\ confirmed_of userID b /\
            fromUTC - time.Hour <= Booking.StartAtUTC b < toUTC + time.Hour /\
            time.Unix (Booking.StartAtUTC b) = time.Unix (StartUTC sl).

(** Fuel that suffices for a request when every slot length is positive. *)
Definition enough_fuel (fromUTC toUTC : time.Time) : nat :=
  Nat.max (S (Z.to_nat Day))
          (day_steps (time.Truncate fromUTC (24 * time.Hour))
                     (time.Truncate toUTC (24 * time.Hour))).

(** The largest number of minutes a [time.Duration] can hold. *)
Definition maxSlotMins : Z := 153722867.

(** The slot length is positive and its duration does not overflow. *)
Definition slot_length_in_range (r : AvailabilityRule.t) : Prop :=
  1 <= AvailabilityRule.SlotLengthMins r <= maxSlotMins.

(** Identifiers of stored bookings are UUIDs, hence not empty. *)
Definition wf_ids (db : DB) : Prop :=
  forall b, In b (bookings db) -> Booking.ID b <> ""%string.

(** A confirmed booking of [userID] starts exactly at [start]. *)
Definition booked_at (db : DB) (userID : string) (start : time.Time) : Prop :=
  exists b, In b (bookings db) /\ confirmed_of userID b /\ Booking.StartAtUTC b = start.

(** The row [InsertBooking] writes for a request. *)
Definition stored_row (id userID : string) (req : CreateBookingParams) (pg_now : time.Time)
    : Booking.t :=
  Booking.mk id userID (pCandidateEmail req) (time.UTC (pStart req)) (time.UTC (pEnd req))
    "confirmed" (pSource req) (pType req) (pDescription req) (pTitle req) pg_now.

(** The store after a booking was committed. *)
Definition db_after_booking (db : DB) (userID : string) (req : CreateBookingParams)
    (pg_now : time.Time) : DB :=
  mkDB (availability_rules db)
       (bookings db ++ [stored_row (gen_random_uuid (uuid_seq db)) userID req pg_now])
       (S (uuid_seq db)).

(** The row whose status [CancelBooking] reads; identifiers are a primary
    key, so it is the booking with that identifier. *)
Definition lookup_booking (db : DB) (id : string) : option Booking.t :=
  List.find (fun b => String.eqb (Booking.ID b) id) (bookings db).

(** The store after the conditional update. *)
Definition cancelled_in (db : DB) (id : string) : DB := snd (BookingRepo.CancelBooking db id).

(** ** Concrete data used by the examples

    2024-01-01 was a Monday; [monday_at h m] is [h:m] UTC on that day. *)

Definition monday : time.Time := 1704067200 * time.Second.

Definition monday_at (h m : Z) : time.Time := monday + h * time.Hour + m * time.Minute.

Definition rule_of (day : Z) (startTime endTime : string) (mins : Z) : AvailabilityRule.t :=
  AvailabilityRule.mk "" "" day startTime endTime mins "" true 0 0.

Definition request (start end_ : time.Time) : CreateBookingParams :=
  mkParams "candidate@example.org" start end_ "" "" "" "".

Definition empty_db : DB := mkDB [] [] 0.

(** The store after [SetAvailability] of one rule for user "u". *)
Definition db_with (r : AvailabilityRule.t) : DB :=
  snd (AvailabilityService.SetAvailability empty_db "u" [r] 0).

(** The store after a further [CreateBooking] (unchanged if it fails). *)
Definition db_booked (db : DB) (start end_ : time.Time) : DB :=
  match BookingService.CreateBooking 10 db "u" (request start end_) 0 0 with
  | Some (_, db') => db'
  | None => db
  end.

(** Monday 09:00-10:00 in half-hour slots. *)
Definition half_hours : AvailabilityRule.t := rule_of 1 "09:00" "10:00" 30.

(** A rule that is valid as the data model has it (weekday 0-6, end after
    start, positive slot length), with a slot length of 307445735 minutes:
    the product with [time.Minute] wraps around to 26.290448384 s. *)
Definition wrapping_rule : AvailabilityRule.t := rule_of 1 "09:00" "09:01" 307445735.

(** Monday 09:00-11:00 as a single slot of two hours. *)
Definition two_hours : AvailabilityRule.t := rule_of 1 "09:00" "11:00" 120.

(** Monday 09:00-10:00 with a slot length of 153722868 minutes, one more
    than a [time.Duration] holds: the product wraps around to a negative
    duration. *)
Definition overlong_rule : AvailabilityRule.t := rule_of 1 "09:00" "10:00" 153722868.


(** ** Listings and invariants of the booking table *)

(** Bookings in ascending order of their start. *)
Definition by_start (a b : Booking.t) : Prop := Booking.StartAtUTC a <= Booking.StartAtUTC b.

(** The rows [ListBookings] selects. *)
Definition listed (userID : string) (from to : time.Time) (filtered : bool) (b : Booking.t)
    : Prop :=
  Booking.UserID b = userID /\ Booking.Status b <> "cancelled"%string /\
  (filtered = true -> from <= Booking.StartAtUTC b < to).

(** No user has two confirmed bookings with the same start. *)
Definition at_most_one_confirmed (db : DB) : Prop :=
  forall userID start,
    (List.length (List.filter (BookingRepo.confirmed_at userID start) (bookings db)) <= 1)%nat.

(** The identifier the next insertion draws is not in use by a booking. *)
Definition next_id_unused (db : DB) : Prop :=
  forall b, In b (bookings db) -> Booking.ID b <> gen_random_uuid (uuid_seq db).

(** What a booking at [start] removes from a derivation over
    [fromUTC, toUTC): the slots that start in the same second, when [start]
    lies within the hour around the window. *)
Definition survives (start fromUTC toUTC : time.Time) (sl : Slot) : bool :=
  negb ((fromUTC - time.Hour <=? start) && (start <? toUTC + time.Hour)
        && (time.Unix (StartUTC sl) =? time.Unix start)).

(** ** Calls made one after another *)

(** A call of one of the operations of the two services. *)
Inductive request_of_client :=
| DoSetAvailability (userID : string) (rules : list AvailabilityRule.t) (now : time.Time)
| DoUpdateAvailability (userID ruleID : string) (rule : AvailabilityRule.t) (now : time.Time)
| DoCreateBooking (fuel : nat) (userID : string) (req : CreateBookingParams)
    (now pg_now : time.Time)
| DoCancelBooking (id : string).

(** The store a call leaves behind; [None] when the call does not return. *)
Definition store_after (db : DB) (c : request_of_client) : option DB :=
  match c with
  | DoSetAvailability userID rules now =>
    Some (snd (AvailabilityService.SetAvailability db userID rules now))
  | DoUpdateAvailability userID ruleID rule now =>
    Some (snd (AvailabilityService.UpdateAvailability db userID ruleID rule now))
  | DoCreateBooking fuel userID req now pg_now =>
    option_map snd (BookingService.CreateBooking fuel db userID req now pg_now)
  | DoCancelBooking id =>
    Some (snd (BookingService.CancelBooking (fun d => d) db id))
  end.

Fixpoint store_after_all (db : DB) (cs : list request_of_client) : option DB :=
  match cs with
  | [] => Some db
  | c :: rest =>
    match store_after db c with
    | Some db' => store_after_all db' rest
    | None => None
    end
  end.

(** The identifiers of the bookings were drawn from the sequence, each
    once. *)
Definition ids_drawn (db : DB) : Prop :=
  NoDup (map Booking.ID (bookings db)) /\
  forall b, In b (bookings db) ->
    exists k, (k < uuid_seq db)%nat /\ Booking.ID b = gen_random_uuid k.

(** Every booking is confirmed or cancelled. *)
Definition statuses_known (db : DB) : Prop :=
  forall b, In b (bookings db) ->
    Booking.Status b = "confirmed"%string \/ Booking.Status b = "cancelled"%string.

(** The invariant of the stores that calls made one after another reach. *)
Definition reachable_inv (db : DB) : Prop :=
  ids_drawn db /\ at_most_one_confirmed db /\ statuses_known db.

(** ** Rules *)

(** A rule as [SetAvailability] stores it when the clock times are written
    with two digits for the hour: it passes validation, and its slot length
    fits a duration. *)
Definition well_formed_rule (r : AvailabilityRule.t) : Prop :=
  AvailabilityService.validateAvailabilityRule r = None /\
  String.length (AvailabilityRule.StartTime r) = 5%nat /\
  String.length (AvailabilityRule.EndTime r) = 5%nat /\
  slot_length_in_range r.

(** No rule of the store has the identifier the next insertion draws. *)
Definition next_rule_id_unused (db : DB) : Prop :=
  forall r, In r (availability_rules db) ->
    forall k, (uuid_seq db <= k)%nat -> AvailabilityRule.ID r <> gen_random_uuid k.

(** [n] consecutive tiles of length [slotLen], the first starting at [s0]. *)
Fixpoint tiles_from (s0 : time.Time) (slotLen : time.Duration) (n : nat) : list Slot :=
  match n with
  | O => []
  | S n' => mkSlot s0 (s0 + slotLen) :: tiles_from (s0 + slotLen) slotLen n'
  end.

(** ** Clock times, errors and keys *)

(** Whether the clock time [h:m], written with two digits each, is read
    back as [clock h m]. *)
Definition round_trip_ok (h m : nat) : bool :=
  match time.Parse1504 (String.append (timeFormat.appendInt2 (Z.of_nat h))
                          (String ":"%char (timeFormat.appendInt2 (Z.of_nat m)))) with
  | Ok t => t =? clock (Z.of_nat h) (Z.of_nat m)
  | Err _ => false
  end.


(** Rows of the table of API keys by email and by hash. *)
Definition has_email (email : string) (k : APIKey.t) : bool := String.eqb (APIKey.Email k) email.
Definition has_hash (h : string) (k : APIKey.t) : bool := String.eqb (APIKey.KeyHash k) h.

(** The rows after a successful [UpdateAPIKeyHash]. *)
Definition rehashed (email h : string) (rows : list APIKey.t) : list APIKey.t :=
  map (fun k => if String.eqb (APIKey.Email k) email then with_KeyHash k h else k) rows.

(** ** Further concrete data used by the examples *)

(** The requested half hour 09:00-09:30 of that Monday. *)
Definition first_half_hour : CreateBookingParams := request (monday_at 9 0) (monday_at 9 30).

(** The row that [db_with half_hours] holds. *)
Definition half_hours_row : AvailabilityRule.t :=
  AvailabilityRule.mk "uuid-0" "u" 1 "09:00" "10:00" 30 "" true 0 0.

(** Tuesday 10:00-11:00 in half-hour slots. *)
Definition tuesday_rule : AvailabilityRule.t := rule_of 2 "10:00" "11:00" 30.

(** A rule, a booking, its cancellation and the same booking again. *)
Definition example_calls : list request_of_client :=
  [DoSetAvailability "u" [half_hours] 0;
   DoCreateBooking 10 "u" first_half_hour 0 0;
   DoCancelBooking "uuid-1";
   DoCreateBooking 10 "u" first_half_hour 5 5].

(** A Google Meet event on that Monday, 09:00-09:30. *)
Definition meet_event : CalendarImport.CalendarEvent :=
  CalendarImport.mkEvent "Interview" (monday_at 9 0) (monday_at 9 30)
    "candidate@example.org" "https://meet.google.com/abc-defg-hij".

(** An empty table of API keys, and stand-ins for the two parameters of
    the key store in the examples: a hash that prefixes its argument (it
    is injective, as the examples need), and the name of the constraint
    as the text of a violation. *)
Definition no_keys : KeyDB := mkKeyDB [] 0.
Definition example_hash (s : string) : string := String.append "h:" s.
Definition example_violation (err : PgError) : string :=
  match err with UniqueViolation constraint => constraint end.


(** The key store after a first key for b@example.org. *)
Definition keys_of_b : KeyDB :=
  snd (GenerateAPIKey example_hash example_violation no_keys "b@example.org" "pw" "0001" 0).


(** * Properties *)

(** ** Arithmetic of instants *)

Lemma Day_value : Day = 86400000000000.
Proof. reflexivity. Qed.

Lemma Minute_value : time.Minute = 60000000000.
Proof. reflexivity. Qed.

Lemma Hour_value : time.Hour = 3600000000000.
Proof. reflexivity. Qed.

Lemma Second_value : time.Second = 1000000000.
Proof. reflexivity. Qed.

Lemma Truncate_day (t : time.Time) :
  time.Truncate t (24 * time.Hour) = t - t mod Day.
Proof.
  unfold time.Truncate. rewrite Day_value.
  change (24 * time.Hour) with 86400000000000.
  change (time.unixToInternal * time.Second) with (719162 * 86400000000000).
  rewrite Z_mod_plus_full. reflexivity.
Qed.

Lemma Truncate_day_midnight (t : time.Time) :
  (time.Truncate t (24 * time.Hour)) mod Day = 0.
Proof.
  rewrite Truncate_day, Day_value.
  pose proof (Z.div_mod t 86400000000000 ltac:(lia)) as E.
  replace (t - t mod 86400000000000) with ((t / 86400000000000) * 86400000000000) by lia.
  apply Z_mod_mult.
Qed.

Lemma Truncate_day_le (t : time.Time) :
  time.Truncate t (24 * time.Hour) <= t < time.Truncate t (24 * time.Hour) + Day.
Proof.
  rewrite Truncate_day, Day_value.
  pose proof (Z.mod_pos_bound t 86400000000000 ltac:(lia)). lia.
Qed.

Lemma HourOf_clock h m : 0 <= h < 24 -> 0 <= m < 60 -> time.HourOf (clock h m) = h.
Proof.
  intros Hh Hm. unfold clock, time.HourOf. rewrite Hour_value, Minute_value.
  change time.yearZero with (-719528 * 86400000000000).
  change (24 * 3600000000000) with 86400000000000.
  replace (-719528 * 86400000000000 + h * 3600000000000 + m * 60000000000)
    with (h * 3600000000000 + m * 60000000000 + -719528 * 86400000000000) by lia.
  rewrite Z_mod_plus_full, Z.mod_small by lia.
  symmetry. apply (Z.div_unique _ _ _ (m * 60000000000)); lia.
Qed.

Lemma MinuteOf_clock h m : 0 <= h < 24 -> 0 <= m < 60 -> time.MinuteOf (clock h m) = m.
Proof.
  intros Hh Hm. unfold clock, time.MinuteOf. rewrite Hour_value, Minute_value.
  change time.yearZero with (-719528 * 86400000000000).
  replace (-719528 * 86400000000000 + h * 3600000000000 + m * 60000000000)
    with (m * 60000000000 + (-719528 * 24 + h) * 3600000000000) by lia.
  rewrite Z_mod_plus_full, Z.mod_small by lia.
  apply Z_div_mult_full. lia.
Qed.

Lemma HourOf_range t : 0 <= time.HourOf t < 24.
Proof.
  unfold time.HourOf. rewrite Hour_value.
  change (24 * 3600000000000) with 86400000000000.
  pose proof (Z.mod_pos_bound t 86400000000000 ltac:(lia)).
  split; [apply Z.div_pos; lia | apply Z.div_lt_upper_bound; lia].
Qed.

Lemma MinuteOf_range t : 0 <= time.MinuteOf t < 60.
Proof.
  unfold time.MinuteOf. rewrite Hour_value, Minute_value.
  pose proof (Z.mod_pos_bound t 3600000000000 ltac:(lia)).
  split; [apply Z.div_pos; lia | apply Z.div_lt_upper_bound; lia].
Qed.

Lemma Parse1504_clock value t :
  time.Parse1504 value = Ok t ->
  exists h m, 0 <= h < 24 /\ 0 <= m < 60 /\ t = clock h m.
Proof.
  unfold time.Parse1504.
  destruct (time.getnum value false) as [[hour value1]|]; [|discriminate].
  destruct ((hour <? 0) || (24 <=? hour)) eqn:Hh; [discriminate|].
  destruct (time.skipColon value1) as [value2|]; [|discriminate].
  destruct (time.getnum value2 true) as [[min value3]|]; [|discriminate].
  destruct ((min <? 0) || (60 <=? min)) eqn:Hm; [discriminate|].
  destruct (negb (String.eqb value3 "")); [discriminate|].
  intros [= <-]. exists hour, min.
  apply orb_false_iff in Hh as [Hh1 Hh2]. apply orb_false_iff in Hm as [Hm1 Hm2].
  repeat split; try lia; reflexivity.
Qed.

Lemma parseHHMM_clock s t :
  AvailabilityService.parseHHMM s = Ok t ->
  exists h m, 0 <= h < 24 /\ 0 <= m < 60 /\ t = clock h m.
Proof.
  unfold AvailabilityService.parseHHMM.
  destruct (String.length s <? 5)%nat; [discriminate|]. apply Parse1504_clock.
Qed.

Lemma clock_After h1 m1 h2 m2 :
  0 <= m1 < 60 -> 0 <= m2 < 60 ->
  time.After (clock h2 m2) (clock h1 m1) = true <-> h1 * 60 + m1 < h2 * 60 + m2.
Proof.
  intros. unfold time.After, clock. rewrite Hour_value, Minute_value.
  rewrite Z.ltb_lt. lia.
Qed.

Lemma on_day_bounds day tod :
  day mod Day = 0 -> day <= on_day day tod < day + Day /\ (on_day day tod) mod time.Minute = 0.
Proof.
  intros Hd. unfold on_day, time.DateClock.
  pose proof (HourOf_range tod). pose proof (MinuteOf_range tod).
  fold Day. rewrite Hd. rewrite Day_value in *. rewrite Hour_value, Minute_value.
  split; [lia|].
  apply Z.mod_divide in Hd as [q Hq]; [|lia].
  replace (day - 0 + time.HourOf tod * 3600000000000 + time.MinuteOf tod * 60000000000)
    with ((q * 1440 + time.HourOf tod * 60 + time.MinuteOf tod) * 60000000000) by lia.
  apply Z_mod_mult.
Qed.

Lemma on_day_After day s e :
  (exists h m, 0 <= h < 24 /\ 0 <= m < 60 /\ s = clock h m) ->
  (exists h m, 0 <= h < 24 /\ 0 <= m < 60 /\ e = clock h m) ->
  time.After e s = true -> on_day day s < on_day day e.
Proof.
  intros (h1 & m1 & Hh1 & Hm1 & ->) (h2 & m2 & Hh2 & Hm2 & ->) Ha.
  apply clock_After in Ha; [|lia|lia].
  unfold on_day. rewrite !HourOf_clock, !MinuteOf_clock by lia.
  unfold time.DateClock. rewrite Hour_value, Minute_value. lia.
Qed.

(** ** The tiling loop *)

Section Tile.
Import AvailabilityService.

Variables (utcEnd : time.Time) (slotLen : time.Duration) (fromUTC toUTC : time.Time)
          (available : bool).

(** One iteration, with the guards in arithmetic form. *)
Lemma tile_S fuel s0 candidate :
  tile (S fuel) s0 utcEnd slotLen fromUTC toUTC available candidate =
  if s0 + slotLen <=? utcEnd then
    if (fromUTC <? s0 + slotLen) && (s0 <? toUTC) && available
    then tile fuel (s0 + slotLen) utcEnd slotLen fromUTC toUTC available
              (candidate ++ [mkSlot s0 (s0 + slotLen)])
    else tile fuel (s0 + slotLen) utcEnd slotLen fromUTC toUTC available candidate
  else Some candidate.
Proof.
  cbn [tile]. unfold time.Equal, time.Before, time.After, time.Add.
  destruct (Z.eqb_spec (s0 + slotLen) utcEnd), (Z.ltb_spec (s0 + slotLen) utcEnd),
    (Z.leb_spec (s0 + slotLen) utcEnd); try lia; cbn [orb];
    destruct (fromUTC <? s0 + slotLen), (s0 <? toUTC), available; reflexivity.
Qed.

(** A non-positive slot length never leaves the loop. *)
Lemma tile_diverges fuel :
  slotLen <= 0 -> forall s0 candidate,
  s0 + slotLen <= utcEnd ->
  tile fuel s0 utcEnd slotLen fromUTC toUTC available candidate = None.
Proof.
  intros Hlen. induction fuel as [|fuel IH]; intros s0 candidate Hs; [reflexivity|].
  rewrite tile_S. destruct (Z.leb_spec (s0 + slotLen) utcEnd); [|lia].
  destruct (_ && _ && _); apply IH; lia.
Qed.

Lemma tile_mono fuel fuel' :
  (fuel <= fuel')%nat -> forall s0 candidate out,
  tile fuel s0 utcEnd slotLen fromUTC toUTC available candidate = Some out ->
  tile fuel' s0 utcEnd slotLen fromUTC toUTC available candidate = Some out.
Proof.
  revert fuel'. induction fuel as [|fuel IH]; intros fuel' Hle s0 candidate out H;
    [discriminate|].
  destruct fuel' as [|fuel']; [lia|].
  rewrite tile_S in *. destruct (s0 + slotLen <=? utcEnd); [|assumption].
  destruct (_ && _ && _); apply IH; (lia || assumption).
Qed.

Lemma tile_terminates fuel :
  0 < slotLen -> forall s0 candidate,
  (tile_steps utcEnd slotLen s0 <= fuel)%nat ->
  exists out, tile fuel s0 utcEnd slotLen fromUTC toUTC available candidate = Some out.
Proof.
  intros Hlen. unfold tile_steps.
  induction fuel as [|fuel IH]; intros s0 candidate Hf; [lia|].
  rewrite tile_S. destruct (Z.leb_spec (s0 + slotLen) utcEnd) as [Hle|Hgt]; [|eauto].
  assert (Hq : (utcEnd - (s0 + slotLen)) / slotLen = (utcEnd - s0) / slotLen - 1).
  { replace (utcEnd - (s0 + slotLen)) with ((utcEnd - s0) + (-1) * slotLen) by lia.
    rewrite Z.div_add by lia. lia. }
  assert (0 <= (utcEnd - (s0 + slotLen)) / slotLen) by (apply Z.div_pos; lia).
  destruct (_ && _ && _); apply IH; rewrite Hq; lia.
Qed.

Lemma tile_In fuel :
  0 < slotLen -> forall s0 candidate out,
  tile fuel s0 utcEnd slotLen fromUTC toUTC available candidate = Some out ->
  forall sl, In sl out <->
             In sl candidate \/ (available = true /\ tile_of utcEnd slotLen s0 sl /\ overlaps fromUTC toUTC sl).
Proof.
  intros Hlen. induction fuel as [|fuel IH]; intros s0 candidate out H sl; [discriminate|].
  rewrite tile_S in H.
  destruct (Z.leb_spec (s0 + slotLen) utcEnd) as [Hle|Hgt].
  - assert (Hshift : forall sl', tile_of utcEnd slotLen s0 sl' <->
              (sl' = mkSlot s0 (s0 + slotLen) \/ tile_of utcEnd slotLen (s0 + slotLen) sl')).
    { intros [a b]. unfold tile_of; cbn. split.
      - intros (k & Hk & -> & -> & Hend).
        destruct (Z.eq_dec k 0) as [->|Hk0].
        + left. f_equal; lia.
        + right. exists (k - 1). repeat split; lia.
      - intros [[= -> ->]|(k & Hk & -> & -> & Hend)].
        + exists 0. repeat split; lia.
        + exists (k + 1). repeat split; lia. }
    destruct ((fromUTC <? s0 + slotLen) && (s0 <? toUTC) && available) eqn:Hc.
    + apply andb_prop in Hc as [Hc Hav]. apply andb_prop in Hc as [Hf Ht].
      apply Z.ltb_lt in Hf, Ht.
      rewrite (IH _ _ _ H sl), in_app_iff, Hshift. cbn [In].
      unfold overlaps. split.
      * intros [[?|[<-|[]]]|(? & ? & ?)]; cbn; intuition.
      * intros [?|(? & [->|?] & ?)]; intuition.
    + rewrite (IH _ _ _ H sl), Hshift. unfold overlaps. split.
      * intros [?|(? & ? & ?)]; intuition.
      * intros [?|(Hav & [->|?] & Hf & Ht)]; [intuition| |intuition].
        cbn in Hf, Ht. rewrite Hav in Hc.
        apply Z.ltb_lt in Hf, Ht. rewrite Hf, Ht in Hc. discriminate.
  - injection H as <-. split; [auto|].
    intros [?|(_ & (k & Hk & Hs & He & Hend) & _)]; [assumption|]. nia.
Qed.
End Tile.

(** ** Candidate slots of a rule set *)

Section Candidates.
Import AvailabilityService AvailabilityRule.

Variables (fromUTC toUTC : time.Time).

Lemma over_rules_In fuel day rules :
  forall candidate out,
  over_rules fuel day rules fromUTC toUTC candidate = Some (Ok out) ->
  forall sl, In sl out <-> In sl candidate \/ produced fromUTC toUTC rules day sl.
Proof.
  induction rules as [|r rest IH]; intros candidate out H sl; cbn [over_rules] in H.
  - injection H as <-. split; [auto|]. intros [?|(r & [] & _)]. assumption.
  - destruct (Z.eqb_spec (time.Weekday day) (DayOfWeek r)) as [Hw|Hw]; cbn [negb] in H.
    + destruct (parseHHMM (StartTime r)) as [startTOD|] eqn:Hs; [|discriminate].
      destruct (parseHHMM (EndTime r)) as [endTOD|] eqn:He; [|discriminate].
      destruct (time.After endTOD startTOD) eqn:Ha; cbn [negb] in H; [|discriminate].
      fold (on_day day startTOD) in H. fold (on_day day endTOD) in H. fold (slot_len r) in H.
      destruct (tile fuel _ _ _ _ _ _ _) as [candidate'|] eqn:Ht; [|discriminate].
      assert (Hlen : 0 < slot_len r).
      { destruct (Z.lt_ge_cases 0 (slot_len r)) as [|Hneg]; [assumption|].
        pose proof (on_day_After day _ _ (parseHHMM_clock _ _ Hs) (parseHHMM_clock _ _ He) Ha).
        rewrite tile_diverges in Ht by lia. discriminate. }
      rewrite (IH _ _ H sl), (tile_In _ _ _ _ _ _ Hlen _ _ _ Ht sl).
      unfold produced. split.
      * intros [[?|(Hav & Htile & Hov)]|(r' & Hin & ?)]; [auto| |right; exists r'; cbn; auto].
        right. exists r. split; [left; reflexivity|]. split; [assumption|].
        split; [|assumption]. exists startTOD, endTOD. auto 10.
      * intros [?|(r' & [<-|Hin] & Hav & Htl & Hov)]; [auto| |right; exists r'; auto].
        left. right. destruct Htl as (s' & e' & Hs' & He' & _ & _ & _ & Htile).
        rewrite Hs in Hs'. rewrite He in He'. injection Hs' as <-. injection He' as <-. auto.
    + rewrite (IH _ _ H sl). unfold produced. split.
      * intros [?|(r' & Hin & ?)]; [auto|]. right. exists r'. cbn. auto.
      * intros [?|(r' & [<-|Hin] & Hav & Htl & Hov)]; [auto| |right; exists r'; auto].
        destruct Htl as (? & ? & _ & _ & _ & Hw' & _). contradiction.
Qed.

Lemma over_days_In fuel_days fuel endDate rules :
  forall day candidate out,
  over_days fuel_days fuel day endDate rules fromUTC toUTC candidate = Some (Ok out) ->
  forall sl, In sl out <->
             In sl candidate \/
             exists j, 0 <= j /\ day + j * Day <= endDate /\ produced fromUTC toUTC rules (day + j * Day) sl.
Proof.
  induction fuel_days as [|fd IH]; intros day candidate out H sl; [discriminate|].
  cbn [over_days] in H. unfold time.After in H.
  destruct (Z.ltb_spec endDate day) as [Hlt|Hle]; cbn [negb] in H.
  - injection H as <-. split; [auto|]. intros [?|(j & Hj & Hd & _)]; [assumption|].
    rewrite Day_value in Hd. lia.
  - destruct (over_rules fuel day rules fromUTC toUTC candidate) as [[candidate'|]|] eqn:Hr;
      try discriminate.
    rewrite (IH _ _ _ H sl), (over_rules_In _ _ _ _ _ Hr sl).
    unfold time.Add. fold Day. split.
    + intros [[?|Hp]|(j & Hj & Hd & Hp)]; [auto| |].
      * right. exists 0. rewrite Z.add_0_r. split; [lia|]. split; assumption.
      * right. exists (j + 1). replace (day + (j + 1) * Day) with (day + Day + j * Day) by lia.
        split; [lia|]. split; assumption.
    + intros [?|(j & Hj & Hd & Hp)]; [auto|].
      destruct (Z.eq_dec j 0) as [->|Hj0].
      * rewrite Z.add_0_r in Hp. auto.
      * right. exists (j - 1).
        replace (day + Day + (j - 1) * Day) with (day + j * Day) by lia.
        split; [lia|]. split; assumption.
Qed.

Lemma candidates_In fuel rules out :
  candidates fuel rules fromUTC toUTC = Some (Ok out) ->
  forall sl, In sl out <->
    exists j, 0 <= j /\
      time.Truncate fromUTC (24 * time.Hour) + j * Day <= time.Truncate toUTC (24 * time.Hour) /\
      produced fromUTC toUTC rules (time.Truncate fromUTC (24 * time.Hour) + j * Day) sl.
Proof.
  unfold candidates. intros H sl. rewrite (over_days_In _ _ _ _ _ _ _ H sl).
  cbn [In]. tauto.
Qed.

(** *** More fuel does not change a result *)

Lemma over_rules_mono fuel fuel' day rules :
  (fuel <= fuel')%nat -> forall candidate res,
  over_rules fuel day rules fromUTC toUTC candidate = Some res ->
  over_rules fuel' day rules fromUTC toUTC candidate = Some res.
Proof.
  intros Hle. induction rules as [|r rest IH]; intros candidate res H; [assumption|].
  cbn [over_rules] in *.
  destruct (negb (time.Weekday day =? DayOfWeek r)); [auto|].
  destruct (parseHHMM (StartTime r)); [|assumption].
  destruct (parseHHMM (EndTime r)); [|assumption].
  destruct (negb (time.After _ _)); [assumption|].
  destruct (tile fuel _ _ _ _ _ _ _) as [candidate'|] eqn:Ht; [|discriminate].
  rewrite (tile_mono _ _ _ _ _ _ _ Hle _ _ _ Ht). auto.
Qed.

Lemma over_days_mono fuel_days fuel_days' fuel fuel' endDate rules :
  (fuel_days <= fuel_days')%nat -> (fuel <= fuel')%nat -> forall day candidate res,
  over_days fuel_days fuel day endDate rules fromUTC toUTC candidate = Some res ->
  over_days fuel_days' fuel' day endDate rules fromUTC toUTC candidate = Some res.
Proof.
  revert fuel_days'. induction fuel_days as [|fd IH]; intros fd' Hd Hf day candidate res H;
    [discriminate|].
  destruct fd' as [|fd']; [lia|]. cbn [over_days] in *.
  destruct (negb (time.After day endDate)); [|assumption].
  destruct (over_rules fuel _ _ _ _ _) as [r|] eqn:Hr; [|discriminate].
  rewrite (over_rules_mono _ _ _ _ Hf _ _ Hr).
  destruct r; [|assumption]. apply IH; (lia || assumption).
Qed.

Lemma candidates_mono fuel fuel' rules res :
  (fuel <= fuel')%nat ->
  candidates fuel rules fromUTC toUTC = Some res ->
  candidates fuel' rules fromUTC toUTC = Some res.
Proof. intros Hle. unfold candidates. apply over_days_mono; assumption. Qed.

(** *** Enough fuel gives a result *)

Lemma DateClock_span day h1 m1 h2 m2 :
  0 <= h1 -> 0 <= m1 -> h2 < 24 -> m2 < 60 ->
  time.DateClock day h2 m2 - time.DateClock day h1 m1 < Day.
Proof.
  intros. unfold time.DateClock. rewrite Day_value, Hour_value, Minute_value. lia.
Qed.

Lemma tile_steps_day utcEnd len s0 :
  0 < len -> utcEnd - s0 < Day -> (tile_steps utcEnd len s0 <= S (Z.to_nat Day))%nat.
Proof.
  intros Hlen Hspan. unfold tile_steps.
  pose proof (Z.mul_div_le (utcEnd - s0) len Hlen).
  rewrite Day_value in *.
  assert ((utcEnd - s0) / len < 86400000000000) by nia. lia.
Qed.

Lemma over_rules_terminates fuel day rules :
  (forall r, In r rules -> 0 < slot_len r) ->
  (S (Z.to_nat Day) <= fuel)%nat -> forall candidate,
  exists res, over_rules fuel day rules fromUTC toUTC candidate = Some res.
Proof.
  intros Hpos Hf. induction rules as [|r rest IH]; intros candidate; cbn [over_rules];
    [eauto|].
  destruct (negb (time.Weekday day =? DayOfWeek r)); [apply IH; intros; apply Hpos; cbn; auto|].
  destruct (parseHHMM (StartTime r)) as [startTOD|]; [|eauto].
  destruct (parseHHMM (EndTime r)) as [endTOD|]; [|eauto].
  destruct (negb (time.After _ _)); [eauto|].
  fold (slot_len r).
  assert (Hlen : 0 < slot_len r) by (apply Hpos; cbn; auto).
  destruct (tile_terminates (time.DateClock day (time.HourOf endTOD) (time.MinuteOf endTOD))
              (slot_len r) fromUTC toUTC (Available r) fuel Hlen
              (time.DateClock day (time.HourOf startTOD) (time.MinuteOf startTOD)) candidate)
    as [out ->].
  - etransitivity; [|exact Hf]. apply tile_steps_day; [assumption|].
    pose proof (HourOf_range startTOD). pose proof (MinuteOf_range startTOD).
    pose proof (HourOf_range endTOD). pose proof (MinuteOf_range endTOD).
    apply DateClock_span; lia.
  - apply IH. intros; apply Hpos; cbn; auto.
Qed.

Lemma over_days_terminates fuel_days fuel endDate rules :
  (forall r, In r rules -> 0 < slot_len r) ->
  (S (Z.to_nat Day) <= fuel)%nat -> forall day candidate,
  (day_steps day endDate <= fuel_days)%nat ->
  exists res, over_days fuel_days fuel day endDate rules fromUTC toUTC candidate = Some res.
Proof.
  intros Hpos Hf. unfold day_steps.
  induction fuel_days as [|fd IH]; intros day candidate Hd; [lia|].
  cbn [over_days]. unfold time.After, time.Add. fold Day.
  destruct (Z.ltb_spec endDate day) as [Hlt|Hle]; cbn [negb]; [eauto|].
  destruct (over_rules_terminates fuel day rules Hpos Hf candidate) as [[candidate'|e] ->];
    [|eauto].
  apply IH.
  assert (Hq : (endDate - (day + Day)) / Day = (endDate - day) / Day - 1).
  { replace (endDate - (day + Day)) with ((endDate - day) + (-1) * Day) by lia.
    rewrite Z.div_add by (rewrite Day_value; lia). lia. }
  assert (0 <= (endDate - day) / Day) by (apply Z.div_pos; rewrite ?Day_value; lia).
  rewrite Hq. lia.
Qed.
End Candidates.

(** ** Queries *)

Lemma insert_by_id_In r l x :
  In x (AvailabilityRepo.insert_by_id r l) <-> x = r \/ In x l.
Proof.
  induction l as [|y l IH]; cbn; [intuition|].
  destruct (String.leb _ _); cbn; rewrite ?IH; intuition.
Qed.

Lemma order_by_id_In l x : In x (AvailabilityRepo.order_by_id l) <-> In x l.
Proof.
  unfold AvailabilityRepo.order_by_id. induction l as [|y l IH]; cbn; [tauto|].
  rewrite insert_by_id_In, IH. intuition.
Qed.

Lemma ListAvailabilityRules_In db userID r :
  In r (AvailabilityRepo.ListAvailabilityRules db userID) <->
  In r (availability_rules db) /\ AvailabilityRule.UserID r = userID.
Proof.
  unfold AvailabilityRepo.ListAvailabilityRules.
  rewrite order_by_id_In, filter_In, String.eqb_eq. reflexivity.
Qed.

Lemma ListBookingsInRange_In db userID from to b' :
  In b' (BookingRepo.ListBookingsInRange db viaPool userID from to) <->
  exists b, In b (bookings db) /\ b' = BookingRepo.scan_listed b /\
            confirmed_of userID b /\ from <= Booking.StartAtUTC b < to.
Proof.
  unfold BookingRepo.ListBookingsInRange, confirmed_of. cbn [visible].
  rewrite in_map_iff. split.
  - intros (b & <- & Hin). apply filter_In in Hin as [Hin Hc].
    repeat (apply andb_prop in Hc as [Hc ?]).
    exists b. rewrite String.eqb_eq in *. repeat split; auto; lia.
  - intros (b & Hin & -> & [Hu Hs] & Hlo & Hhi). exists b. split; [reflexivity|].
    apply filter_In. split; [assumption|].
    rewrite Hu, Hs, !String.eqb_refl. cbn.
    destruct (Z.leb_spec from (Booking.StartAtUTC b)), (Z.ltb_spec (Booking.StartAtUTC b) to);
      (reflexivity || lia).
Qed.

Lemma booked_set_elem bs z :
  z ∈ AvailabilityService.booked_set bs <->
  exists b, In b bs /\ time.Unix (Booking.StartAtUTC b) = z.
Proof.
  unfold AvailabilityService.booked_set.
  rewrite elem_of_list_to_set, list_elem_of_In, in_map_iff.
  split; intros (b & ? & ?); exists b; auto.
Qed.

Section Derivation.
Import AvailabilityService.

Lemma GenerateAvailableSlots_no_rules fuel db userID fromUTC toUTC :
  AvailabilityRepo.ListAvailabilityRules db userID = [] ->
  GenerateAvailableSlots fuel db userID fromUTC toUTC = Some (Ok []).
Proof. intros H. unfold GenerateAvailableSlots. rewrite H. reflexivity. Qed.

Lemma GenerateAvailableSlots_In fuel db userID fromUTC toUTC slots :
  GenerateAvailableSlots fuel db userID fromUTC toUTC = Some (Ok slots) ->
  AvailabilityRepo.ListAvailabilityRules db userID <> [] ->
  exists candidate,
    candidates fuel (AvailabilityRepo.ListAvailabilityRules db userID) fromUTC toUTC
      = Some (Ok candidate) /\
    forall sl, In sl slots <-> In sl candidate /\ ~ occupied db userID fromUTC toUTC sl.
Proof.
  unfold GenerateAvailableSlots. intros H Hne.
  destruct (AvailabilityRepo.ListAvailabilityRules db userID) as [|r rules] eqn:Hr;
    [contradiction|]. cbn [List.length Nat.eqb] in H.
  destruct (candidates fuel (r :: rules) fromUTC toUTC) as [[candidate|]|]; try discriminate.
  injection H as <-. exists candidate. split; [reflexivity|]. intros sl.
  rewrite filter_In, negb_true_iff, bool_decide_eq_false, booked_set_elem.
  unfold occupied, time.Add.
  split; intros [Hin Hno]; (split; [assumption|]); intros (b & Hb & Hrest); apply Hno.
  - destruct Hrest as (Hc & Hrange & Hu).
    exists (BookingRepo.scan_listed b). split; [|exact Hu].
    apply ListBookingsInRange_In. exists b. repeat split; try apply Hc; try assumption; lia.
  - apply ListBookingsInRange_In in Hb as (b0 & Hin0 & -> & Hc & Hrange).
    exists b0. repeat split; try apply Hc; try assumption; lia.
Qed.

Lemma GenerateAvailableSlots_sub fuel db userID fromUTC toUTC slots sl :
  GenerateAvailableSlots fuel db userID fromUTC toUTC = Some (Ok slots) ->
  In sl slots ->
  exists candidate,
    candidates fuel (AvailabilityRepo.ListAvailabilityRules db userID) fromUTC toUTC
      = Some (Ok candidate) /\ In sl candidate /\ ~ occupied db userID fromUTC toUTC sl.
Proof.
  intros H Hin.
  destruct (AvailabilityRepo.ListAvailabilityRules db userID) as [|r rules] eqn:Hr.
  - rewrite GenerateAvailableSlots_no_rules in H by assumption.
    injection H as <-. destruct Hin.
  - destruct (GenerateAvailableSlots_In _ _ _ _ _ _ H) as (candidate & Hc & Hiff).
    + rewrite Hr. discriminate.
    + rewrite Hr in Hc. exists candidate. split; [assumption|]. apply Hiff, Hin.
Qed.

Lemma GenerateAvailableSlots_mono fuel fuel' db userID fromUTC toUTC res :
  (fuel <= fuel')%nat ->
  GenerateAvailableSlots fuel db userID fromUTC toUTC = Some res ->
  GenerateAvailableSlots fuel' db userID fromUTC toUTC = Some res.
Proof.
  intros Hle. unfold GenerateAvailableSlots.
  destruct (List.length _ =? 0)%nat; [auto|].
  destruct (candidates fuel _ _ _) as [c|] eqn:Hc; [|discriminate].
  rewrite (candidates_mono _ _ _ _ _ _ Hle Hc). auto.
Qed.

Lemma GenerateAvailableSlots_terminates fuel db userID fromUTC toUTC :
  (forall r, In r (AvailabilityRepo.ListAvailabilityRules db userID) -> 0 < slot_len r) ->
  (enough_fuel fromUTC toUTC <= fuel)%nat ->
  exists res, GenerateAvailableSlots fuel db userID fromUTC toUTC = Some res.
Proof.
  intros Hpos Hf. unfold GenerateAvailableSlots, enough_fuel in *.
  destruct (List.length _ =? 0)%nat; [eauto|].
  unfold candidates.
  destruct (over_days_terminates fromUTC toUTC fuel fuel
              (time.Truncate toUTC (24 * time.Hour)) _ Hpos ltac:(lia)
              (time.Truncate fromUTC (24 * time.Hour)) [] ltac:(lia)) as [[c|e] ->]; eauto.
Qed.
End Derivation.

Example monday_is_monday : time.Weekday monday = 1 /\ monday mod Day = 0.
Proof. split; reflexivity. Qed.

Example scenario_two_slots :
  AvailabilityService.GenerateAvailableSlots 10 (db_with half_hours) "u" monday (monday + Day)
  = Some (Ok [mkSlot (monday_at 9 0) (monday_at 9 30); mkSlot (monday_at 9 30) (monday_at 10 0)]).
Proof. vm_compute. reflexivity. Qed.

Example scenario_booked_slot_excluded :
  AvailabilityService.GenerateAvailableSlots 10
    (db_booked (db_with half_hours) (monday_at 9 0) (monday_at 9 30)) "u" monday (monday + Day)
  = Some (Ok [mkSlot (monday_at 9 30) (monday_at 10 0)]).
Proof. vm_compute. reflexivity. Qed.

Example scenario_unaligned_request :
  option_map fst (BookingService.CreateBooking 10 (db_with half_hours) "u"
                    (request (monday_at 9 15) (monday_at 9 45)) 0 0)
  = Some (Err errSlotNotAvailable).
Proof. vm_compute. reflexivity. Qed.

Example scenario_end_before_start :
  fst (AvailabilityService.SetAvailability empty_db "u" [rule_of 1 "10:00" "09:00" 30] 0)
  = Err errEndBeforeStart.
Proof. vm_compute. reflexivity. Qed.

(** ** The window filter (C5) *)

Lemma tiled_within_day r day sl :
  day mod Day = 0 -> tiled r day sl -> day <= StartUTC sl /\ EndUTC sl < day + Day.
Proof.
  intros Hd (startTOD & endTOD & _ & _ & _ & _ & Hlen & k & Hk & Hs & He & Hend).
  pose proof (on_day_bounds day startTOD Hd) as [? _].
  pose proof (on_day_bounds day endTOD Hd) as [? _]. nia.
Qed.



(** ** Slot length and tiling (C4) *)

Lemma wrap64_small z : - 2 ^ 63 <= z < 2 ^ 63 -> time.wrap64 z = z.
Proof. intros H. unfold time.wrap64. rewrite Z.mod_small; lia. Qed.

Lemma slot_len_in_range r :
  slot_length_in_range r -> slot_len r = AvailabilityRule.SlotLengthMins r * time.Minute.
Proof.
  unfold slot_length_in_range, maxSlotMins, slot_len, time.mulDuration. intros H.
  apply wrap64_small. rewrite Minute_value. lia.
Qed.

Lemma slot_len_positive r : slot_length_in_range r -> 0 < slot_len r.
Proof.
  intros H. rewrite slot_len_in_range by assumption.
  unfold slot_length_in_range in H. rewrite Minute_value. lia.
Qed.

(** Every returned slot is a tile of an available rule of the user, on a
    day of the window. *)
Lemma GenerateAvailableSlots_tiled fuel db userID fromUTC toUTC slots sl :
  AvailabilityService.GenerateAvailableSlots fuel db userID fromUTC toUTC = Some (Ok slots) ->
  In sl slots ->
  exists r day,
    In r (AvailabilityRepo.ListAvailabilityRules db userID) /\
    AvailabilityRule.Available r = true /\ day mod Day = 0 /\ tiled r day sl /\
    overlaps fromUTC toUTC sl.
Proof.
  intros Hgen Hin.
  destruct (GenerateAvailableSlots_sub _ _ _ _ _ _ _ Hgen Hin) as (candidate & Hc & Hsl & _).
  apply (candidates_In _ _ _ _ _ Hc) in Hsl as (j & Hj & _ & r & Hr & Hav & Ht & Hov).
  exists r, (time.Truncate fromUTC (24 * time.Hour) + j * Day).
  repeat split; try assumption; try apply Hov.
  rewrite Z_mod_plus_full. apply Truncate_day_midnight.
Qed.

(** C4, as amended.  When the slot length of every rule of the user lies
    between 1 and 153722867 minutes, every returned slot lasts exactly the
    slot length of a rule that is available and whose weekday is that of
    the slot's day; it starts at the rule's start time on that day plus a
    whole number of slot lengths and ends no later than the rule's end time
    on that day. *)
Theorem C4_slots_follow_rule_tiling fuel db userID fromUTC toUTC slots sl :
  (forall r, In r (AvailabilityRepo.ListAvailabilityRules db userID) -> slot_length_in_range r) ->
  AvailabilityService.GenerateAvailableSlots fuel db userID fromUTC toUTC = Some (Ok slots) ->
  In sl slots ->
  exists r day startTOD endTOD k,
    In r (AvailabilityRepo.ListAvailabilityRules db userID) /\
    AvailabilityRule.Available r = true /\
    day mod Day = 0 /\ time.Weekday day = AvailabilityRule.DayOfWeek r /\
    AvailabilityService.parseHHMM (AvailabilityRule.StartTime r) = Ok startTOD /\
    AvailabilityService.parseHHMM (AvailabilityRule.EndTime r) = Ok endTOD /\
    0 <= k /\
    StartUTC sl = on_day day startTOD + k * (AvailabilityRule.SlotLengthMins r * time.Minute) /\
    EndUTC sl - StartUTC sl = AvailabilityRule.SlotLengthMins r * time.Minute /\
    EndUTC sl <= on_day day endTOD.
Proof.
  intros Hrange Hgen Hin.
  destruct (GenerateAvailableSlots_tiled _ _ _ _ _ _ _ Hgen Hin)
    as (r & day & Hr & Hav & Hday & Ht & _).
  destruct Ht as (startTOD & endTOD & Hs & He & _ & Hw & _ & k & Hk & Hstart & Hend & Hle).
  rewrite (slot_len_in_range r (Hrange r Hr)) in Hstart, Hend.
  exists r, day, startTOD, endTOD, k. repeat split; try assumption; lia.
Qed.

Lemma C4_slots_follow_rule_tiling_witness :
  exists r day startTOD endTOD k,
    In r (AvailabilityRepo.ListAvailabilityRules (db_with half_hours) "u") /\
    AvailabilityRule.Available r = true /\
    day mod Day = 0 /\ time.Weekday day = AvailabilityRule.DayOfWeek r /\
    AvailabilityService.parseHHMM (AvailabilityRule.StartTime r) = Ok startTOD /\
    AvailabilityService.parseHHMM (AvailabilityRule.EndTime r) = Ok endTOD /\
    0 <= k /\
    monday_at 9 30 = on_day day startTOD + k * (AvailabilityRule.SlotLengthMins r * time.Minute) /\
    monday_at 10 0 - monday_at 9 30 = AvailabilityRule.SlotLengthMins r * time.Minute /\
    monday_at 10 0 <= on_day day endTOD.
Proof.
  apply (C4_slots_follow_rule_tiling 10 (db_with half_hours) "u" monday (monday + Day)
           [mkSlot (monday_at 9 0) (monday_at 9 30); mkSlot (monday_at 9 30) (monday_at 10 0)]
           (mkSlot (monday_at 9 30) (monday_at 10 0))).
  - intros r [<-|[]]. vm_compute. split; discriminate.
  - vm_compute. reflexivity.
  - right. left. reflexivity.
Defined.

(** C4 as stated fails: the derivation returns a slot of 26290448384 ns for
    a rule set whose only rule has a slot length of 307445735 minutes. *)
Lemma C4_counterexample :
  let db := db_with wrapping_rule in
  let sl := mkSlot (monday_at 9 0) (monday_at 9 0 + 26290448384) in
  (forall r, In r (AvailabilityRepo.ListAvailabilityRules db "u") ->
     0 <= AvailabilityRule.DayOfWeek r <= 6 /\ 1 <= AvailabilityRule.SlotLengthMins r /\
     AvailabilityService.validateAvailabilityRule r = None) /\
  AvailabilityService.GenerateAvailableSlots 10 db "u" monday (monday + Day)
    = Some (Ok [sl; mkSlot (monday_at 9 0 + 26290448384) (monday_at 9 0 + 2 * 26290448384)]) /\
  forall r, In r (AvailabilityRepo.ListAvailabilityRules db "u") ->
    EndUTC sl - StartUTC sl <> AvailabilityRule.SlotLengthMins r * time.Minute.
Proof.
  intros db sl. split; [|split].
  - intros r [<-|[]]. vm_compute. repeat split; discriminate.
  - vm_compute. reflexivity.
  - intros r [<-|[]]. vm_compute. discriminate.
Qed.

(** ** Booked starts (C2) *)

(** When no slot is longer than the hour by which the booking query is
    padded, no returned slot starts at the start of a confirmed booking. *)
Lemma short_slots_exclude_booked_starts fuel db userID fromUTC toUTC slots sl b :
  (forall r, In r (AvailabilityRepo.ListAvailabilityRules db userID) -> slot_len r <= time.Hour) ->
  AvailabilityService.GenerateAvailableSlots fuel db userID fromUTC toUTC = Some (Ok slots) ->
  In sl slots -> In b (bookings db) -> confirmed_of userID b ->
  Booking.StartAtUTC b <> StartUTC sl.
Proof.
  intros Hshort Hgen Hin Hb Hc Heq.
  destruct (GenerateAvailableSlots_sub _ _ _ _ _ _ _ Hgen Hin) as (candidate & Hcand & Hsl & Hfree).
  apply (candidates_In _ _ _ _ _ Hcand) in Hsl as (j & _ & _ & r & Hr & _ & Ht & Hfrom & Hto).
  destruct Ht as (_ & _ & _ & _ & _ & _ & _ & k & _ & _ & Hend & _).
  specialize (Hshort r Hr). apply Hfree. exists b.
  rewrite Heq. rewrite Hour_value in *. repeat split; try apply Hc; try assumption; lia.
Qed.

(** C2, at the failing input.  With the slot 09:00-11:00 booked, a request
    for the window 10:30-11:00 loads the bookings that start from 09:30 on,
    misses the one at 09:00 and returns the slot that starts at 09:00. *)
Theorem C2_padding_misses_long_slots :
  let db := db_booked (db_with two_hours) (monday_at 9 0) (monday_at 11 0) in
  let sl := mkSlot (monday_at 9 0) (monday_at 11 0) in
  (exists b, In b (bookings db) /\ confirmed_of "u" b /\ Booking.StartAtUTC b = StartUTC sl) /\
  BookingRepo.ListBookingsInRange db viaPool "u"
    (time.Add (monday_at 10 30) (-1 * time.Hour)) (time.Add (monday_at 11 0) (1 * time.Hour)) = [] /\
  AvailabilityService.GenerateAvailableSlots 10 db "u" (monday_at 10 30) (monday_at 11 0)
    = Some (Ok [sl]).
Proof.
  intros db sl. split; [|split].
  - vm_compute. eexists. split; [left; reflexivity|]. auto.
  - vm_compute. reflexivity.
  - vm_compute. reflexivity.
Qed.

(** ** Termination of the derivation (C9) *)

Lemma over_rules_diverges fuel day r rest fromUTC toUTC candidate startTOD endTOD :
  time.Weekday day = AvailabilityRule.DayOfWeek r ->
  AvailabilityService.parseHHMM (AvailabilityRule.StartTime r) = Ok startTOD ->
  AvailabilityService.parseHHMM (AvailabilityRule.EndTime r) = Ok endTOD ->
  time.After endTOD startTOD = true ->
  slot_len r <= 0 ->
  AvailabilityService.over_rules fuel day (r :: rest) fromUTC toUTC candidate = None.
Proof.
  intros Hw Hs He Ha Hlen. cbn [AvailabilityService.over_rules].
  rewrite Hw, Z.eqb_refl, Hs, He, Ha. cbn [negb].
  fold (on_day day startTOD). fold (on_day day endTOD). fold (slot_len r).
  pose proof (on_day_After day _ _ (parseHHMM_clock _ _ Hs) (parseHHMM_clock _ _ He) Ha).
  rewrite tile_diverges by lia. reflexivity.
Qed.

Lemma over_days_diverges fuel_days fuel day endDate rules fromUTC toUTC candidate :
  day <= endDate ->
  AvailabilityService.over_rules fuel day rules fromUTC toUTC candidate = None ->
  AvailabilityService.over_days fuel_days fuel day endDate rules fromUTC toUTC candidate = None.
Proof.
  intros Hle Hr. destruct fuel_days as [|fd]; [reflexivity|].
  cbn [AvailabilityService.over_days]. unfold time.After.
  destruct (Z.ltb_spec endDate day); [lia|]. cbn [negb]. rewrite Hr. reflexivity.
Qed.

(** C9, as amended.  When the slot length of every rule of the user lies
    between 1 and 153722867 minutes, the cursor of the tiling loop advances
    by a positive duration and the derivation returns: from some amount of
    fuel on, it yields one and the same result. *)
Theorem C9_derivation_terminates db userID fromUTC toUTC :
  (forall r, In r (AvailabilityRepo.ListAvailabilityRules db userID) -> slot_length_in_range r) ->
  (forall r, In r (AvailabilityRepo.ListAvailabilityRules db userID) -> 0 < slot_len r) /\
  exists res fuel0, forall fuel, (fuel0 <= fuel)%nat ->
    AvailabilityService.GenerateAvailableSlots fuel db userID fromUTC toUTC = Some res.
Proof.
  intros Hrange.
  assert (Hpos : forall r, In r (AvailabilityRepo.ListAvailabilityRules db userID) -> 0 < slot_len r)
    by (intros r Hr; apply slot_len_positive, Hrange, Hr).
  split; [exact Hpos|].
  destruct (GenerateAvailableSlots_terminates (enough_fuel fromUTC toUTC) db userID
              fromUTC toUTC Hpos (Nat.le_refl _)) as [res Hres].
  exists res, (enough_fuel fromUTC toUTC). intros fuel Hle.
  exact (GenerateAvailableSlots_mono _ _ _ _ _ _ _ Hle Hres).
Qed.

Lemma C9_derivation_terminates_witness :
  (forall r, In r (AvailabilityRepo.ListAvailabilityRules (db_with half_hours) "u") ->
     0 < slot_len r) /\
  exists res fuel0, forall fuel, (fuel0 <= fuel)%nat ->
    AvailabilityService.GenerateAvailableSlots fuel (db_with half_hours) "u" monday (monday + Day)
    = Some res.
Proof.
  apply (C9_derivation_terminates (db_with half_hours) "u" monday (monday + Day)).
  intros r [<-|[]]. vm_compute. split; discriminate.
Defined.

(** C9 as stated fails: the rule has a slot length of at least one minute
    and start and end times in HH:MM form, and the derivation over a window
    on that Monday returns for no amount of fuel. *)
Lemma C9_counterexample :
  let db := db_with overlong_rule in
  (forall r, In r (AvailabilityRepo.ListAvailabilityRules db "u") ->
     1 <= AvailabilityRule.SlotLengthMins r /\
     (exists t, AvailabilityService.parseHHMM (AvailabilityRule.StartTime r) = Ok t) /\
     (exists t, AvailabilityService.parseHHMM (AvailabilityRule.EndTime r) = Ok t)) /\
  forall fuel,
    AvailabilityService.GenerateAvailableSlots fuel db "u" (monday_at 12 0) (monday_at 13 0) = None.
Proof.
  intros db. split.
  - intros r [<-|[]]. split; [vm_compute; discriminate|]. split; eexists; vm_compute; reflexivity.
  - intros fuel. unfold AvailabilityService.GenerateAvailableSlots.
    replace (AvailabilityRepo.ListAvailabilityRules db "u")
      with [AvailabilityRule.mk "uuid-0" "u" 1 "09:00" "10:00" 153722868 "" true 0 0]
      by (vm_compute; reflexivity).
    cbn [List.length Nat.eqb]. unfold AvailabilityService.candidates.
    rewrite over_days_diverges; [reflexivity|vm_compute; discriminate|].
    replace (time.Truncate (monday_at 12 0) (24 * time.Hour)) with monday
      by (vm_compute; reflexivity).
    apply (over_rules_diverges _ _ _ _ _ _ _ (clock 9 0) (clock 10 0));
      vm_compute; (reflexivity || discriminate).
Qed.

(** ** The booking conflict resolver *)

Lemma confirmed_at_true userID start b :
  BookingRepo.confirmed_at userID start b = true <->
  confirmed_of userID b /\ Booking.StartAtUTC b = start.
Proof.
  unfold BookingRepo.confirmed_at, confirmed_of.
  rewrite !andb_true_iff, !String.eqb_eq, Z.eqb_eq. tauto.
Qed.

Lemma gen_random_uuid_nonempty n : gen_random_uuid n <> ""%string.
Proof. unfold gen_random_uuid. cbn. discriminate. Qed.

Lemma slot_is_In start end_ slots :
  existsb (BookingService.slot_is start end_) slots = true <-> In (mkSlot start end_) slots.
Proof.
  rewrite existsb_exists. unfold BookingService.slot_is, time.Equal. split.
  - intros ([a b] & Hin & H). cbn in H. apply andb_prop in H as [Ha Hb].
    apply Z.eqb_eq in Ha, Hb. subst. assumption.
  - intros Hin. exists (mkSlot start end_). cbn. rewrite !Z.eqb_refl. auto.
Qed.

Section CreateBooking.
Import BookingService.

Variables (fuel : nat) (db : DB) (userID : string) (req : CreateBookingParams)
          (now pg_now : time.Time).

Let start := time.UTC (pStart req).
Let end_ := time.UTC (pEnd req).
Let derived :=
  AvailabilityService.GenerateAvailableSlots fuel db userID
    (time.Add start (-1 * time.Second)) (time.Add end_ (1 * time.Second)).

Lemma CheckExisting_found :
  wf_ids db -> booked_at db userID start ->
  exists id, id <> ""%string /\
    BookingRepo.CheckExistingBookingAtStart db (viaTx (Begin db)) userID start = (id, None).
Proof.
  intros Hwf (b & Hin & Hc). unfold BookingRepo.CheckExistingBookingAtStart.
  cbn [visible Begin pending]. rewrite app_nil_r.
  destruct (List.find _ (bookings db)) as [b'|] eqn:Hf.
  - apply find_some in Hf as [Hin' _]. exists (Booking.ID b'). split; [apply Hwf, Hin'|reflexivity].
  - apply (find_none _ _ Hf) in Hin. apply confirmed_at_true in Hc. congruence.
Qed.

Lemma CheckExisting_free :
  ~ booked_at db userID start ->
  BookingRepo.CheckExistingBookingAtStart db (viaTx (Begin db)) userID start
  = (""%string, Some ErrNoRows).
Proof.
  intros Hfree. unfold BookingRepo.CheckExistingBookingAtStart.
  cbn [visible Begin pending]. rewrite app_nil_r.
  destruct (List.find _ (bookings db)) as [b'|] eqn:Hf; [|reflexivity].
  apply find_some in Hf as [Hin' Hc]. apply confirmed_at_true in Hc.
  exfalso. apply Hfree. exists b'. tauto.
Qed.

Lemma CreateBooking_conflict :
  wf_ids db -> booked_at db userID start ->
  CreateBooking fuel db userID req now pg_now = Some (Err errSlotAlreadyBooked, db).
Proof.
  intros Hwf Hb. destruct (CheckExisting_found Hwf Hb) as (id & Hid & Hc).
  unfold CreateBooking. fold start. rewrite Hc.
  apply String.eqb_neq in Hid. rewrite Hid. reflexivity.
Qed.

Lemma CreateBooking_free :
  ~ booked_at db userID start ->
  CreateBooking fuel db userID req now pg_now =
  match derived with
  | None => None
  | Some (Err err) => Some (Err err, db)
  | Some (Ok slots) =>
    if existsb (slot_is start end_) slots
    then Some (Ok (stored_row (gen_random_uuid (uuid_seq db)) userID req now),
               db_after_booking db userID req pg_now)
    else Some (Err errSlotNotAvailable, db)
  end.
Proof.
  intros Hfree. unfold CreateBooking. fold start end_. rewrite (CheckExisting_free Hfree).
  cbn [String.eqb negb]. fold derived.
  destruct derived as [[slots|err]|]; try reflexivity.
  destruct (existsb _ slots); reflexivity.
Qed.

(** Whatever the identifiers, the call either reports a conflict or goes
    on to the derivation. *)
Lemma CreateBooking_cases :
  CreateBooking fuel db userID req now pg_now = Some (Err errSlotAlreadyBooked, db) \/
  CreateBooking fuel db userID req now pg_now =
  match derived with
  | None => None
  | Some (Err err) => Some (Err err, db)
  | Some (Ok slots) =>
    if existsb (slot_is start end_) slots
    then Some (Ok (stored_row (gen_random_uuid (uuid_seq db)) userID req now),
               db_after_booking db userID req pg_now)
    else Some (Err errSlotNotAvailable, db)
  end.
Proof.
  unfold CreateBooking. fold start end_. unfold BookingRepo.CheckExistingBookingAtStart.
  destruct (List.find _ _) as [b|].
  - destruct (String.eqb (Booking.ID b) "") eqn:Hid; cbn [negb]; [right|left; reflexivity].
    fold derived. destruct derived as [[slots|err]|]; try reflexivity.
    destruct (existsb _ slots); reflexivity.
  - right. cbn [String.eqb negb]. fold derived.
    destruct derived as [[slots|err]|]; try reflexivity.
    destruct (existsb _ slots); reflexivity.
Qed.

(** A failure leaves the store as it was. *)
Lemma CreateBooking_failure_keeps_store err db' :
  CreateBooking fuel db userID req now pg_now = Some (Err err, db') -> db' = db.
Proof.
  intros H. destruct CreateBooking_cases as [E|E]; rewrite E in H; [congruence|].
  destruct derived as [[slots|e]|]; try congruence.
  destruct (existsb _ slots); congruence.
Qed.

(** A success books a slot the derivation returned. *)
Lemma CreateBooking_success b db' :
  CreateBooking fuel db userID req now pg_now = Some (Ok b, db') ->
  exists slots, derived = Some (Ok slots) /\ In (mkSlot start end_) slots /\
    b = stored_row (gen_random_uuid (uuid_seq db)) userID req now /\
    db' = db_after_booking db userID req pg_now.
Proof.
  intros H. destruct CreateBooking_cases as [E|E]; rewrite E in H; [congruence|].
  destruct derived as [[slots|e]|]; try congruence.
  destruct (existsb _ slots) eqn:He; [|congruence].
  injection H as <- <-. exists slots. rewrite <- slot_is_In. auto.
Qed.

Lemma CreateBooking_keeps_wf r db' :
  wf_ids db -> CreateBooking fuel db userID req now pg_now = Some (r, db') -> wf_ids db'.
Proof.
  intros Hwf H. destruct r as [b|err].
  - destruct (CreateBooking_success _ _ H) as (_ & _ & _ & _ & ->).
    intros b' Hin. cbn in Hin. apply in_app_iff in Hin as [Hin|[<-|[]]]; [apply Hwf, Hin|].
    apply gen_random_uuid_nonempty.
  - rewrite (CreateBooking_failure_keeps_store _ _ H). assumption.
Qed.
End CreateBooking.




(** ** Bookings lie on slot bounds (C10) *)

Lemma whole_second_Unix t u :
  t mod time.Second = 0 -> u mod time.Second = 0 -> (time.Unix t = time.Unix u <-> t = u).
Proof.
  unfold time.Unix. rewrite Second_value. intros Ht Hu. split; [|congruence].
  intros H. rewrite (Z.div_mod t 1000000000), (Z.div_mod u 1000000000) by lia. lia.
Qed.

Lemma whole_minute_whole_second t : t mod time.Minute = 0 -> t mod time.Second = 0.
Proof.
  rewrite Minute_value, Second_value. intros H.
  apply Z.mod_divide in H as [q ->]; [|lia].
  replace (q * 60000000000) with (q * 60 * 1000000000) by lia. apply Z_mod_mult.
Qed.

Lemma tiled_whole_minutes r day sl :
  slot_length_in_range r -> day mod Day = 0 -> tiled r day sl ->
  StartUTC sl mod time.Minute = 0 /\ EndUTC sl mod time.Minute = 0.
Proof.
  intros Hr Hd (startTOD & endTOD & _ & _ & _ & _ & _ & k & _ & Hs & He & _).
  rewrite (slot_len_in_range r Hr) in *.
  destruct (on_day_bounds day startTOD Hd) as [_ Hm].
  apply Z.mod_divide in Hm as [q Hq]; [|rewrite Minute_value; lia].
  rewrite He, Hs, Hq. split.
  - replace (q * time.Minute + k * (AvailabilityRule.SlotLengthMins r * time.Minute))
      with ((q + k * AvailabilityRule.SlotLengthMins r) * time.Minute) by lia.
    apply Z_mod_mult.
  - replace (q * time.Minute + k * (AvailabilityRule.SlotLengthMins r * time.Minute)
             + AvailabilityRule.SlotLengthMins r * time.Minute)
      with ((q + k * AvailabilityRule.SlotLengthMins r + AvailabilityRule.SlotLengthMins r)
            * time.Minute) by lia.
    apply Z_mod_mult.
Qed.

(** C10, as amended.  A booking created by [CreateBooking] has the bounds
    of a slot that the derivation returned for the store at the time of the
    call.  When the slot length of every rule of the user lies between 1
    and 153722867 minutes, both bounds are whole minutes, and an instant
    without a fraction of a second has the Unix second of the booking's
    start exactly when it is that start. *)
Theorem C10_bookings_on_slot_bounds fuel db userID req now pg_now b db' :
  BookingService.CreateBooking fuel db userID req now pg_now = Some (Ok b, db') ->
  (exists slots sl,
     AvailabilityService.GenerateAvailableSlots fuel db userID
       (time.Add (time.UTC (pStart req)) (-1 * time.Second))
       (time.Add (time.UTC (pEnd req)) (1 * time.Second)) = Some (Ok slots) /\
     In sl slots /\ Booking.StartAtUTC b = StartUTC sl /\ Booking.EndAtUTC b = EndUTC sl) /\
  ((forall r, In r (AvailabilityRepo.ListAvailabilityRules db userID) -> slot_length_in_range r) ->
   Booking.StartAtUTC b mod time.Minute = 0 /\
   Booking.EndAtUTC b mod time.Minute = 0 /\
   (forall t, t mod time.Second = 0 ->
      (time.Unix t = time.Unix (Booking.StartAtUTC b) <-> t = Booking.StartAtUTC b))).
Proof.
  intros Hcall.
  destruct (CreateBooking_success _ _ _ _ _ _ _ _ Hcall) as (slots & Hd & Hin & -> & _).
  cbn [stored_row Booking.StartAtUTC Booking.EndAtUTC].
  split.
  - exists slots, (mkSlot (time.UTC (pStart req)) (time.UTC (pEnd req))). auto.
  - intros Hrange.
    destruct (GenerateAvailableSlots_tiled _ _ _ _ _ _ _ Hd Hin)
      as (r & day & Hr & _ & Hday & Ht & _).
    destruct (tiled_whole_minutes _ _ _ (Hrange r Hr) Hday Ht) as [Hs He]. cbn in Hs, He.
    split; [assumption|split; [assumption|]].
    intros t Ht'. apply whole_second_Unix; [assumption|]. apply whole_minute_whole_second, Hs.
Qed.

Lemma C10_bookings_on_slot_bounds_witness :
  let db := db_with half_hours in
  let req := request (monday_at 9 0) (monday_at 9 30) in
  let b := stored_row (gen_random_uuid (uuid_seq db)) "u" req 0 in
  (exists slots sl,
     AvailabilityService.GenerateAvailableSlots 10 db "u"
       (time.Add (time.UTC (pStart req)) (-1 * time.Second))
       (time.Add (time.UTC (pEnd req)) (1 * time.Second)) = Some (Ok slots) /\
     In sl slots /\ Booking.StartAtUTC b = StartUTC sl /\ Booking.EndAtUTC b = EndUTC sl) /\
  Booking.StartAtUTC b mod time.Minute = 0 /\
  Booking.EndAtUTC b mod time.Minute = 0 /\
  (forall t, t mod time.Second = 0 ->
     (time.Unix t = time.Unix (Booking.StartAtUTC b) <-> t = Booking.StartAtUTC b)).
Proof.
  intros db req b.
  destruct (C10_bookings_on_slot_bounds 10 db "u" req 0 0 b (db_after_booking db "u" req 0))
    as [Hslot Hminutes].
  - vm_compute. reflexivity.
  - split; [exact Hslot|]. apply Hminutes.
    intros r Hr. vm_compute in Hr. destruct Hr as [<-|[]]. vm_compute. split; discriminate.
Defined.

(** C10 as stated fails: with the rule of 307445735 minutes, whose slots
    last 26.290448384 s, [CreateBooking] stores a booking that starts at
    09:00:26.290448384; the whole second 09:00:26 has the same Unix second
    and is another instant. *)
Lemma C10_counterexample :
  let db := db_with wrapping_rule in
  let start := monday_at 9 0 + 26290448384 in
  let req := request start (start + 26290448384) in
  exists b db',
    BookingService.CreateBooking 10 db "u" req 0 0 = Some (Ok b, db') /\
    Booking.StartAtUTC b mod time.Minute <> 0 /\
    Booking.EndAtUTC b mod time.Minute <> 0 /\
    (monday_at 9 0 + 26 * time.Second) mod time.Second = 0 /\
    time.Unix (monday_at 9 0 + 26 * time.Second) = time.Unix (Booking.StartAtUTC b) /\
    monday_at 9 0 + 26 * time.Second <> Booking.StartAtUTC b.
Proof.
  intros db start req. eexists. eexists. split; [vm_compute; reflexivity|].
  vm_compute. split; [|split; [|split; [|split; [|]]]]; (reflexivity || discriminate).
Qed.

(** ** Cancellation (C6) *)

Lemma find_map_preserved {A} (p : A -> bool) (f : A -> A) l :
  (forall x, p (f x) = p x) -> List.find p (map f l) = option_map f (List.find p l).
Proof.
  intros Hp. induction l as [|x l IH]; cbn; [reflexivity|].
  rewrite Hp. destruct (p x); [reflexivity|exact IH].
Qed.

Lemma cancellable_true id b :
  BookingRepo.cancellable id b = true <->
  Booking.ID b = id /\ Booking.Status b <> "cancelled"%string.
Proof.
  unfold BookingRepo.cancellable.
  rewrite andb_true_iff, negb_true_iff, String.eqb_eq, String.eqb_neq. reflexivity.
Qed.

Lemma lookup_cancelled_in db id :
  lookup_booking (cancelled_in db id) id =
  option_map (fun b => if BookingRepo.cancellable id b then BookingRepo.cancel_row b else b)
             (lookup_booking db id).
Proof.
  unfold lookup_booking, cancelled_in. cbn. apply find_map_preserved.
  intros b. destruct (BookingRepo.cancellable id b); reflexivity.
Qed.

Lemma lookup_cancelled_in_status db id b :
  lookup_booking (cancelled_in db id) id = Some b -> Booking.Status b = "cancelled"%string.
Proof.
  rewrite lookup_cancelled_in. destruct (lookup_booking db id) as [b0|] eqn:Hl; [|discriminate].
  apply find_some in Hl as [_ Hid]. apply String.eqb_eq in Hid.
  cbn. destruct (BookingRepo.cancellable id b0) eqn:Hc; intros [= <-]; [reflexivity|].
  destruct (String.eqb_spec (Booking.Status b0) "cancelled") as [E|E]; [assumption|].
  assert (BookingRepo.cancellable id b0 = true) by (apply cancellable_true; auto). congruence.
Qed.

Lemma cancelled_in_rows db id b :
  In b (bookings (cancelled_in db id)) -> Booking.ID b = id ->
  Booking.Status b = "cancelled"%string.
Proof.
  unfold cancelled_in. cbn. rewrite in_map_iff. intros (b0 & <- & _).
  destruct (BookingRepo.cancellable id b0) eqn:Hc; [reflexivity|].
  intros Hid. destruct (String.eqb_spec (Booking.Status b0) "cancelled") as [E|E]; [assumption|].
  assert (BookingRepo.cancellable id b0 = true) by (apply cancellable_true; auto). congruence.
Qed.

Lemma cancelled_in_others db id b :
  In b (bookings db) -> Booking.ID b <> id -> In b (bookings (cancelled_in db id)).
Proof.
  intros Hin Hid. unfold cancelled_in. cbn. apply in_map_iff. exists b. split; [|assumption].
  destruct (BookingRepo.cancellable id b) eqn:Hc; [|reflexivity].
  apply cancellable_true in Hc as [? _]. contradiction.
Qed.

Lemma rows_affected_zero db id :
  (forall b, In b (bookings db) -> Booking.ID b = id -> Booking.Status b = "cancelled"%string) ->
  BookingRepo.CancelBooking db id = (0, db).
Proof.
  intros Hall. unfold BookingRepo.CancelBooking. destruct db as [rules bs seq]. cbn in *.
  assert (Hnone : forall b, In b bs -> BookingRepo.cancellable id b = false).
  { intros b Hin. destruct (BookingRepo.cancellable id b) eqn:Hc; [|reflexivity].
    apply cancellable_true in Hc as [Hid Hs]. elim Hs. auto. }
  clear Hall. f_equal.
  - induction bs as [|b bs IH]; cbn; [reflexivity|].
    rewrite (Hnone b) by (left; reflexivity). apply IH. intros; apply Hnone; right; assumption.
  - f_equal. induction bs as [|b bs IH]; cbn; [reflexivity|].
    rewrite (Hnone b) by (left; reflexivity). f_equal. apply IH.
    intros; apply Hnone; right; assumption.
Qed.

Lemma rows_affected_positive db id b :
  In b (bookings db) -> Booking.ID b = id -> Booking.Status b <> "cancelled"%string ->
  0 < fst (BookingRepo.CancelBooking db id).
Proof.
  intros Hin Hid Hs. cbn.
  assert (In b (List.filter (BookingRepo.cancellable id) (bookings db)))
    by (apply filter_In; split; [assumption|apply cancellable_true; auto]).
  destruct (List.filter _ _); [contradiction|]. cbn [List.length]. lia.
Qed.

(** C6.  [CancelBooking] fails with "booking not found" when no booking has
    the identifier and with "already cancelled" when the booking's status is
    cancelled.  Otherwise it runs the conditional update: when that meets a
    booking with the identifier that is not cancelled, the call succeeds and
    every booking with the identifier is cancelled afterwards; when another
    request cancelled it in between, so that no row is affected, the call
    fails with "booking not found".  After a call that succeeded, every
    further call for the identifier fails with "already cancelled" and
    leaves the store as it is. *)
Theorem C6_cancel_booking others db id :
  (lookup_booking db id = None ->
     BookingService.CancelBooking others db id = (Some errBookingNotFound, db)) /\
  (forall b, lookup_booking db id = Some b -> Booking.Status b = "cancelled"%string ->
     BookingService.CancelBooking others db id = (Some errAlreadyCancelled, db)) /\
  (forall b, lookup_booking db id = Some b -> Booking.Status b <> "cancelled"%string ->
     ((exists b', In b' (bookings (others db)) /\ Booking.ID b' = id /\
                  Booking.Status b' <> "cancelled"%string) ->
        BookingService.CancelBooking others db id = (None, cancelled_in (others db) id) /\
        (forall b', In b' (bookings (cancelled_in (others db) id)) -> Booking.ID b' = id ->
                    Booking.Status b' = "cancelled"%string)) /\
     ((forall b', In b' (bookings (others db)) -> Booking.ID b' = id ->
                  Booking.Status b' = "cancelled"%string) ->
        BookingService.CancelBooking others db id = (Some errBookingNotFound, others db))) /\
  (forall b, lookup_booking db id = Some b -> Booking.Status b <> "cancelled"%string ->
     BookingService.CancelBooking (fun d => d) db id = (None, cancelled_in db id) /\
     forall others',
       BookingService.CancelBooking others' (cancelled_in db id) id
       = (Some errAlreadyCancelled, cancelled_in db id)).
Proof.
  assert (Hstatus : forall d, BookingRepo.GetBookingStatus d id =
            match lookup_booking d id with
            | Some b => (Booking.Status b, None)
            | None => (""%string, Some ErrNoRows)
            end) by reflexivity.
  assert (Hlive : forall oth b, lookup_booking db id = Some b ->
            Booking.Status b <> "cancelled"%string ->
            (exists b', In b' (bookings (oth db)) /\ Booking.ID b' = id /\
                        Booking.Status b' <> "cancelled"%string) ->
            BookingService.CancelBooking oth db id = (None, cancelled_in (oth db) id)).
  { intros oth b Hl Hs (b' & Hin & Hid & Hs').
    unfold BookingService.CancelBooking. rewrite Hstatus, Hl.
    apply String.eqb_neq in Hs. rewrite Hs.
    pose proof (rows_affected_positive _ _ _ Hin Hid Hs') as Hpos.
    unfold cancelled_in. destruct (BookingRepo.CancelBooking (oth db) id) as [rows db'].
    cbn in *. destruct (Z.eqb_spec rows 0); [lia|reflexivity]. }
  split; [|split; [|split]].
  - intros Hl. unfold BookingService.CancelBooking. rewrite Hstatus, Hl. reflexivity.
  - intros b Hl Hs. unfold BookingService.CancelBooking. rewrite Hstatus, Hl, Hs. reflexivity.
  - intros b Hl Hs. split.
    + intros Hex. split; [apply (Hlive others b Hl Hs Hex)|]. apply cancelled_in_rows.
    + intros Hall. unfold BookingService.CancelBooking. rewrite Hstatus, Hl.
      apply String.eqb_neq in Hs. rewrite Hs, (rows_affected_zero _ _ Hall). reflexivity.
  - intros b Hl Hs. split.
    + apply (Hlive (fun d => d) b Hl Hs). pose proof Hl as Hf.
      apply find_some in Hf as [Hin Hid]. apply String.eqb_eq in Hid. eauto.
    + intros others'. unfold BookingService.CancelBooking. rewrite Hstatus.
      destruct (lookup_booking (cancelled_in db id) id) as [b'|] eqn:Hl'.
      * rewrite (lookup_cancelled_in_status _ _ _ Hl'). reflexivity.
      * rewrite lookup_cancelled_in, Hl in Hl'. discriminate.
Qed.

Example cancel_twice :
  let db := db_booked (db_with half_hours) (monday_at 9 0) (monday_at 9 30) in
  fst (BookingService.CancelBooking (fun d => d) db "uuid-1") = None /\
  fst (BookingService.CancelBooking (fun d => d) (cancelled_in db "uuid-1") "uuid-1")
    = Some errAlreadyCancelled /\
  fst (BookingService.CancelBooking (fun d => cancelled_in d "uuid-1") db "uuid-1")
    = Some errBookingNotFound /\
  fst (BookingService.CancelBooking (fun d => d) db "uuid-7") = Some errBookingNotFound.
Proof. vm_compute. auto. Qed.

Lemma C6_cancel_booking_witness :
  let db := db_booked (db_with half_hours) (monday_at 9 0) (monday_at 9 30) in
  BookingService.CancelBooking (fun d => d) db "uuid-1" = (None, cancelled_in db "uuid-1") /\
  forall others',
    BookingService.CancelBooking others' (cancelled_in db "uuid-1") "uuid-1"
    = (Some errAlreadyCancelled, cancelled_in db "uuid-1").
Proof.
  intros db.
  destruct (C6_cancel_booking (fun d => d) db "uuid-1") as (_ & _ & _ & H).
  refine (H (stored_row "uuid-1" "u" (request (monday_at 9 0) (monday_at 9 30)) 0) _ _).
  - vm_compute. reflexivity.
  - vm_compute. discriminate.
Defined.

(** ** Rules: update and batch insertion (C7, C8) *)

Section Rules.
Import AvailabilityService AvailabilityRule.

Lemma validate_times r r' :
  StartTime r' = StartTime r -> EndTime r' = EndTime r ->
  validateAvailabilityRule r' = validateAvailabilityRule r.
Proof. intros Hs He. unfold validateAvailabilityRule. rewrite Hs, He. reflexivity. Qed.

Lemma matches_true userID ruleID r :
  AvailabilityRepo.matches userID ruleID r = true <-> ID r = ruleID /\ UserID r = userID.
Proof.
  unfold AvailabilityRepo.matches. rewrite andb_true_iff, !String.eqb_eq. reflexivity.
Qed.

Lemma GetAvailabilityRule_Ok db userID ruleID r :
  AvailabilityRepo.GetAvailabilityRule db userID ruleID = Ok r <->
  List.find (AvailabilityRepo.matches userID ruleID) (availability_rules db) = Some r.
Proof.
  unfold AvailabilityRepo.GetAvailabilityRule.
  destruct (List.find _ _); split; congruence.
Qed.

Lemma UpdateAvailability_valid db userID ruleID rule now existing :
  AvailabilityRepo.GetAvailabilityRule db userID ruleID = Ok existing ->
  validateAvailabilityRule rule = None ->
  let d := if DayOfWeek rule =? 0 then DayOfWeek existing else DayOfWeek rule in
  exists db',
    UpdateAvailability db userID ruleID rule now = (Ok (updated_rule existing rule d now), db') /\
    AvailabilityRepo.GetAvailabilityRule db' userID ruleID
      = Ok (updated_rule existing rule d now) /\
    bookings db' = bookings db.
Proof.
  intros Hget Hval d. pose proof Hget as Hfind. apply GetAvailabilityRule_Ok in Hfind.
  pose proof (find_some _ _ Hfind) as [_ Hm]. apply matches_true in Hm as [Hid Hu].
  set (rule' := if DayOfWeek rule =? 0 then with_DayOfWeek rule (DayOfWeek existing) else rule).
  assert (Hval' : validateAvailabilityRule rule' = None).
  { rewrite <- Hval. apply validate_times; unfold rule';
      destruct (DayOfWeek rule =? 0); reflexivity. }
  assert (Hrow : AvailabilityRepo.update_row rule' now existing = updated_rule existing rule d now).
  { unfold AvailabilityRepo.update_row, updated_rule, rule', d.
    destruct (DayOfWeek rule =? 0); reflexivity. }
  set (db' := mkDB (map (fun x => if AvailabilityRepo.matches userID ruleID x
                                  then AvailabilityRepo.update_row rule' now x else x)
                        (availability_rules db)) (bookings db) (uuid_seq db)).
  assert (Hget' : AvailabilityRepo.GetAvailabilityRule db' userID ruleID
                  = Ok (updated_rule existing rule d now)).
  { apply GetAvailabilityRule_Ok. unfold db'. cbn [availability_rules].
    rewrite find_map_preserved.
    - rewrite Hfind. cbn. rewrite (proj2 (matches_true _ _ _) (conj Hid Hu)), Hrow. reflexivity.
    - intros x. destruct (AvailabilityRepo.matches userID ruleID x) eqn:Hx; [|exact Hx].
      exact Hx. }
  exists db'. split; [|split; [exact Hget'|reflexivity]].
  unfold UpdateAvailability. rewrite Hget. fold rule'. rewrite Hval'.
  unfold AvailabilityRepo.UpdateAvailabilityRule. rewrite Hfind. fold db'.
  rewrite Hid, Hget'. reflexivity.
Qed.


(** *** Batches *)

Lemma SetAvailability_from_valid userID now pre rest :
  (forall r, In r pre -> validateAvailabilityRule r = None) ->
  forall db saved,
  SetAvailability_from db userID (pre ++ rest) now saved =
  SetAvailability_from (db_after_rules db userID now pre) userID rest now
    (saved ++ rows_for (uuid_seq db) userID now pre).
Proof.
  induction pre as [|r pre IH]; intros Hval db saved.
  - unfold db_after_rules. cbn. rewrite !app_nil_r, Nat.add_0_r. destruct db; reflexivity.
  - cbn [app SetAvailability_from].
    rewrite (validate_times r) by reflexivity.
    rewrite (Hval r) by (left; reflexivity).
    cbn [AvailabilityRepo.InsertAvailabilityRule].
    rewrite IH by (intros; apply Hval; right; assumption).
    unfold db_after_rules. cbn. rewrite <- !app_assoc. cbn.
    replace (S (uuid_seq db + List.length pre)) with (uuid_seq db + S (List.length pre))%nat by lia.
    reflexivity.
Qed.

Lemma rows_for_valid n userID now pre row :
  (forall r, In r pre -> validateAvailabilityRule r = None) ->
  In row (rows_for n userID now pre) -> validateAvailabilityRule row = None.
Proof.
  revert n. induction pre as [|r pre IH]; intros n Hval Hin; [destruct Hin|].
  destruct Hin as [<-|Hin].
  - rewrite <- (Hval r) by (left; reflexivity). apply validate_times; reflexivity.
  - apply (IH (S n)); [|assumption]. intros; apply Hval; right; assumption.
Qed.

Lemma rows_for_length n userID now pre :
  List.length (rows_for n userID now pre) = List.length pre.
Proof. revert n. induction pre as [|r pre IH]; intros n; cbn; [|rewrite IH]; reflexivity. Qed.
End Rules.



(** C8.  In a batch given to [SetAvailability], let the rules before some
    rule pass validation and let that rule have an end time that is not
    after its start time.  Then the call fails with the validation error
    "end_time must be after start_time"; the rules before it are stored, one
    row each; and no stored row fails validation, so the rejected rule and
    the rules after it are not stored. *)
Theorem C8_batch_is_not_atomic db userID pre bad post now startTime endTime :
  (forall r, In r pre -> AvailabilityService.validateAvailabilityRule r = None) ->
  time.Parse1504 (AvailabilityRule.StartTime bad) = Ok startTime ->
  time.Parse1504 (AvailabilityRule.EndTime bad) = Ok endTime ->
  time.After endTime startTime = false ->
  AvailabilityService.SetAvailability db userID (pre ++ bad :: post) now
    = (Err errEndBeforeStart, db_after_rules db userID now pre) /\
  availability_rules (db_after_rules db userID now pre)
    = availability_rules db ++ rows_for (uuid_seq db) userID now pre /\
  List.length (rows_for (uuid_seq db) userID now pre) = List.length pre /\
  (forall row, In row (rows_for (uuid_seq db) userID now pre) ->
     AvailabilityService.validateAvailabilityRule row = None) /\
  AvailabilityService.validateAvailabilityRule bad = Some errEndBeforeStart.
Proof.
  intros Hpre Hs He Ha.
  assert (Hbad : AvailabilityService.validateAvailabilityRule bad = Some errEndBeforeStart).
  { unfold AvailabilityService.validateAvailabilityRule. rewrite Hs, He, Ha. reflexivity. }
  split; [|split; [reflexivity|split; [apply rows_for_length|split; [|exact Hbad]]]].
  - unfold AvailabilityService.SetAvailability.
    rewrite SetAvailability_from_valid by assumption.
    cbn [AvailabilityService.SetAvailability_from].
    rewrite (validate_times bad) by reflexivity. rewrite Hbad. reflexivity.
  - intros row. apply rows_for_valid, Hpre.
Qed.

Lemma C8_batch_is_not_atomic_witness :
  let bad := rule_of 1 "10:00" "09:00" 30 in
  AvailabilityService.SetAvailability empty_db "u" ([half_hours] ++ bad :: [half_hours]) 0
    = (Err errEndBeforeStart, db_after_rules empty_db "u" 0 [half_hours]) /\
  availability_rules (db_after_rules empty_db "u" 0 [half_hours])
    = availability_rules empty_db ++ rows_for (uuid_seq empty_db) "u" 0 [half_hours] /\
  List.length (rows_for (uuid_seq empty_db) "u" 0 [half_hours]) = List.length [half_hours] /\
  (forall row, In row (rows_for (uuid_seq empty_db) "u" 0 [half_hours]) ->
     AvailabilityService.validateAvailabilityRule row = None) /\
  AvailabilityService.validateAvailabilityRule bad = Some errEndBeforeStart.
Proof.
  intros bad.
  apply (C8_batch_is_not_atomic empty_db "u" [half_hours] bad [half_hours] 0
           (clock 10 0) (clock 9 0)).
  - intros r [<-|[]]. vm_compute. reflexivity.
  - vm_compute. reflexivity.
  - vm_compute. reflexivity.
  - vm_compute. reflexivity.
Defined.

Example batch_partial_insertion :
  availability_rules
    (snd (AvailabilityService.SetAvailability empty_db "u"
            [half_hours; rule_of 1 "10:00" "09:00" 30; half_hours] 0))
  = [AvailabilityRule.mk "uuid-0" "u" 1 "09:00" "10:00" 30 "" true 0 0].
Proof. vm_compute. reflexivity. Qed.

(** ** Identifiers stay non-empty

    [CreateBooking] preserves [wf_ids] ([CreateBooking_keeps_wf]); so do
    cancellation and the operations on rules, which leave the identifiers
    of the bookings alone. *)

Lemma CancelBooking_keeps_wf others db id :
  wf_ids db -> wf_ids (others db) ->
  wf_ids (snd (BookingService.CancelBooking others db id)).
Proof.
  intros Hwf Hwf'. unfold BookingService.CancelBooking.
  destruct (BookingRepo.GetBookingStatus db id) as [status [[| m | l v]|]]; try exact Hwf.
  destruct (String.eqb status "cancelled"); [exact Hwf|].
  assert (Hc : wf_ids (snd (BookingRepo.CancelBooking (others db) id))).
  { intros b Hin. cbn in Hin. apply in_map_iff in Hin as (b0 & <- & Hin0).
    destruct (BookingRepo.cancellable id b0); [cbn|]; apply Hwf', Hin0. }
  destruct (BookingRepo.CancelBooking (others db) id) as [rows db'].
  destruct (Z.eqb rows 0); exact Hc.
Qed.

Lemma SetAvailability_from_bookings userID now rules :
  forall db saved,
  bookings (snd (AvailabilityService.SetAvailability_from db userID rules now saved)) = bookings db.
Proof.
  induction rules as [|r rules IH]; intros db saved; [reflexivity|].
  cbn [AvailabilityService.SetAvailability_from].
  destruct (AvailabilityService.validateAvailabilityRule _); [reflexivity|].
  cbn [AvailabilityRepo.InsertAvailabilityRule]. rewrite IH. reflexivity.
Qed.

Lemma UpdateAvailability_bookings db userID ruleID rule now :
  bookings (snd (AvailabilityService.UpdateAvailability db userID ruleID rule now)) = bookings db.
Proof.
  unfold AvailabilityService.UpdateAvailability.
  destruct (AvailabilityRepo.GetAvailabilityRule db userID ruleID); [|reflexivity].
  destruct (AvailabilityService.validateAvailabilityRule _); [reflexivity|].
  unfold AvailabilityRepo.UpdateAvailabilityRule.
  destruct (List.find _ _); [|reflexivity].
  destruct (AvailabilityRepo.GetAvailabilityRule _ _ _); reflexivity.
Qed.

Section ConcurrentCalls.
Import Concurrent.

Lemma not_locked db i cs (l : list Booking.t) :
  existsb (fun b => locked_by_other (mkWorld db [] cs) i (Booking.ID b)) l = false.
Proof. induction l as [|b l IH]; [reflexivity|]. cbn. exact IH. Qed.

(** A call that runs alone is [CreateBooking]. *)
Lemma run_alone fuel db user rq now pg_now :
  match run fuel now pg_now [0; 0; 0; 0]%nat (begun db [(user, rq)]) with
  | Some w => match outcome w 0 with
              | Some r => Some (r, store w)
              | None => None
              end
  | None => None
  end = BookingService.CreateBooking fuel db user rq now pg_now.
Proof.
  unfold BookingService.CreateBooking, begun.
  cbn [map fst snd run].
  unfold step at 1.
  cbn [calls lookup list_lookup at_stage store trx userID req locks].
  rewrite not_locked.
  destruct (BookingRepo.CheckExistingBookingAtStart db (viaTx (Begin db)) user
              (time.UTC (pStart rq))) as [id [[| m | l v]|]] eqn:Hc.
  all: try (unfold BookingRepo.CheckExistingBookingAtStart in Hc;
            destruct (List.find _ _) in Hc; discriminate).
  all: destruct (negb (String.eqb id ""));
    cbn -[AvailabilityService.GenerateAvailableSlots BookingService.slot_is gen_random_uuid];
    try reflexivity.
  all: destruct (AvailabilityService.GenerateAvailableSlots _ _ _ _ _) as [[slots|e]|];
    cbn -[BookingService.slot_is gen_random_uuid]; try reflexivity.
  all: destruct (existsb _ slots); cbn -[gen_random_uuid]; reflexivity.
Qed.

(** On a free start the existence check returns no row: it locks nothing,
    waits for nothing and lets the call go on to the derivation, whatever
    the other calls have locked or have pending. *)
Lemma check_on_free_start_locks_nothing fuel now pg_now w i c :
  calls w !! i = Some c -> at_stage c = AtCheck -> pending (trx c) = [] ->
  ~ booked_at (store w) (userID c) (time.UTC (pStart (req c))) ->
  step fuel now pg_now w i
  = Some (mkWorld (store w) (locks w) (<[i := moved c AtDerive (trx c)]> (calls w))).
Proof.
  intros Hc Hs Hp Hfree. unfold step. rewrite Hc, Hs.
  unfold BookingRepo.CheckExistingBookingAtStart. cbn [visible]. rewrite Hp, app_nil_r.
  assert (Hnone : List.filter (BookingRepo.confirmed_at (userID c) (time.UTC (pStart (req c))))
                    (bookings (store w)) = []).
  { destruct (List.filter _ _) as [|b l] eqn:Hf; [reflexivity|]. exfalso. apply Hfree.
    assert (Hin : In b (b :: l)) by (left; reflexivity).
    rewrite <- Hf in Hin. apply filter_In in Hin as [Hin Hm].
    apply confirmed_at_true in Hm. exists b. tauto. }
  rewrite Hnone. cbn [existsb map app].
  destruct (List.find _ _) as [b|] eqn:Hfind; [|reflexivity].
  exfalso. apply Hfree. apply find_some in Hfind as [Hin Hm].
  apply confirmed_at_true in Hm. exists b. tauto.
Qed.
(** Whenever a call that runs alone books a slot, two calls for that slot
    that take turns statement by statement both book it. *)
Lemma free_slot_is_booked_twice fuel db user rq now pg_now b db' :
  wf_ids db ->
  BookingService.CreateBooking fuel db user rq now pg_now = Some (Ok b, db') ->
  exists w,
    run fuel now pg_now [0; 1; 0; 1; 0; 1; 0; 1]%nat (begun db [(user, rq); (user, rq)]) = Some w /\
    outcome w 0 = Some (Ok (stored_row (gen_random_uuid (uuid_seq db)) user rq now)) /\
    outcome w 1 = Some (Ok (stored_row (gen_random_uuid (S (uuid_seq db))) user rq now)) /\
    bookings (store w) = bookings db
      ++ [stored_row (gen_random_uuid (uuid_seq db)) user rq pg_now;
          stored_row (gen_random_uuid (S (uuid_seq db))) user rq pg_now].
Proof.
  intros Hwf Hcall.
  assert (Hfree : ~ booked_at db user (time.UTC (pStart rq))).
  { intros Hb. rewrite (CreateBooking_conflict _ _ _ _ _ _ Hwf Hb) in Hcall. discriminate. }
  destruct (CreateBooking_success _ _ _ _ _ _ _ _ Hcall) as (slots & Hd & Hin & _ & _).
  apply slot_is_In in Hin.
  unfold begun. cbn [map fst snd run].
  rewrite (check_on_free_start_locks_nothing fuel now pg_now _ 0%nat
             (mkCall user rq AtCheck (Begin db))); try reflexivity; [|exact Hfree].
  cbn [store locks calls insert list_insert moved userID req trx].
  rewrite (check_on_free_start_locks_nothing fuel now pg_now _ 1%nat
             (mkCall user rq AtCheck (Begin db))); try reflexivity; [|exact Hfree].
  cbn [store locks calls insert list_insert moved userID req trx].
  unfold step at 1.
  cbn [calls lookup list_lookup at_stage store trx userID req locks moved insert list_insert].
  rewrite Hd, Hin. cbn [negb].
  unfold step at 1.
  cbn [calls lookup list_lookup at_stage store trx userID req locks moved insert list_insert].
  rewrite Hd, Hin. cbn [negb].
  eexists. split; [reflexivity|]. cbn -[gen_random_uuid].
  repeat split; try reflexivity.
  rewrite <- app_assoc. reflexivity.
Qed.

End ConcurrentCalls.

(** Calls that follow one another: after a call that succeeded, a call for
    the same user and start fails with "slot already booked". *)
Lemma CreateBooking_again_conflicts fuel db userID req now pg_now b db' fuel' req' now' pg_now' :
  wf_ids db ->
  BookingService.CreateBooking fuel db userID req now pg_now = Some (Ok b, db') ->
  pStart req' = pStart req ->
  BookingService.CreateBooking fuel' db' userID req' now' pg_now'
  = Some (Err errSlotAlreadyBooked, db').
Proof.
  intros Hwf Hcall Hstart.
  pose proof (CreateBooking_keeps_wf _ _ _ _ _ _ _ _ Hwf Hcall) as Hwf'.
  apply CreateBooking_conflict; [assumption|].
  destruct (CreateBooking_success _ _ _ _ _ _ _ _ Hcall) as (_ & _ & _ & _ & ->).
  exists (stored_row (gen_random_uuid (uuid_seq db)) userID req pg_now).
  split; [cbn; apply in_app_iff; right; left; reflexivity|].
  split; [split; reflexivity|]. cbn. rewrite Hstart. reflexivity.
Qed.

Example two_calls_one_after_the_other :
  let rq := request (monday_at 9 0) (monday_at 9 30) in
  exists w b,
    Concurrent.run 10 0 0 [0; 0; 0; 0; 1; 1; 1; 1]%nat
      (Concurrent.begun (db_with half_hours) [("u"%string, rq); ("u"%string, rq)]) = Some w /\
    Concurrent.outcome w 0 = Some (Ok b) /\
    Concurrent.outcome w 1 = Some (Err errSlotAlreadyBooked).
Proof. intros rq. eexists. eexists. vm_compute. auto. Qed.

(** C1, at the failing input.  Two calls request the free slot 09:00-09:30
    of the same user and take turns statement by statement.  Neither
    existence check finds a row, so neither takes a lock; both derivations
    see the slot free; both calls insert, commit and return a confirmed
    booking, and the store ends with two confirmed bookings of the user at
    the same start. *)
Theorem C1_concurrent_calls_both_succeed :
  let rq := request (monday_at 9 0) (monday_at 9 30) in
  exists w b0 b1,
    Concurrent.run 10 0 0 [0; 1; 0; 1; 0; 1; 0; 1]%nat
      (Concurrent.begun (db_with half_hours) [("u"%string, rq); ("u"%string, rq)]) = Some w /\
    Concurrent.outcome w 0 = Some (Ok b0) /\
    Concurrent.outcome w 1 = Some (Ok b1) /\
    Booking.Status b0 = "confirmed"%string /\ Booking.Status b1 = "confirmed"%string /\
    Booking.ID b0 <> Booking.ID b1 /\
    List.filter (BookingRepo.confirmed_at "u" (monday_at 9 0)) (bookings (Concurrent.store w))
    = [b0; b1].
Proof.
  intros rq. eexists. eexists. eexists.
  split; [vm_compute; reflexivity|].
  vm_compute. split; [reflexivity|]. split; [reflexivity|].
  split; [reflexivity|]. split; [reflexivity|]. split; [discriminate|reflexivity].
Qed.

(** ** Listing bookings *)

Lemma insert_by_start_perm b l : Permutation (BookingRepo.insert_by_start b l) (b :: l).
Proof.
  induction l as [|x l IH]; cbn; [reflexivity|].
  destruct (_ <=? _); [reflexivity|]. rewrite IH. apply perm_swap.
Qed.

Lemma insert_by_start_sorted b l :
  StronglySorted by_start l -> StronglySorted by_start (BookingRepo.insert_by_start b l).
Proof.
  induction 1 as [|x l Hs IH Hall]; cbn; [repeat constructor|].
  destruct (Z.leb_spec (Booking.StartAtUTC b) (Booking.StartAtUTC x)) as [Hle|Hlt].
  - constructor; [constructor; assumption|].
    constructor; [exact Hle|].
    rewrite (List.Forall_forall (by_start b)). intros y Hy.
    rewrite (List.Forall_forall (by_start x)) in Hall. specialize (Hall y Hy).
    unfold by_start in *. lia.
  - constructor; [exact IH|].
    rewrite (List.Forall_forall (by_start x)). intros y Hy.
    apply (Permutation_in _ (insert_by_start_perm b l)) in Hy as [<-|Hy].
    + unfold by_start; lia.
    + rewrite (List.Forall_forall (by_start x)) in Hall. apply Hall, Hy.
Qed.

Lemma ListBookings_sorted_perm db userID from to filtered :
  StronglySorted by_start (BookingRepo.ListBookings db viaPool userID from to filtered) /\
  Permutation (BookingRepo.ListBookings db viaPool userID from to filtered)
    (map BookingRepo.scan_listed
       (List.filter (fun b => String.eqb (Booking.UserID b) userID
                              && (negb filtered || ((from <=? Booking.StartAtUTC b)
                                                    && (Booking.StartAtUTC b <? to)))
                              && negb (String.eqb (Booking.Status b) "cancelled"))
                    (bookings db))).
Proof.
  unfold BookingRepo.ListBookings. cbn [visible].
  generalize (map BookingRepo.scan_listed
       (List.filter (fun b => String.eqb (Booking.UserID b) userID
                              && (negb filtered || ((from <=? Booking.StartAtUTC b)
                                                    && (Booking.StartAtUTC b <? to)))
                              && negb (String.eqb (Booking.Status b) "cancelled"))
                    (bookings db))).
  intros l. induction l as [|x l [IHs IHp]]; cbn; [split; constructor|]. split.
  - apply insert_by_start_sorted, IHs.
  - rewrite insert_by_start_perm. constructor. exact IHp.
Qed.

Lemma ListBookings_In db userID from to filtered b :
  In b (BookingRepo.ListBookings db viaPool userID from to filtered) <->
  exists b0, In b0 (bookings db) /\ b = BookingRepo.scan_listed b0 /\
             listed userID from to filtered b0.
Proof.
  destruct (ListBookings_sorted_perm db userID from to filtered) as [_ Hp].
  split.
  - intros Hin. apply (Permutation_in _ Hp) in Hin. apply in_map_iff in Hin as (b0 & <- & Hin).
    apply filter_In in Hin as [Hin Hc].
    apply andb_prop in Hc as [Hc Hst]. apply andb_prop in Hc as [Hu Hr].
    exists b0. split; [assumption|]. split; [reflexivity|]. unfold listed.
    apply String.eqb_eq in Hu. apply negb_true_iff, String.eqb_neq in Hst.
    split; [assumption|]. split; [assumption|]. intros ->. cbn [negb orb] in Hr.
    apply andb_prop in Hr as [H1 H2]. apply Z.leb_le in H1. apply Z.ltb_lt in H2. lia.
  - intros (b0 & Hin & -> & Hu & Hst & Hr).
    apply (Permutation_in _ (Permutation_sym Hp)). apply in_map. apply filter_In.
    split; [assumption|]. rewrite Hu, String.eqb_refl. apply String.eqb_neq in Hst. rewrite Hst.
    destruct filtered; cbn [negb orb andb]; [|reflexivity]. specialize (Hr eq_refl).
    destruct (Z.leb_spec from (Booking.StartAtUTC b0)), (Z.ltb_spec (Booking.StartAtUTC b0) to);
      (reflexivity || lia).
Qed.

(** X1.  [ListBookings] answers in ascending order of the start instant,
    and its members are exactly the rows of the user that are not cancelled
    and, when the range filter is on, start in [from, to), each with the
    columns the query selects. *)
Theorem X1_bookings_listed_in_order db userID from to filtered :
  StronglySorted by_start (BookingRepo.ListBookings db viaPool userID from to filtered) /\
  (forall b, In b (BookingRepo.ListBookings db viaPool userID from to filtered) <->
             exists b0, In b0 (bookings db) /\ b = BookingRepo.scan_listed b0 /\
                        listed userID from to filtered b0).
Proof.
  split; [apply ListBookings_sorted_perm|]. intros b. apply ListBookings_In.
Qed.

(** ** Cancelled bookings leave the listing *)

(** X2.  After a successful [CancelBooking] of [id], whatever other
    requests committed between its two statements, no listing of any user,
    filtered or not, contains a booking with that identifier. *)
Theorem X2_cancelled_booking_not_listed others db id db' userID from to filtered b :
  BookingService.CancelBooking others db id = (None, db') ->
  In b (BookingRepo.ListBookings db' viaPool userID from to filtered) ->
  Booking.ID b <> id.
Proof.
  intros Hcall Hin Hid.
  assert (Hdb : db' = cancelled_in (others db) id).
  { unfold BookingService.CancelBooking in Hcall.
    destruct (BookingRepo.GetBookingStatus db id) as [status [[| m | l v]|]]; try discriminate.
    destruct (String.eqb status "cancelled"); [discriminate|].
    unfold cancelled_in.
    destruct (BookingRepo.CancelBooking (others db) id) as [rows d]. cbn.
    destruct (rows =? 0); congruence. }
  subst db'.
  apply ListBookings_In in Hin as (b0 & Hin0 & -> & _ & Hst & _).
  apply Hst. apply (cancelled_in_rows _ _ _ Hin0 Hid).
Qed.

Lemma X2_cancelled_booking_not_listed_witness :
  let db := db_booked (db_with half_hours) (monday_at 9 0) (monday_at 9 30) in
  BookingService.CancelBooking (fun d => d) db "uuid-1" = (None, cancelled_in db "uuid-1") /\
  forall b, In b (BookingRepo.ListBookings (cancelled_in db "uuid-1") viaPool "u" 0 0 false) ->
            Booking.ID b <> "uuid-1"%string.
Proof.
  intros db.
  assert (H : BookingService.CancelBooking (fun d => d) db "uuid-1"
              = (None, cancelled_in db "uuid-1")) by (vm_compute; reflexivity).
  split; [exact H|]. intros b.
  exact (X2_cancelled_booking_not_listed (fun d => d) db "uuid-1" _ "u" 0 0 false b H).
Defined.

(** ** One confirmed booking per start, call after call *)

Lemma not_booked_filter db userID start :
  ~ booked_at db userID start ->
  List.filter (BookingRepo.confirmed_at userID start) (bookings db) = [].
Proof.
  intros Hfree. destruct (List.filter _ _) as [|b l] eqn:Hf; [reflexivity|]. exfalso.
  assert (Hin : In b (b :: l)) by (left; reflexivity).
  rewrite <- Hf in Hin. apply filter_In in Hin as [Hin Hm].
  apply confirmed_at_true in Hm. apply Hfree. exists b. tauto.
Qed.

Lemma success_means_free fuel db userID req now pg_now b db' :
  wf_ids db ->
  BookingService.CreateBooking fuel db userID req now pg_now = Some (Ok b, db') ->
  ~ booked_at db userID (time.UTC (pStart req)).
Proof.
  intros Hwf Hcall Hb. rewrite (CreateBooking_conflict _ _ _ _ _ _ Hwf Hb) in Hcall. discriminate.
Qed.

Lemma create_keeps_one_confirmed fuel db userID req now pg_now r db' :
  wf_ids db -> at_most_one_confirmed db ->
  BookingService.CreateBooking fuel db userID req now pg_now = Some (r, db') ->
  at_most_one_confirmed db'.
Proof.
  intros Hwf Hone Hcall. destruct r as [b|err].
  - pose proof (success_means_free _ _ _ _ _ _ _ _ Hwf Hcall) as Hfree.
    destruct (CreateBooking_success _ _ _ _ _ _ _ _ Hcall) as (_ & _ & _ & _ & ->).
    intros u s. cbn [db_after_booking bookings]. rewrite List.filter_app, List.length_app.
    cbn [List.filter]. specialize (Hone u s).
    destruct (BookingRepo.confirmed_at u s (stored_row _ userID req pg_now)) eqn:Hm;
      cbn [List.length]; [|lia].
    apply confirmed_at_true in Hm as [[Hu _] Hs]. cbn in Hu, Hs. subst u s.
    rewrite (not_booked_filter _ _ _ Hfree). cbn. lia.
  - rewrite (CreateBooking_failure_keeps_store _ _ _ _ _ _ _ _ Hcall). assumption.
Qed.

Lemma cancel_filter_le id userID start bs :
  (List.length (List.filter (BookingRepo.confirmed_at userID start)
     (map (fun b => if BookingRepo.cancellable id b then BookingRepo.cancel_row b else b) bs))
   <= List.length (List.filter (BookingRepo.confirmed_at userID start) bs))%nat.
Proof.
  induction bs as [|b bs IH]; cbn [map List.filter]; [lia|].
  destruct (BookingRepo.cancellable id b).
  - assert (BookingRepo.confirmed_at userID start (BookingRepo.cancel_row b) = false) as ->.
    { unfold BookingRepo.confirmed_at. cbn. rewrite andb_false_r. reflexivity. }
    destruct (BookingRepo.confirmed_at userID start b); cbn [List.length]; lia.
  - destruct (BookingRepo.confirmed_at userID start b); cbn [List.length]; lia.
Qed.

Lemma cancel_keeps_one_confirmed others db id :
  at_most_one_confirmed db -> at_most_one_confirmed (others db) ->
  at_most_one_confirmed (snd (BookingService.CancelBooking others db id)).
Proof.
  intros Hone Hone'. unfold BookingService.CancelBooking.
  destruct (BookingRepo.GetBookingStatus db id) as [status [[| m | l v]|]]; try exact Hone.
  destruct (String.eqb status "cancelled"); [exact Hone|].
  assert (Hc : at_most_one_confirmed (snd (BookingRepo.CancelBooking (others db) id))).
  { intros u s. cbn. etransitivity; [apply cancel_filter_le|apply Hone']. }
  destruct (BookingRepo.CancelBooking (others db) id) as [rows d].
  destruct (rows =? 0); exact Hc.
Qed.

(** ** Calls made one after another *)

Lemma gen_random_uuid_inj n m : gen_random_uuid n = gen_random_uuid m -> n = m.
Proof.
  unfold gen_random_uuid. cbn. intros [= H]. exact (pretty_nat_inj _ _ H).
Qed.

Lemma ids_drawn_wf db : ids_drawn db -> wf_ids db.
Proof.
  intros [_ H] b Hin. destruct (H b Hin) as (k & _ & ->). apply gen_random_uuid_nonempty.
Qed.

Lemma ids_drawn_next_unused db : ids_drawn db -> next_id_unused db.
Proof.
  intros [_ H] b Hin E. destruct (H b Hin) as (k & Hk & Hid).
  rewrite Hid in E. apply gen_random_uuid_inj in E. lia.
Qed.


Lemma SetAvailability_from_seq userID now rules :
  forall db saved,
  (uuid_seq db <= uuid_seq (snd (AvailabilityService.SetAvailability_from db userID rules now saved)))%nat.
Proof.
  induction rules as [|r rules IH]; intros db saved; [cbn; lia|].
  cbn [AvailabilityService.SetAvailability_from].
  destruct (AvailabilityService.validateAvailabilityRule _); [cbn; lia|].
  cbn [AvailabilityRepo.InsertAvailabilityRule]. etransitivity; [|apply IH]. cbn. lia.
Qed.

Lemma UpdateAvailability_seq db userID ruleID rule now :
  uuid_seq (snd (AvailabilityService.UpdateAvailability db userID ruleID rule now)) = uuid_seq db.
Proof.
  unfold AvailabilityService.UpdateAvailability.
  destruct (AvailabilityRepo.GetAvailabilityRule db userID ruleID); [|reflexivity].
  destruct (AvailabilityService.validateAvailabilityRule _); [reflexivity|].
  unfold AvailabilityRepo.UpdateAvailabilityRule.
  destruct (List.find _ _); [|reflexivity].
  destruct (AvailabilityRepo.GetAvailabilityRule _ _ _); reflexivity.
Qed.

Lemma inv_same_bookings db db' :
  bookings db' = bookings db -> (uuid_seq db <= uuid_seq db')%nat ->
  reachable_inv db -> reachable_inv db'.
Proof.
  intros Hb Hs ([Hnd Hid] & Hone & Hst). unfold reachable_inv, ids_drawn, at_most_one_confirmed,
    statuses_known. rewrite Hb. repeat split; try assumption.
  intros b Hin. destruct (Hid b Hin) as (k & Hk & E). exists k. split; [lia|assumption].
Qed.

Lemma inv_create fuel db userID req now pg_now r db' :
  reachable_inv db ->
  BookingService.CreateBooking fuel db userID req now pg_now = Some (r, db') ->
  reachable_inv db'.
Proof.
  intros (Hids & Hone & Hst) Hcall. split; [|split].
  - destruct r as [b|err].
    + destruct (CreateBooking_success _ _ _ _ _ _ _ _ Hcall) as (_ & _ & _ & _ & ->).
      destruct Hids as [Hnd Hid]. split.
      * cbn [db_after_booking bookings]. rewrite List.map_app. cbn [map stored_row Booking.ID].
        apply NoDup_app. split; [exact Hnd|]. split; [|apply NoDup_singleton].
        intros x Hx Hx'. apply list_elem_of_In in Hx. apply list_elem_of_In in Hx'.
        destruct Hx' as [<-|[]]. apply in_map_iff in Hx as (b0 & E & Hin).
        destruct (Hid b0 Hin) as (k & Hk & Hk'). rewrite Hk' in E.
        apply gen_random_uuid_inj in E. lia.
      * intros b0 Hin. cbn in Hin. apply in_app_iff in Hin as [Hin|[<-|[]]].
        -- destruct (Hid b0 Hin) as (k & Hk & E). exists k. cbn. split; [lia|assumption].
        -- exists (uuid_seq db). cbn. split; [lia|reflexivity].
    + rewrite (CreateBooking_failure_keeps_store _ _ _ _ _ _ _ _ Hcall). assumption.
  - apply (create_keeps_one_confirmed _ _ _ _ _ _ _ _ (ids_drawn_wf _ Hids) Hone Hcall).
  - destruct r as [b|err].
    + destruct (CreateBooking_success _ _ _ _ _ _ _ _ Hcall) as (_ & _ & _ & _ & ->).
      intros b0 Hin. cbn in Hin. apply in_app_iff in Hin as [Hin|[<-|[]]]; [apply Hst, Hin|].
      left. reflexivity.
    + rewrite (CreateBooking_failure_keeps_store _ _ _ _ _ _ _ _ Hcall). assumption.
Qed.

Lemma inv_cancel db id :
  reachable_inv db -> reachable_inv (snd (BookingService.CancelBooking (fun d => d) db id)).
Proof.
  intros Hinv. pose proof Hinv as (Hids & Hone & Hst).
  split; [|split].
  - unfold BookingService.CancelBooking.
    destruct (BookingRepo.GetBookingStatus db id) as [status [[| m | l v]|]]; try exact Hids.
    destruct (String.eqb status "cancelled"); [exact Hids|].
    assert (Hc : ids_drawn (snd (BookingRepo.CancelBooking db id))).
    { destruct Hids as [Hnd Hid]. split.
      - cbn. rewrite List.map_map.
        erewrite List.map_ext; [exact Hnd|].
        intros b. destruct (BookingRepo.cancellable id b); reflexivity.
      - intros b Hin. cbn in Hin. apply in_map_iff in Hin as (b0 & <- & Hin0).
        destruct (Hid b0 Hin0) as (k & Hk & E). exists k. split; [exact Hk|].
        destruct (BookingRepo.cancellable id b0); exact E. }
    destruct (BookingRepo.CancelBooking db id) as [rows d].
    destruct (rows =? 0); exact Hc.
  - apply cancel_keeps_one_confirmed; assumption.
  - unfold BookingService.CancelBooking.
    destruct (BookingRepo.GetBookingStatus db id) as [status [[| m | l v]|]]; try exact Hst.
    destruct (String.eqb status "cancelled"); [exact Hst|].
    assert (Hc : statuses_known (snd (BookingRepo.CancelBooking db id))).
    { intros b Hin. cbn in Hin. apply in_map_iff in Hin as (b0 & <- & Hin0).
      destruct (BookingRepo.cancellable id b0); [right; reflexivity|apply Hst, Hin0]. }
    destruct (BookingRepo.CancelBooking db id) as [rows d].
    destruct (rows =? 0); exact Hc.
Qed.

Lemma inv_step db c db' : reachable_inv db -> store_after db c = Some db' -> reachable_inv db'.
Proof.
  intros Hinv. destruct c as [u rules now|u rid rule now|fuel u req now pg|id]; cbn.
  - intros [= <-]. apply (inv_same_bookings db); [|apply SetAvailability_from_seq|assumption].
    apply SetAvailability_from_bookings.
  - intros [= <-]. apply (inv_same_bookings db); [| |assumption].
    + apply UpdateAvailability_bookings.
    + rewrite UpdateAvailability_seq. lia.
  - destruct (BookingService.CreateBooking fuel db u req now pg) as [[r d]|] eqn:Hc; [|discriminate].
    intros [= <-]. apply (inv_create _ _ _ _ _ _ _ _ Hinv Hc).
  - intros [= <-]. apply inv_cancel, Hinv.
Qed.

(** X3.  Starting from the empty store, any sequence of [SetAvailability],
    [UpdateAvailability], [CreateBooking] and [CancelBooking] calls made one
    after another, each of which returns, leaves a store in which no user
    has two confirmed bookings with the same start, every booking is
    confirmed or cancelled, every booking identifier is non-empty, and the
    identifier that the next insertion draws is not in use. *)
Theorem X3_sequential_calls_invariant cs db :
  store_after_all empty_db cs = Some db ->
  at_most_one_confirmed db /\ statuses_known db /\ wf_ids db /\ next_id_unused db.
Proof.
  assert (Hgen : forall cs d0, reachable_inv d0 -> store_after_all d0 cs = Some db ->
                               reachable_inv db).
  { clear cs. induction cs as [|c cs IH]; intros d0 Hinv; cbn.
    - intros [= <-]. assumption.
    - destruct (store_after d0 c) as [d1|] eqn:Hc; [|discriminate].
      apply IH. apply (inv_step _ _ _ Hinv Hc). }
  intros H. destruct (Hgen cs empty_db) as (Hids & Hone & Hst); [|assumption|].
  - split; [split; [constructor|intros b []]|]. split; [intros u s; cbn; lia|intros b []].
  - repeat split; try assumption;
      [apply ids_drawn_wf, Hids|apply ids_drawn_next_unused, Hids].
Qed.

Lemma X3_sequential_calls_invariant_witness :
  exists db, store_after_all empty_db example_calls = Some db /\
             at_most_one_confirmed db /\ statuses_known db /\ wf_ids db /\ next_id_unused db.
Proof.
  eexists. split; [vm_compute; reflexivity|].
  apply (X3_sequential_calls_invariant example_calls). vm_compute. reflexivity.
Defined.

(** ** What a booking changes for later derivations *)

Lemma filter_filter_and {A} (f g : A -> bool) l :
  List.filter f (List.filter g l) = List.filter (fun x => g x && f x) l.
Proof.
  induction l as [|x l IH]; cbn; [reflexivity|].
  destruct (g x); cbn; [destruct (f x)|]; rewrite ?IH; reflexivity.
Qed.

Lemma ListAvailabilityRules_same db db' userID :
  availability_rules db' = availability_rules db ->
  AvailabilityRepo.ListAvailabilityRules db' userID = AvailabilityRepo.ListAvailabilityRules db userID.
Proof. intros H. unfold AvailabilityRepo.ListAvailabilityRules. rewrite H. reflexivity. Qed.

(** The derivation depends on the store through the rules of the user and
    the bookings it loads. *)
Lemma GenerateAvailableSlots_same fuel db db' userID fromUTC toUTC :
  availability_rules db' = availability_rules db ->
  BookingRepo.ListBookingsInRange db' viaPool userID
    (time.Add fromUTC (-1 * time.Hour)) (time.Add toUTC (1 * time.Hour))
  = BookingRepo.ListBookingsInRange db viaPool userID
      (time.Add fromUTC (-1 * time.Hour)) (time.Add toUTC (1 * time.Hour)) ->
  AvailabilityService.GenerateAvailableSlots fuel db' userID fromUTC toUTC
  = AvailabilityService.GenerateAvailableSlots fuel db userID fromUTC toUTC.
Proof.
  intros Hr Hb. unfold AvailabilityService.GenerateAvailableSlots.
  rewrite (ListAvailabilityRules_same _ _ _ Hr), Hb. reflexivity.
Qed.

Lemma ListBookingsInRange_after_booking db userID req pg_now other from to :
  BookingRepo.ListBookingsInRange (db_after_booking db userID req pg_now) viaPool other from to
  = BookingRepo.ListBookingsInRange db viaPool other from to
    ++ (if String.eqb userID other && (from <=? time.UTC (pStart req))
           && (time.UTC (pStart req) <? to)
        then [BookingRepo.scan_listed (stored_row (gen_random_uuid (uuid_seq db)) userID req pg_now)]
        else []).
Proof.
  unfold BookingRepo.ListBookingsInRange. cbn [visible db_after_booking bookings].
  rewrite List.filter_app, List.map_app. f_equal. cbn [List.filter stored_row Booking.UserID
    Booking.StartAtUTC Booking.Status].
  rewrite String.eqb_refl, andb_true_r.
  destruct (_ && _ && _); reflexivity.
Qed.

(** X4.  A successful [CreateBooking] changes the later derivations of the
    same user in one way only: from the result over any window it removes
    the slots that start in the Unix second of the booked start, provided
    the booked start lies within the hour around the window; no slot is
    added and no other slot is removed. *)
Theorem X4_booking_removes_its_second fuel fuel' db userID req now pg_now b db' fromUTC toUTC slots :
  BookingService.CreateBooking fuel db userID req now pg_now = Some (Ok b, db') ->
  AvailabilityService.GenerateAvailableSlots fuel' db userID fromUTC toUTC = Some (Ok slots) ->
  AvailabilityService.GenerateAvailableSlots fuel' db' userID fromUTC toUTC
  = Some (Ok (List.filter (survives (time.UTC (pStart req)) fromUTC toUTC) slots)).
Proof.
  intros Hcall Hgen.
  destruct (CreateBooking_success _ _ _ _ _ _ _ _ Hcall) as (_ & _ & _ & _ & ->).
  unfold AvailabilityService.GenerateAvailableSlots in *.
  rewrite (ListAvailabilityRules_same db (db_after_booking db userID req pg_now)) by reflexivity.
  destruct (List.length _ =? 0)%nat; [injection Hgen as <-; reflexivity|].
  destruct (AvailabilityService.candidates fuel' _ fromUTC toUTC) as [[candidate|]|];
    try discriminate.
  injection Hgen as <-. rewrite filter_filter_and. do 2 f_equal.
  apply filter_ext. intros sl.
  rewrite ListBookingsInRange_after_booking, String.eqb_refl. cbn [andb].
  unfold survives, time.Add.
  replace (fromUTC + -1 * time.Hour) with (fromUTC - time.Hour) by lia.
  replace (toUTC + 1 * time.Hour) with (toUTC + time.Hour) by lia.
  set (old := BookingRepo.ListBookingsInRange db viaPool userID _ _).
  destruct ((fromUTC - time.Hour <=? time.UTC (pStart req))
            && (time.UTC (pStart req) <? toUTC + time.Hour)) eqn:Hr; cbn [andb negb].
  - destruct (Z.eqb_spec (time.Unix (StartUTC sl)) (time.Unix (time.UTC (pStart req)))) as [E|E];
      cbn [negb].
    + rewrite andb_false_r. apply negb_false_iff, bool_decide_eq_true, booked_set_elem.
      eexists. split; [apply in_app_iff; right; left; reflexivity|]. cbn. congruence.
    + rewrite andb_true_r. f_equal. apply bool_decide_ext.
      rewrite !booked_set_elem. split.
      * intros (b0 & Hin & Hu). apply in_app_iff in Hin as [Hin|[<-|[]]]; [eauto|].
        cbn in Hu. congruence.
      * intros (b0 & Hin & Hu). exists b0. split; [apply in_app_iff; left|]; assumption.
  - rewrite app_nil_r, andb_true_r. reflexivity.
Qed.

Lemma X4_booking_removes_its_second_witness :
  let db := db_with half_hours in
  AvailabilityService.GenerateAvailableSlots 10 (db_after_booking db "u" first_half_hour 0) "u"
    monday (monday + Day)
  = Some (Ok (List.filter (survives (time.UTC (pStart first_half_hour)) monday (monday + Day))
                [mkSlot (monday_at 9 0) (monday_at 9 30);
                 mkSlot (monday_at 9 30) (monday_at 10 0)])).
Proof.
  intros db.
  apply (X4_booking_removes_its_second 10 10 db "u" first_half_hour 0 0
           (stored_row "uuid-1" "u" first_half_hour 0)); vm_compute; reflexivity.
Defined.

(** ** Booking again after a cancellation *)

Lemma cancelled_in_after_booking db userID req pg_now :
  next_id_unused db ->
  cancelled_in (db_after_booking db userID req pg_now) (gen_random_uuid (uuid_seq db))
  = mkDB (availability_rules db)
         (bookings db ++ [BookingRepo.cancel_row
                            (stored_row (gen_random_uuid (uuid_seq db)) userID req pg_now)])
         (S (uuid_seq db)).
Proof.
  intros Hfresh. unfold cancelled_in, db_after_booking. cbn. f_equal.
  rewrite List.map_app. cbn [map]. f_equal.
  - rewrite <- (List.map_id (bookings db)) at 2. apply List.map_ext_in.
    intros b Hin. destruct (BookingRepo.cancellable _ b) eqn:Hc; [|reflexivity].
    apply cancellable_true in Hc as [Hid _]. elim (Hfresh b Hin Hid).
  - unfold BookingRepo.cancellable. cbn. rewrite String.eqb_refl. reflexivity.
Qed.

Lemma lookup_new_booking db userID req pg_now :
  next_id_unused db ->
  lookup_booking (db_after_booking db userID req pg_now) (gen_random_uuid (uuid_seq db))
  = Some (stored_row (gen_random_uuid (uuid_seq db)) userID req pg_now).
Proof.
  intros Hfresh. unfold lookup_booking, db_after_booking. cbn [bookings].
  unfold next_id_unused in Hfresh. revert Hfresh.
  generalize (gen_random_uuid (uuid_seq db)) as id0. generalize (bookings db) as bs.
  induction bs as [|b bs IH]; intros id0 Hfresh; cbn.
  - rewrite String.eqb_refl. reflexivity.
  - destruct (String.eqb_spec (Booking.ID b) id0) as [E|E].
    + elim (Hfresh b (or_introl eq_refl) E).
    + apply IH. intros b' Hin. apply Hfresh. right. exact Hin.
Qed.

Lemma CancelBooking_alone_succeeds db id b :
  lookup_booking db id = Some b -> Booking.Status b <> "cancelled"%string ->
  BookingService.CancelBooking (fun d => d) db id = (None, cancelled_in db id).
Proof.
  intros Hl Hs. unfold BookingService.CancelBooking.
  change (BookingRepo.GetBookingStatus db id)
    with (match lookup_booking db id with
          | Some b => (Booking.Status b, None)
          | None => (""%string, Some ErrNoRows)
          end).
  rewrite Hl. pose proof Hs as Hs'. apply String.eqb_neq in Hs'. rewrite Hs'.
  pose proof (find_some _ _ Hl) as [Hin Hid]. apply String.eqb_eq in Hid.
  pose proof (rows_affected_positive _ _ _ Hin Hid Hs) as Hpos.
  unfold cancelled_in. destruct (BookingRepo.CancelBooking db id) as [rows db'].
  cbn in *. destruct (Z.eqb_spec rows 0); [lia|reflexivity].
Qed.

(** X5.  In a store whose booking identifiers are non-empty and differ from
    the identifier drawn next: a booking that was created can be cancelled,
    after which the same request succeeds again under a new identifier; the
    store then holds exactly one confirmed booking of the user at that
    start, the new one. *)
Theorem X5_rebook_after_cancel fuel db userID req now pg_now b db1 now' pg_now' :
  wf_ids db -> next_id_unused db ->
  BookingService.CreateBooking fuel db userID req now pg_now = Some (Ok b, db1) ->
  exists db2 b' db3,
    BookingService.CancelBooking (fun d => d) db1 (Booking.ID b) = (None, db2) /\
    BookingService.CreateBooking fuel db2 userID req now' pg_now' = Some (Ok b', db3) /\
    Booking.ID b' <> Booking.ID b /\
    List.filter (BookingRepo.confirmed_at userID (time.UTC (pStart req))) (bookings db3)
    = [stored_row (Booking.ID b') userID req pg_now'].
Proof.
  intros Hwf Hfresh Hcall.
  pose proof (success_means_free _ _ _ _ _ _ _ _ Hwf Hcall) as Hfree.
  destruct (CreateBooking_success _ _ _ _ _ _ _ _ Hcall) as (slots & Hd & Hin & -> & ->).
  cbn [stored_row Booking.ID].
  set (id0 := gen_random_uuid (uuid_seq db)).
  set (db2 := cancelled_in (db_after_booking db userID req pg_now) id0).
  assert (Hdb2 : db2 = mkDB (availability_rules db)
                   (bookings db ++ [BookingRepo.cancel_row (stored_row id0 userID req pg_now)])
                   (S (uuid_seq db))) by (apply cancelled_in_after_booking, Hfresh).
  assert (Hfree2 : ~ booked_at db2 userID (time.UTC (pStart req))).
  { rewrite Hdb2. intros (b0 & Hb0 & Hc & Hs). cbn in Hb0.
    apply in_app_iff in Hb0 as [Hb0|[<-|[]]].
    - apply Hfree. exists b0. auto.
    - destruct Hc as [_ Hc]. cbn in Hc. discriminate. }
  assert (Hsame : AvailabilityService.GenerateAvailableSlots fuel db2 userID
                    (time.Add (time.UTC (pStart req)) (-1 * time.Second))
                    (time.Add (time.UTC (pEnd req)) (1 * time.Second)) = Some (Ok slots)).
  { rewrite <- Hd. apply GenerateAvailableSlots_same; rewrite Hdb2; [reflexivity|].
    unfold BookingRepo.ListBookingsInRange. cbn [visible bookings].
    rewrite List.filter_app. cbn [List.filter BookingRepo.cancel_row Booking.Status String.eqb].
    cbn. rewrite andb_false_r, app_nil_r. reflexivity. }
  exists db2, (stored_row (gen_random_uuid (uuid_seq db2)) userID req now'),
    (db_after_booking db2 userID req pg_now').
  split; [|split; [|split]].
  - apply (CancelBooking_alone_succeeds _ _ (stored_row id0 userID req pg_now)).
    + apply lookup_new_booking, Hfresh.
    + cbn. discriminate.
  - rewrite (CreateBooking_free _ _ _ _ _ _ Hfree2), Hsame.
    apply slot_is_In in Hin. rewrite Hin. reflexivity.
  - cbn [stored_row Booking.ID]. rewrite Hdb2. cbn [uuid_seq]. unfold id0.
    intros E. apply gen_random_uuid_inj in E. lia.
  - cbn [db_after_booking bookings]. rewrite List.filter_app.
    rewrite (not_booked_filter _ _ _ Hfree2). cbn [app List.filter].
    assert (BookingRepo.confirmed_at userID (time.UTC (pStart req))
              (stored_row (gen_random_uuid (uuid_seq db2)) userID req pg_now') = true) as ->.
    { apply confirmed_at_true. repeat split. }
    reflexivity.
Qed.

Lemma X5_rebook_after_cancel_witness :
  let db := db_with half_hours in
  let b := stored_row "uuid-1" "u" first_half_hour 0 in
  exists db2 b' db3,
    BookingService.CancelBooking (fun d => d) (db_after_booking db "u" first_half_hour 0)
      (Booking.ID b) = (None, db2) /\
    BookingService.CreateBooking 10 db2 "u" first_half_hour 1 1 = Some (Ok b', db3) /\
    Booking.ID b' <> Booking.ID b /\
    List.filter (BookingRepo.confirmed_at "u" (time.UTC (pStart first_half_hour))) (bookings db3)
    = [stored_row (Booking.ID b') "u" first_half_hour 1].
Proof.
  intros db b.
  apply (X5_rebook_after_cancel 10 db "u" first_half_hour 0 0 b
           (db_after_booking db "u" first_half_hour 0) 1 1).
  - intros x Hx. vm_compute in Hx. destruct Hx.
  - intros x Hx. vm_compute in Hx. destruct Hx.
  - vm_compute. reflexivity.
Defined.

(** ** Other users *)

Lemma SetAvailability_from_rules userID now rules :
  forall db saved, exists extra,
    availability_rules (snd (AvailabilityService.SetAvailability_from db userID rules now saved))
    = availability_rules db ++ extra /\
    forall r, In r extra -> AvailabilityRule.UserID r = userID.
Proof.
  induction rules as [|r rules IH]; intros db saved.
  - exists []. cbn. rewrite app_nil_r. split; [reflexivity|intros ? []].
  - cbn [AvailabilityService.SetAvailability_from].
    destruct (AvailabilityService.validateAvailabilityRule _).
    + exists []. cbn. rewrite app_nil_r. split; [reflexivity|intros ? []].
    + cbn [AvailabilityRepo.InsertAvailabilityRule].
      match goal with
      | |- context [AvailabilityService.SetAvailability_from ?d userID rules now ?s] =>
        destruct (IH d s) as (extra & E & Hu)
      end.
      rewrite E. cbn [availability_rules]. rewrite <- app_assoc. cbn [app].
      eexists. split; [reflexivity|].
      intros r' [<-|Hin]; [reflexivity|apply Hu, Hin].
Qed.

Lemma rules_of_other_after_insertions l extra userID other :
  (forall r, In r extra -> AvailabilityRule.UserID r = userID) -> other <> userID ->
  List.filter (fun r => String.eqb (AvailabilityRule.UserID r) other) (l ++ extra)
  = List.filter (fun r => String.eqb (AvailabilityRule.UserID r) other) l.
Proof.
  intros Hu Hne. rewrite List.filter_app.
  assert (List.filter (fun r => String.eqb (AvailabilityRule.UserID r) other) extra = []) as ->.
  { induction extra as [|r extra IH]; [reflexivity|]. cbn.
    rewrite (Hu r (or_introl eq_refl)).
    destruct (String.eqb_spec userID other) as [E|E]; [congruence|].
    apply IH. intros; apply Hu; right; assumption. }
  apply app_nil_r.
Qed.

Lemma rules_of_other_after_update l userID ruleID f other :
  (forall r, AvailabilityRule.UserID (f r) = AvailabilityRule.UserID r) -> other <> userID ->
  List.filter (fun r => String.eqb (AvailabilityRule.UserID r) other)
    (map (fun x => if AvailabilityRepo.matches userID ruleID x then f x else x) l)
  = List.filter (fun r => String.eqb (AvailabilityRule.UserID r) other) l.
Proof.
  intros Hf Hne. induction l as [|r l IH]; [reflexivity|]. cbn [map List.filter].
  destruct (AvailabilityRepo.matches userID ruleID r) eqn:Hm.
  - apply matches_true in Hm as [_ Hu]. rewrite Hf, Hu.
    destruct (String.eqb_spec userID other) as [E|E]; [congruence|exact IH].
  - rewrite IH. reflexivity.
Qed.

(** X6.  Calls for one user leave the other users alone: [SetAvailability],
    [UpdateAvailability] and [CreateBooking] for [userID] do not change the
    slots derived for another user, and [CreateBooking] does not change the
    listing of another user's bookings. *)
Theorem X6_calls_leave_other_users db userID other fuel' fromUTC toUTC :
  other <> userID ->
  (forall rules now,
     AvailabilityService.GenerateAvailableSlots fuel'
       (snd (AvailabilityService.SetAvailability db userID rules now)) other fromUTC toUTC
     = AvailabilityService.GenerateAvailableSlots fuel' db other fromUTC toUTC) /\
  (forall ruleID rule now,
     AvailabilityService.GenerateAvailableSlots fuel'
       (snd (AvailabilityService.UpdateAvailability db userID ruleID rule now)) other fromUTC toUTC
     = AvailabilityService.GenerateAvailableSlots fuel' db other fromUTC toUTC) /\
  (forall fuel req now pg_now r db',
     BookingService.CreateBooking fuel db userID req now pg_now = Some (r, db') ->
     AvailabilityService.GenerateAvailableSlots fuel' db' other fromUTC toUTC
     = AvailabilityService.GenerateAvailableSlots fuel' db other fromUTC toUTC /\
     forall from to filtered,
       BookingRepo.ListBookings db' viaPool other from to filtered
       = BookingRepo.ListBookings db viaPool other from to filtered).
Proof.
  intros Hne.
  assert (Hgen : forall db', AvailabilityRepo.ListAvailabilityRules db' other
                             = AvailabilityRepo.ListAvailabilityRules db other ->
                 bookings db' = bookings db ->
                 AvailabilityService.GenerateAvailableSlots fuel' db' other fromUTC toUTC
                 = AvailabilityService.GenerateAvailableSlots fuel' db other fromUTC toUTC).
  { intros db' Hr Hb. unfold AvailabilityService.GenerateAvailableSlots.
    rewrite Hr. unfold BookingRepo.ListBookingsInRange. cbn [visible]. rewrite Hb. reflexivity. }
  split; [|split].
  - intros rules now. apply Hgen; [|apply SetAvailability_from_bookings].
    unfold AvailabilityService.SetAvailability, AvailabilityRepo.ListAvailabilityRules.
    destruct (SetAvailability_from_rules userID now rules db []) as (extra & -> & Hu).
    rewrite (rules_of_other_after_insertions _ _ _ _ Hu Hne). reflexivity.
  - intros ruleID rule now. apply Hgen; [|apply UpdateAvailability_bookings].
    unfold AvailabilityService.UpdateAvailability.
    destruct (AvailabilityRepo.GetAvailabilityRule db userID ruleID); [|reflexivity].
    destruct (AvailabilityService.validateAvailabilityRule _); [reflexivity|].
    unfold AvailabilityRepo.UpdateAvailabilityRule.
    destruct (List.find _ _); [|reflexivity].
    match goal with
    | |- context [map ?g (availability_rules db)] =>
      assert (Hr : AvailabilityRepo.ListAvailabilityRules
                (mkDB (map g (availability_rules db)) (bookings db) (uuid_seq db)) other
              = AvailabilityRepo.ListAvailabilityRules db other)
    end.
    { unfold AvailabilityRepo.ListAvailabilityRules. cbn [availability_rules].
      rewrite rules_of_other_after_update; [reflexivity|intros; reflexivity|assumption]. }
    destruct (AvailabilityRepo.GetAvailabilityRule _ _ _); exact Hr.
  - intros fuel req now pg_now r db' Hcall. destruct r as [b|err].
    + destruct (CreateBooking_success _ _ _ _ _ _ _ _ Hcall) as (_ & _ & _ & _ & ->). split.
      * apply GenerateAvailableSlots_same; [reflexivity|].
        rewrite ListBookingsInRange_after_booking.
        destruct (String.eqb_spec userID other) as [E|E]; [congruence|]. apply app_nil_r.
      * intros from to filtered. unfold BookingRepo.ListBookings.
        cbn [visible db_after_booking bookings]. rewrite List.filter_app.
        cbn [List.filter stored_row Booking.UserID].
        destruct (String.eqb_spec userID other) as [E|E]; [congruence|].
        cbn [andb]. rewrite app_nil_r. reflexivity.
    + rewrite (CreateBooking_failure_keeps_store _ _ _ _ _ _ _ _ Hcall). split; reflexivity.
Qed.

Lemma X6_calls_leave_other_users_witness :
  "v"%string <> "u"%string /\
  forall rules now,
    AvailabilityService.GenerateAvailableSlots 10
      (snd (AvailabilityService.SetAvailability (db_with half_hours) "u" rules now)) "v"
      monday (monday + Day)
    = AvailabilityService.GenerateAvailableSlots 10 (db_with half_hours) "v"
        monday (monday + Day).
Proof.
  assert (Hne : "v"%string <> "u"%string) by discriminate.
  split; [exact Hne|].
  exact (proj1 (X6_calls_leave_other_users (db_with half_hours) "u" "v" 10 monday
                  (monday + Day) Hne)).
Defined.

(** ** The interval of a booking *)



(** ** Derivation over well-formed rules *)

Lemma substring_all s : String.substring 0 (String.length s) s = s.
Proof. induction s as [|c s IH]; cbn; [reflexivity|]. rewrite IH. reflexivity. Qed.

Lemma parseHHMM_five s :
  String.length s = 5%nat -> AvailabilityService.parseHHMM s = time.Parse1504 s.
Proof.
  intros H. unfold AvailabilityService.parseHHMM. rewrite H. cbn [Nat.ltb Nat.leb].
  rewrite <- H at 1. rewrite substring_all. reflexivity.
Qed.

Lemma well_formed_parses r :
  well_formed_rule r ->
  exists s e, AvailabilityService.parseHHMM (AvailabilityRule.StartTime r) = Ok s /\
              AvailabilityService.parseHHMM (AvailabilityRule.EndTime r) = Ok e /\
              time.After e s = true.
Proof.
  intros (Hv & Hs & He & _). rewrite (parseHHMM_five _ Hs), (parseHHMM_five _ He).
  unfold AvailabilityService.validateAvailabilityRule in Hv.
  destruct (time.Parse1504 (AvailabilityRule.StartTime r)) as [s|]; [|discriminate].
  destruct (time.Parse1504 (AvailabilityRule.EndTime r)) as [e|]; [|discriminate].
  destruct (time.After e s) eqn:Ha; [|discriminate]. eauto.
Qed.

Lemma over_rules_no_error fuel day rules fromUTC toUTC :
  (forall r, In r rules -> well_formed_rule r) -> forall candidate res,
  AvailabilityService.over_rules fuel day rules fromUTC toUTC candidate = Some res ->
  exists out, res = Ok out.
Proof.
  intros Hwf. induction rules as [|r rules IH]; intros candidate res H;
    cbn [AvailabilityService.over_rules] in H.
  - injection H as <-. eauto.
  - assert (IH' := IH (fun r' Hr => Hwf r' (or_intror Hr))).
    destruct (negb (time.Weekday day =? AvailabilityRule.DayOfWeek r)); [eauto|].
    destruct (well_formed_parses r (Hwf r (or_introl eq_refl))) as (s & e & Hs & He & Ha).
    rewrite Hs, He, Ha in H. cbn [negb] in H.
    destruct (AvailabilityService.tile _ _ _ _ _ _ _ _); [eauto|discriminate].
Qed.

Lemma over_days_no_error fuel_days fuel endDate rules fromUTC toUTC :
  (forall r, In r rules -> well_formed_rule r) -> forall day candidate res,
  AvailabilityService.over_days fuel_days fuel day endDate rules fromUTC toUTC candidate = Some res ->
  exists out, res = Ok out.
Proof.
  intros Hwf. induction fuel_days as [|fd IH]; intros day candidate res H; [discriminate|].
  cbn [AvailabilityService.over_days] in H.
  destruct (negb (time.After day endDate)); [|injection H as <-; eauto].
  destruct (AvailabilityService.over_rules fuel day rules fromUTC toUTC candidate)
    as [[c|err]|] eqn:Hr; try discriminate.
  - eauto.
  - destruct (over_rules_no_error _ _ _ _ _ Hwf _ _ Hr) as [out E]. discriminate.
Qed.

Lemma well_formed_rules_derive db userID fromUTC toUTC :
  (forall r, In r (AvailabilityRepo.ListAvailabilityRules db userID) -> well_formed_rule r) ->
  exists slots fuel0, forall fuel, (fuel0 <= fuel)%nat ->
    AvailabilityService.GenerateAvailableSlots fuel db userID fromUTC toUTC = Some (Ok slots).
Proof.
  intros Hwf.
  destruct (GenerateAvailableSlots_terminates (enough_fuel fromUTC toUTC) db userID
              fromUTC toUTC) as [res Hres]; [|apply Nat.le_refl|].
  { intros r Hr. apply slot_len_positive, (Hwf r Hr). }
  set (fuel0 := enough_fuel fromUTC toUTC) in *.
  assert (exists slots, res = Ok slots) as [slots ->].
  2:{ exists slots, fuel0. intros fuel Hle.
      exact (GenerateAvailableSlots_mono _ _ _ _ _ _ _ Hle Hres). }
  unfold AvailabilityService.GenerateAvailableSlots in Hres.
  destruct (List.length _ =? 0)%nat; [injection Hres as <-; eauto|].
  destruct (AvailabilityService.candidates fuel0 _ _ _) as [[c|err]|] eqn:Hc; try discriminate.
  - injection Hres as <-. eauto.
  - unfold AvailabilityService.candidates in Hc.
    destruct (over_days_no_error _ _ _ _ _ _ Hwf _ _ _ Hc) as [out E]. discriminate.
Qed.

(** X8.  When every rule of the user passes validation, has both clock
    times written with five characters and a slot length between 1 and
    153722867 minutes, the derivation over any window returns a list of
    slots and no error: from some amount of fuel on it yields one and the
    same list. *)
Theorem X8_well_formed_rules_derive db userID fromUTC toUTC :
  (forall r, In r (AvailabilityRepo.ListAvailabilityRules db userID) -> well_formed_rule r) ->
  exists slots fuel0, forall fuel, (fuel0 <= fuel)%nat ->
    AvailabilityService.GenerateAvailableSlots fuel db userID fromUTC toUTC = Some (Ok slots).
Proof. apply well_formed_rules_derive. Qed.

Lemma half_hours_row_well_formed :
  forall r, In r (AvailabilityRepo.ListAvailabilityRules (db_with half_hours) "u") ->
            well_formed_rule r.
Proof.
  intros r [<-|[]]. split; [vm_compute; reflexivity|]. split; [reflexivity|].
  split; [reflexivity|]. vm_compute. split; discriminate.
Qed.

Lemma X8_well_formed_rules_derive_witness :
  (forall r, In r (AvailabilityRepo.ListAvailabilityRules (db_with half_hours) "u") ->
             well_formed_rule r) /\
  exists slots fuel0, forall fuel, (fuel0 <= fuel)%nat ->
    AvailabilityService.GenerateAvailableSlots fuel (db_with half_hours) "u" monday (monday + Day)
    = Some (Ok slots).
Proof.
  split; [exact half_hours_row_well_formed|].
  exact (X8_well_formed_rules_derive (db_with half_hours) "u" monday (monday + Day)
           half_hours_row_well_formed).
Defined.

(** ** Updating a rule *)

Lemma find_none_matches db userID ruleID :
  (forall r, In r (availability_rules db) ->
     ~ (AvailabilityRule.ID r = ruleID /\ AvailabilityRule.UserID r = userID)) ->
  List.find (AvailabilityRepo.matches userID ruleID) (availability_rules db) = None.
Proof.
  intros H. destruct (List.find _ _) as [r|] eqn:Hf; [|reflexivity].
  apply find_some in Hf as [Hin Hm]. apply matches_true in Hm. elim (H r Hin Hm).
Qed.

(** X9.  [UpdateAvailability] of a rule that the user does not have (no
    rule with that identifier and that user) fails with [pgx.ErrNoRows] and
    leaves the store as it was. *)
Theorem X9_update_of_missing_rule db userID ruleID rule now :
  (forall r, In r (availability_rules db) ->
     ~ (AvailabilityRule.ID r = ruleID /\ AvailabilityRule.UserID r = userID)) ->
  AvailabilityService.UpdateAvailability db userID ruleID rule now = (Err ErrNoRows, db).
Proof.
  intros Hnone. unfold AvailabilityService.UpdateAvailability, AvailabilityRepo.GetAvailabilityRule.
  rewrite (find_none_matches _ _ _ Hnone). reflexivity.
Qed.

Lemma X9_update_of_missing_rule_witness :
  AvailabilityService.UpdateAvailability (db_with half_hours) "u" "uuid-7" tuesday_rule 0
  = (Err ErrNoRows, db_with half_hours).
Proof.
  apply X9_update_of_missing_rule.
  intros r [<-|[]] [Hid _]. vm_compute in Hid. discriminate.
Defined.

(** X10.  [UpdateAvailability] of an existing rule with a weekday other
    than 0 and fields that pass validation returns the rule with the
    supplied weekday, times, slot length, title and availability, under the
    identifier, user and creation time of the stored rule; and
    [GetAvailabilityRule] afterwards reads that same rule. *)
Theorem X10_update_round_trip db userID ruleID rule now existing :
  AvailabilityRepo.GetAvailabilityRule db userID ruleID = Ok existing ->
  AvailabilityRule.DayOfWeek rule <> 0 ->
  AvailabilityService.validateAvailabilityRule rule = None ->
  exists db',
    AvailabilityService.UpdateAvailability db userID ruleID rule now
    = (Ok (updated_rule existing rule (AvailabilityRule.DayOfWeek rule) now), db') /\
    AvailabilityRepo.GetAvailabilityRule db' userID ruleID
    = Ok (updated_rule existing rule (AvailabilityRule.DayOfWeek rule) now).
Proof.
  intros Hget Hday Hval.
  destruct (UpdateAvailability_valid db userID ruleID rule now existing Hget Hval)
    as (db' & Hu & Hg & _).
  apply Z.eqb_neq in Hday. rewrite Hday in Hu, Hg. eauto.
Qed.

Lemma X10_update_round_trip_witness :
  exists db',
    AvailabilityService.UpdateAvailability (db_with half_hours) "u" "uuid-0" tuesday_rule 7
    = (Ok (updated_rule half_hours_row tuesday_rule 2 7), db') /\
    AvailabilityRepo.GetAvailabilityRule db' "u" "uuid-0"
    = Ok (updated_rule half_hours_row tuesday_rule 2 7).
Proof.
  apply (X10_update_round_trip (db_with half_hours) "u" "uuid-0" tuesday_rule 7 half_hours_row).
  - vm_compute. reflexivity.
  - vm_compute. discriminate.
  - vm_compute. reflexivity.
Defined.

(** X11.  Whatever it returns, [UpdateAvailability] neither adds nor
    removes a rule, leaves the bookings untouched, and keeps every rule
    other than the one it addresses as it was. *)
Theorem X11_update_touches_one_rule db userID ruleID rule now res db' :
  AvailabilityService.UpdateAvailability db userID ruleID rule now = (res, db') ->
  List.length (availability_rules db') = List.length (availability_rules db) /\
  bookings db' = bookings db /\
  forall r, In r (availability_rules db) ->
    ~ (AvailabilityRule.ID r = ruleID /\ AvailabilityRule.UserID r = userID) ->
    In r (availability_rules db').
Proof.
  intros Hcall.
  assert (Hcases : db' = db \/ exists rule',
            db' = mkDB (map (fun x => if AvailabilityRepo.matches userID ruleID x
                                      then AvailabilityRepo.update_row rule' now x else x)
                            (availability_rules db)) (bookings db) (uuid_seq db)).
  { unfold AvailabilityService.UpdateAvailability in Hcall.
    destruct (AvailabilityRepo.GetAvailabilityRule db userID ruleID); [|left; congruence].
    destruct (AvailabilityService.validateAvailabilityRule _); [left; congruence|].
    unfold AvailabilityRepo.UpdateAvailabilityRule in Hcall.
    destruct (List.find _ _); [|left; congruence].
    right. eexists.
    destruct (AvailabilityRepo.GetAvailabilityRule _ _ _); injection Hcall as _ <-; reflexivity. }
  destruct Hcases as [->|[rule' ->]]; [auto|]. cbn [availability_rules bookings].
  split; [apply length_map|]. split; [reflexivity|].
  intros r Hin Hno. apply in_map_iff. exists r. split; [|assumption].
  destruct (AvailabilityRepo.matches userID ruleID r) eqn:Hm; [|reflexivity].
  apply matches_true in Hm. contradiction.
Qed.

Lemma X11_update_touches_one_rule_witness :
  let db := db_with half_hours in
  let db' := snd (AvailabilityService.UpdateAvailability db "u" "uuid-0" tuesday_rule 7) in
  List.length (availability_rules db') = List.length (availability_rules db) /\
  bookings db' = bookings db /\
  forall r, In r (availability_rules db) ->
    ~ (AvailabilityRule.ID r = "uuid-0"%string /\ AvailabilityRule.UserID r = "u"%string) ->
    In r (availability_rules db').
Proof.
  intros db db'.
  apply (X11_update_touches_one_rule db "u" "uuid-0" tuesday_rule 7
           (fst (AvailabilityService.UpdateAvailability db "u" "uuid-0" tuesday_rule 7)) db').
  vm_compute. reflexivity.
Defined.

(** ** Storing a batch of rules and reading it back *)

Lemma find_rows_for userID now rules :
  forall n k r,
  nth_error (rows_for n userID now rules) k = Some r ->
  AvailabilityRule.ID r = gen_random_uuid (n + k) /\ AvailabilityRule.UserID r = userID /\
  List.find (AvailabilityRepo.matches userID (gen_random_uuid (n + k)))
            (rows_for n userID now rules) = Some r.
Proof.
  induction rules as [|x rules IH]; intros n k r H; [destruct k; discriminate|].
  destruct k as [|k]; cbn [rows_for nth_error] in H |- *.
  - injection H as <-. rewrite Nat.add_0_r. cbn [AvailabilityRule.ID AvailabilityRule.UserID].
    split; [reflexivity|]. split; [reflexivity|].
    cbn [List.find]. unfold AvailabilityRepo.matches. cbn [AvailabilityRule.ID AvailabilityRule.UserID].
    rewrite !String.eqb_refl. reflexivity.
  - destruct (IH (S n) k r H) as (Hid & Hu & Hf).
    replace (n + S k)%nat with (S n + k)%nat by lia.
    split; [assumption|]. split; [assumption|].
    cbn [List.find]. unfold AvailabilityRepo.matches at 1.
    cbn [AvailabilityRule.ID AvailabilityRule.UserID].
    destruct (String.eqb_spec (gen_random_uuid n) (gen_random_uuid (S n + k))) as [E|E].
    + apply gen_random_uuid_inj in E. lia.
    + cbn [andb]. exact Hf.
Qed.

Lemma find_app_skip {A} (p : A -> bool) l k :
  (forall x, In x l -> p x = false) -> List.find p (l ++ k) = List.find p k.
Proof.
  intros H. induction l as [|x l IH]; [reflexivity|]. cbn.
  rewrite (H x (or_introl eq_refl)). apply IH. intros; apply H; right; assumption.
Qed.

(** X12.  [SetAvailability] of a batch whose rules all pass validation, in
    a store where no rule carries an identifier still to be drawn, saves one
    row per rule and returns the rows; each saved row is read back by
    [GetAvailabilityRule] under its identifier and is listed by
    [ListAvailability], and the rules listed before the call are still
    listed after it. *)
Theorem X12_batch_round_trip db userID rules now :
  (forall r, In r rules -> AvailabilityService.validateAvailabilityRule r = None) ->
  next_rule_id_unused db ->
  AvailabilityService.SetAvailability db userID rules now
  = (Ok (rows_for (uuid_seq db) userID now rules), db_after_rules db userID now rules) /\
  List.length (rows_for (uuid_seq db) userID now rules) = List.length rules /\
  (forall r, In r (rows_for (uuid_seq db) userID now rules) ->
     AvailabilityRepo.GetAvailabilityRule (db_after_rules db userID now rules) userID
       (AvailabilityRule.ID r) = Ok r /\
     In r (AvailabilityService.ListAvailability (db_after_rules db userID now rules) userID)) /\
  (forall r, In r (AvailabilityService.ListAvailability db userID) ->
     In r (AvailabilityService.ListAvailability (db_after_rules db userID now rules) userID)).
Proof.
  intros Hval Hfresh. split; [|split; [apply rows_for_length|split]].
  - unfold AvailabilityService.SetAvailability.
    rewrite <- (app_nil_r rules) at 1. rewrite SetAvailability_from_valid by assumption.
    reflexivity.
  - intros r Hin. apply In_nth_error in Hin as [k Hk].
    destruct (find_rows_for _ _ _ _ _ _ Hk) as (Hid & Hu & Hf). split.
    + apply GetAvailabilityRule_Ok. cbn [db_after_rules availability_rules].
      rewrite Hid, find_app_skip; [exact Hf|].
      intros x Hx. destruct (AvailabilityRepo.matches _ _ x) eqn:Hm; [|reflexivity].
      apply matches_true in Hm as [E _]. elim (Hfresh x Hx (uuid_seq db + k)%nat); [lia|exact E].
    + apply ListAvailabilityRules_In. cbn [db_after_rules availability_rules].
      split; [|exact Hu]. apply in_app_iff. right. eapply nth_error_In, Hk.
  - intros r Hin. apply ListAvailabilityRules_In in Hin as [Hin Hu].
    apply ListAvailabilityRules_In. split; [|exact Hu].
    cbn [db_after_rules availability_rules]. apply in_app_iff. left. exact Hin.
Qed.

Lemma X12_batch_round_trip_witness :
  let rules := [half_hours; tuesday_rule] in
  AvailabilityService.SetAvailability empty_db "u" rules 0
  = (Ok (rows_for (uuid_seq empty_db) "u" 0 rules), db_after_rules empty_db "u" 0 rules) /\
  List.length (rows_for (uuid_seq empty_db) "u" 0 rules) = List.length rules.
Proof.
  intros rules.
  assert (Hval : forall r, In r rules -> AvailabilityService.validateAvailabilityRule r = None).
  { intros r [<-|[<-|[]]]; vm_compute; reflexivity. }
  assert (Hfresh : next_rule_id_unused empty_db) by (intros r []).
  destruct (X12_batch_round_trip empty_db "u" rules 0 Hval Hfresh) as (H1 & H2 & _).
  split; [exact H1|exact H2].
Defined.

(** ** One rule, one day: the slots in closed form *)

Lemma tile_closed_form utcEnd slotLen fromUTC toUTC :
  0 < slotLen -> forall n fuel s0 candidate,
  (n < fuel)%nat ->
  s0 + Z.of_nat n * slotLen <= utcEnd < s0 + (Z.of_nat n + 1) * slotLen ->
  fromUTC < s0 + slotLen -> s0 + (Z.of_nat n - 1) * slotLen < toUTC ->
  AvailabilityService.tile fuel s0 utcEnd slotLen fromUTC toUTC true candidate
  = Some (candidate ++ tiles_from s0 slotLen n).
Proof.
  intros Hlen. induction n as [|n IH]; intros fuel s0 candidate Hf Hend Hfrom Hto;
    (destruct fuel as [|fuel]; [lia|]); rewrite tile_S.
  - destruct (Z.leb_spec (s0 + slotLen) utcEnd); [lia|]. cbn. rewrite app_nil_r. reflexivity.
  - destruct (Z.leb_spec (s0 + slotLen) utcEnd); [|lia].
    destruct (Z.ltb_spec fromUTC (s0 + slotLen)); [|lia].
    destruct (Z.ltb_spec s0 toUTC); [|nia]. cbn [andb].
    rewrite IH; [|lia|lia|lia|lia]. cbn [tiles_from]. rewrite <- app_assoc. reflexivity.
Qed.

Lemma Weekday_next day : time.Weekday (day + Day) <> time.Weekday day.
Proof.
  unfold time.Weekday. change (24 * time.Hour) with Day. rewrite Day_value.
  replace (day + 86400000000000) with (day + 1 * 86400000000000) by lia.
  rewrite Z.div_add by lia.
  pose proof (Z.mod_pos_bound (day / 86400000000000 + 4) 7 ltac:(lia)).
  pose proof (Z.mod_pos_bound (day / 86400000000000 + 1 + 4) 7 ltac:(lia)).
  pose proof (Z.div_mod (day / 86400000000000 + 4) 7 ltac:(lia)).
  pose proof (Z.div_mod (day / 86400000000000 + 1 + 4) 7 ltac:(lia)).
  lia.
Qed.

Lemma Truncate_midnight day : day mod Day = 0 -> time.Truncate day (24 * time.Hour) = day.
Proof. intros H. rewrite Truncate_day, H. lia. Qed.

Lemma no_confirmed_no_bookings db userID from to :
  (forall b, In b (bookings db) -> ~ confirmed_of userID b) ->
  BookingRepo.ListBookingsInRange db viaPool userID from to = [].
Proof.
  intros Hno. destruct (BookingRepo.ListBookingsInRange db viaPool userID from to) as [|b l] eqn:E;
    [reflexivity|].
  assert (Hin : In b (b :: l)) by (left; reflexivity). rewrite <- E in Hin.
  apply ListBookingsInRange_In in Hin as (b0 & Hin0 & _ & Hc & _). elim (Hno b0 Hin0 Hc).
Qed.

Lemma filter_all {A} (f : A -> bool) l : (forall x, f x = true) -> List.filter f l = l.
Proof. intros H. induction l as [|x l IH]; cbn; [|rewrite H, IH]; reflexivity. Qed.

(** X13.  For a user with a single rule, well-formed and available, and no
    confirmed booking, the derivation over a UTC day of the rule's weekday
    returns exactly the [n] consecutive tiles of the rule's slot length that
    begin at the rule's start time, [n] being the number of whole slot
    lengths between the start and the end time; [n + 1] units of fuel, and
    at least 3, are enough. *)
Theorem X13_single_rule_full_day db userID r day :
  AvailabilityRepo.ListAvailabilityRules db userID = [r] ->
  well_formed_rule r -> AvailabilityRule.Available r = true ->
  day mod Day = 0 -> time.Weekday day = AvailabilityRule.DayOfWeek r ->
  (forall b, In b (bookings db) -> ~ confirmed_of userID b) ->
  exists startTOD endTOD,
    AvailabilityService.parseHHMM (AvailabilityRule.StartTime r) = Ok startTOD /\
    AvailabilityService.parseHHMM (AvailabilityRule.EndTime r) = Ok endTOD /\
    let n := Z.to_nat ((on_day day endTOD - on_day day startTOD) / slot_len r) in
    forall fuel, (Nat.max (S n) 3 <= fuel)%nat ->
      AvailabilityService.GenerateAvailableSlots fuel db userID day (day + Day)
      = Some (Ok (tiles_from (on_day day startTOD) (slot_len r) n)).
Proof.
  intros Hrules Hwf Hav Hday Hw Hno.
  destruct (well_formed_parses r Hwf) as (s & e & Hs & He & Ha).
  exists s, e. split; [assumption|]. split; [assumption|]. intros n fuel Hfuel.
  pose proof (slot_len_positive r (proj2 (proj2 (proj2 Hwf)))) as Hlen.
  pose proof (on_day_After day _ _ (parseHHMM_clock _ _ Hs) (parseHHMM_clock _ _ He) Ha) as Hlt.
  destruct (on_day_bounds day s Hday) as [[Hs1 Hs2] _].
  destruct (on_day_bounds day e Hday) as [[He1 He2] _].
  set (q := (on_day day e - on_day day s) / slot_len r) in *.
  assert (Hq : 0 <= q) by (apply Z.div_pos; lia).
  pose proof (Z.div_mod (on_day day e - on_day day s) (slot_len r) ltac:(lia)) as Hdm.
  pose proof (Z.mod_pos_bound (on_day day e - on_day day s) (slot_len r) Hlen) as Hmb.
  fold q in Hdm.
  assert (Htile : forall candidate,
            AvailabilityService.tile fuel (on_day day s) (on_day day e) (slot_len r)
              day (day + Day) true candidate
            = Some (candidate ++ tiles_from (on_day day s) (slot_len r) n)).
  { intros candidate. apply tile_closed_form; unfold n; rewrite ?Z2Nat.id by lia; try lia; nia. }
  unfold AvailabilityService.GenerateAvailableSlots. rewrite Hrules. cbn [List.length Nat.eqb].
  unfold AvailabilityService.candidates.
  rewrite (Truncate_midnight day Hday).
  rewrite (Truncate_midnight (day + Day)) by (rewrite Z.add_mod, Hday, Z_mod_same_full by (rewrite Day_value; lia); reflexivity).
  destruct fuel as [|[|[|fuel]]]; try lia.
  cbn [AvailabilityService.over_days]. unfold time.After, time.Add. fold Day.
  destruct (Z.ltb_spec (day + Day) day) as [Hbad|_]; [rewrite Day_value in Hbad; lia|].
  cbn [negb AvailabilityService.over_rules].
  rewrite Hw, Z.eqb_refl, Hs, He, Ha. cbn [negb].
  fold (on_day day s). fold (on_day day e). fold (slot_len r). rewrite Hav, Htile. cbn [app].
  destruct (Z.ltb_spec (day + Day) (day + Day)) as [Hbad|_]; [lia|]. cbn [negb].
  destruct (Z.eqb_spec (time.Weekday (day + Day)) (AvailabilityRule.DayOfWeek r)) as [E|_].
  { rewrite <- Hw in E. elim (Weekday_next day E). }
  cbn [negb].
  destruct (Z.ltb_spec (day + Day) (day + Day + Day)) as [_|Hbad]; [|rewrite Day_value in Hbad; lia].
  cbn [negb]. rewrite (no_confirmed_no_bookings _ _ _ _ Hno).
  rewrite filter_all; [reflexivity|]. intros sl. apply negb_true_iff, bool_decide_eq_false.
  unfold AvailabilityService.booked_set. cbn. apply not_elem_of_empty.
Qed.

Lemma X13_single_rule_full_day_witness :
  exists startTOD endTOD,
    AvailabilityService.parseHHMM (AvailabilityRule.StartTime half_hours_row) = Ok startTOD /\
    AvailabilityService.parseHHMM (AvailabilityRule.EndTime half_hours_row) = Ok endTOD /\
    let n := Z.to_nat ((on_day monday endTOD - on_day monday startTOD) / slot_len half_hours_row) in
    forall fuel, (Nat.max (S n) 3 <= fuel)%nat ->
      AvailabilityService.GenerateAvailableSlots fuel (db_with half_hours) "u" monday (monday + Day)
      = Some (Ok (tiles_from (on_day monday startTOD) (slot_len half_hours_row) n)).
Proof.
  apply (X13_single_rule_full_day (db_with half_hours) "u" half_hours_row monday).
  - vm_compute. reflexivity.
  - apply half_hours_row_well_formed. left. vm_compute. reflexivity.
  - reflexivity.
  - vm_compute. reflexivity.
  - vm_compute. reflexivity.
  - intros b Hb. vm_compute in Hb. destruct Hb.
Defined.

(** ** Clock times written and read back *)

Lemma round_trip_all :
  forallb (fun h => forallb (round_trip_ok h) (seq 0 60)) (seq 0 24) = true.
Proof. vm_compute. reflexivity. Qed.

Lemma Parse_Format_clock h m :
  0 <= h < 24 -> 0 <= m < 60 ->
  time.Parse1504 (String.append (timeFormat.appendInt2 h) (String ":"%char (timeFormat.appendInt2 m)))
  = Ok (clock h m).
Proof.
  intros Hh Hm. pose proof round_trip_all as H.
  rewrite forallb_forall in H. specialize (H (Z.to_nat h)).
  rewrite forallb_forall in H. specialize (H ltac:(apply in_seq; lia) (Z.to_nat m) ltac:(apply in_seq; lia)).
  unfold round_trip_ok in H. rewrite !Z2Nat.id in H by lia.
  destruct (time.Parse1504 _) as [t|]; [|discriminate]. apply Z.eqb_eq in H. congruence.
Qed.

Lemma Format1504_round_trip t :
  time.Parse1504 (timeFormat.Format1504 t) = Ok (clock (time.HourOf t) (time.MinuteOf t)) /\
  AvailabilityService.parseHHMM (timeFormat.Format1504 t)
  = Ok (clock (time.HourOf t) (time.MinuteOf t)) /\
  String.length (timeFormat.Format1504 t) = 5%nat.
Proof.
  assert (Hlen : String.length (timeFormat.Format1504 t) = 5%nat) by reflexivity.
  assert (Hp : time.Parse1504 (timeFormat.Format1504 t)
               = Ok (clock (time.HourOf t) (time.MinuteOf t))).
  { apply Parse_Format_clock; [apply HourOf_range|apply MinuteOf_range]. }
  split; [exact Hp|]. split; [|exact Hlen]. rewrite (parseHHMM_five _ Hlen). exact Hp.
Qed.

(** X14.  A clock time written with [Format("15:04")] has five characters
    and is read back, by [time.Parse("15:04", _)] and by [parseHHMM] alike,
    as the hour and the minute of the instant it was written from. *)
Theorem X14_format_parse_round_trip t :
  time.Parse1504 (timeFormat.Format1504 t) = Ok (clock (time.HourOf t) (time.MinuteOf t)) /\
  AvailabilityService.parseHHMM (timeFormat.Format1504 t)
  = Ok (clock (time.HourOf t) (time.MinuteOf t)) /\
  String.length (timeFormat.Format1504 t) = 5%nat.
Proof. apply Format1504_round_trip. Qed.

(** ** Importing a calendar event *)

Lemma DateClock_whole_minute t :
  t mod time.Minute = 0 -> time.DateClock t (time.HourOf t) (time.MinuteOf t) = t.
Proof.
  intros Hm. unfold time.DateClock, time.HourOf, time.MinuteOf.
  change (24 * time.Hour) with 86400000000000. rewrite Hour_value, Minute_value in *.
  Z.to_euclidean_division_equations. lia.
Qed.

Lemma DateClock_same_day t u h m :
  t - t mod Day = u - u mod Day -> time.DateClock t h m = time.DateClock u h m.
Proof. unfold time.DateClock. fold Day. intros ->. reflexivity. Qed.

(** A tile of an available rule that overlaps the window is a candidate. *)
Lemma overlapping_tile_is_candidate fuel rules fromUTC toUTC candidate r day sl :
  AvailabilityService.candidates fuel rules fromUTC toUTC = Some (Ok candidate) ->
  In r rules -> AvailabilityRule.Available r = true -> day mod Day = 0 -> tiled r day sl ->
  fromUTC < EndUTC sl -> StartUTC sl < toUTC -> In sl candidate.
Proof.
  intros Hc Hr Hav Hday Htiled Hfrom Hto.
  apply (candidates_In _ _ _ _ _ Hc sl).
  destruct (tiled_within_day _ _ _ Hday Htiled) as [Hlo Hhi].
  pose proof (Truncate_day_le fromUTC) as Hf. pose proof (Truncate_day_le toUTC) as Ht.
  pose proof (Truncate_day_midnight fromUTC) as Hfm.
  pose proof (Truncate_day_midnight toUTC) as Htm.
  set (startDate := time.Truncate fromUTC (24 * time.Hour)) in *.
  set (endDate := time.Truncate toUTC (24 * time.Hour)) in *.
  apply Z.mod_divide in Hday as [qd Hqd]; [|rewrite Day_value; lia].
  apply Z.mod_divide in Hfm as [qf Hqf]; [|rewrite Day_value; lia].
  apply Z.mod_divide in Htm as [qt Hqt]; [|rewrite Day_value; lia].
  rewrite Day_value in *.
  exists (qd - qf). replace (startDate + (qd - qf) * 86400000000000) with day by lia.
  split; [lia|]. split; [lia|].
  exists r. unfold overlaps. auto.
Qed.

Section ImportedEvent.
Import CalendarImport.

Variables (db : DB) (userID : string) (ev : CalendarEvent) (durMins : Z)
          (now now' pg_now : time.Time).

Let start := time.UTC (StartTime ev).
Let end_ := time.UTC (EndTime ev).
Let day := time.Truncate start (24 * time.Hour).

Hypothesis start_whole : start mod time.Minute = 0.
Hypothesis end_whole : end_ mod time.Minute = 0.
Hypothesis start_before_end : start < end_.
Hypothesis same_day : end_ < day + Day.
Hypothesis minutes : durMins * time.Minute = end_ - start.

(** The row the import stores for the event. *)
Let row := AvailabilityRule.mk (gen_random_uuid (uuid_seq db)) userID (time.Weekday start)
             (timeFormat.Format1504 start) (timeFormat.Format1504 end_) durMins (Summary ev)
             true now now.

Lemma event_day_bounds : day mod Day = 0 /\ day <= start /\ day = start - start mod Day
                         /\ day = end_ - end_ mod Day.
Proof.
  pose proof (Truncate_day_midnight start) as Hm. pose proof (Truncate_day_le start) as Hle.
  pose proof (Truncate_day start) as Ht. fold day in Hm, Hle, Ht.
  split; [exact Hm|]. split; [lia|]. split; [exact Ht|].
  apply Z.mod_divide in Hm as [q Hq]; [|rewrite Day_value; lia].
  rewrite Day_value in *.
  assert (end_ mod 86400000000000 = end_ - day); [|lia].
  symmetry. apply (Z.mod_unique_pos _ _ q); lia.
Qed.

Lemma event_on_day :
  on_day day (clock (time.HourOf start) (time.MinuteOf start)) = start /\
  on_day day (clock (time.HourOf end_) (time.MinuteOf end_)) = end_.
Proof.
  destruct event_day_bounds as (Hm & _ & Hs & He).
  unfold on_day.
  rewrite !HourOf_clock, !MinuteOf_clock by (apply HourOf_range || apply MinuteOf_range).
  split.
  - rewrite (DateClock_same_day day start); [apply DateClock_whole_minute, start_whole|].
    rewrite Hm. lia.
  - rewrite (DateClock_same_day day end_); [apply DateClock_whole_minute, end_whole|].
    rewrite Hm. lia.
Qed.

Lemma event_clock_order :
  time.After (clock (time.HourOf end_) (time.MinuteOf end_))
             (clock (time.HourOf start) (time.MinuteOf start)) = true.
Proof.
  destruct event_on_day as [Hs He]. unfold on_day in Hs, He.
  rewrite !HourOf_clock, !MinuteOf_clock in Hs, He
    by (apply HourOf_range || apply MinuteOf_range).
  pose proof (MinuteOf_range start). pose proof (MinuteOf_range end_).
  apply clock_After; [lia|lia|].
  unfold time.DateClock in Hs, He. rewrite Hour_value, Minute_value in *.
  pose proof start_before_end. lia.
Qed.

Lemma event_minutes_in_range : 1 <= durMins <= maxSlotMins.
Proof.
  destruct event_day_bounds as (_ & Hlo & _).
  pose proof minutes as Hm. pose proof start_before_end. pose proof same_day as Hd.
  unfold maxSlotMins. rewrite Minute_value, Day_value in *. lia.
Qed.

Lemma event_row_well_formed : well_formed_rule row.
Proof.
  destruct (Format1504_round_trip start) as (Hs & _ & Hls).
  destruct (Format1504_round_trip end_) as (He & _ & Hle).
  split; [|split; [exact Hls|split; [exact Hle|exact event_minutes_in_range]]].
  unfold AvailabilityService.validateAvailabilityRule, row. cbn [AvailabilityRule.StartTime
    AvailabilityRule.EndTime]. rewrite Hs, He, event_clock_order. reflexivity.
Qed.

Lemma event_row_tiles : tiled row day (mkSlot start end_).
Proof.
  destruct (Format1504_round_trip start) as (_ & Hs & _).
  destruct (Format1504_round_trip end_) as (_ & He & _).
  destruct event_on_day as [Hos Hoe]. destruct event_day_bounds as (Hm & Hlo & Hd & _).
  exists (clock (time.HourOf start) (time.MinuteOf start)),
    (clock (time.HourOf end_) (time.MinuteOf end_)).
  split; [exact Hs|]. split; [exact He|]. split; [exact event_clock_order|].
  assert (Hlen : slot_len row = durMins * time.Minute)
    by (apply slot_len_in_range, event_minutes_in_range).
  split; [|split].
  - cbn [row AvailabilityRule.DayOfWeek]. unfold time.Weekday. f_equal. f_equal.
    change (24 * time.Hour) with Day. rewrite Day_value in *.
    apply Z.mod_divide in Hm as [q Hq]; [|lia]. rewrite Hq, Z.div_mul by lia.
    pose proof same_day as Hsd. pose proof start_before_end.
    apply (Z.div_unique_pos _ _ q (start - q * 86400000000000)); lia.
  - rewrite Hlen. pose proof event_minutes_in_range. rewrite Minute_value. lia.
  - exists 0. rewrite Hos, Hoe, Hlen. cbn [StartUTC EndUTC]. pose proof minutes. lia.
Qed.

(** X15.  The import of a calendar event whose start and end are whole
    minutes of one UTC day, the start before the end, with [durMins] its
    length in minutes: when the rules of the user are well-formed and no
    confirmed booking of the user starts in the second of the event's
    start, the import stores a rule for the event and books it.  The
    booking returned is confirmed and runs from the start to the end of the
    event; afterwards the rule is listed and the start is booked. *)
Theorem X15_import_books_event :
  (forall r, In r (AvailabilityRepo.ListAvailabilityRules db userID) -> well_formed_rule r) ->
  (forall b, In b (bookings db) -> confirmed_of userID b ->
     time.Unix (Booking.StartAtUTC b) <> time.Unix start) ->
  exists fuel0, forall fuel, (fuel0 <= fuel)%nat ->
    exists b db',
      import_meet_event fuel db userID ev durMins now now' pg_now = Some (db', Some (Ok b)) /\
      Booking.StartAtUTC b = start /\ Booking.EndAtUTC b = end_ /\
      Booking.Status b = "confirmed"%string /\
      In row (AvailabilityService.ListAvailability db' userID) /\
      booked_at db' userID start.
Proof.
  intros Hrules Hfree.
  set (db1 := db_after_rules db userID now [event_rule ev durMins]).
  assert (Hset : AvailabilityService.SetAvailability db userID [event_rule ev durMins] now
                 = (Ok [row], db1)).
  { unfold AvailabilityService.SetAvailability.
    rewrite <- (app_nil_r [event_rule ev durMins]) at 1.
    rewrite SetAvailability_from_valid; [reflexivity|].
    intros r [<-|[]]. rewrite <- (proj1 event_row_well_formed).
    apply validate_times; reflexivity. }
  assert (Hrow : In row (AvailabilityRepo.ListAvailabilityRules db1 userID)).
  { apply ListAvailabilityRules_In. split; [|reflexivity].
    cbn. apply in_app_iff. right. left. reflexivity. }
  assert (Hwf1 : forall r, In r (AvailabilityRepo.ListAvailabilityRules db1 userID) ->
                           well_formed_rule r).
  { intros r Hr. apply ListAvailabilityRules_In in Hr as [Hr Hu]. cbn in Hr.
    apply in_app_iff in Hr as [Hr|[<-|[]]]; [|exact event_row_well_formed].
    apply Hrules, ListAvailabilityRules_In. auto. }
  destruct (well_formed_rules_derive db1 userID
              (time.Add start (-1 * time.Second)) (time.Add end_ (1 * time.Second)) Hwf1)
    as (slots & fuel0 & Hder).
  assert (Hin : In (mkSlot start end_) slots).
  { specialize (Hder fuel0 (Nat.le_refl _)).
    destruct (GenerateAvailableSlots_In _ _ _ _ _ _ Hder) as (candidate & Hc & Hiff).
    { intros E. rewrite E in Hrow. destruct Hrow. }
    apply Hiff. destruct event_day_bounds as (Hm & _). split.
    - apply (overlapping_tile_is_candidate _ _ _ _ _ row day _ Hc Hrow eq_refl Hm event_row_tiles);
        cbn [StartUTC EndUTC]; unfold time.Add; rewrite Second_value; pose proof start_before_end; lia.
    - intros (b & Hb & Hconf & _ & Hu). apply (Hfree b Hb Hconf Hu). }
  assert (Hfree1 : ~ booked_at db1 userID start).
  { intros (b & Hb & Hconf & Hs). apply (Hfree b Hb Hconf). rewrite Hs. reflexivity. }
  exists fuel0. intros fuel Hle.
  exists (stored_row (gen_random_uuid (uuid_seq db1)) userID (event_booking ev) now'),
    (db_after_booking db1 userID (event_booking ev) pg_now).
  split; [|split; [reflexivity|split; [reflexivity|split; [reflexivity|split]]]].
  - unfold import_meet_event. fold start end_.
    unfold time.After. destruct (Z.ltb_spec start end_) as [_|Hbad];
      [|pose proof start_before_end; lia].
    destruct (Z.leb_spec durMins 0) as [Hbad|_]; [pose proof event_minutes_in_range; lia|].
    rewrite Hset. cbn [snd].
    rewrite (CreateBooking_free fuel db1 userID (event_booking ev) now' pg_now Hfree1).
    change (time.UTC (pStart (event_booking ev))) with start.
    change (time.UTC (pEnd (event_booking ev))) with end_.
    rewrite (Hder fuel Hle). apply slot_is_In in Hin. rewrite Hin. reflexivity.
  - apply ListAvailabilityRules_In. apply ListAvailabilityRules_In in Hrow. exact Hrow.
  - exists (stored_row (gen_random_uuid (uuid_seq db1)) userID (event_booking ev) pg_now).
    split; [cbn; apply in_app_iff; right; left; reflexivity|]. split; [split|]; reflexivity.
Qed.
End ImportedEvent.

Lemma X15_import_books_event_witness :
  exists fuel0, forall fuel, (fuel0 <= fuel)%nat ->
    exists b db',
      CalendarImport.import_meet_event fuel empty_db "u" meet_event 30 0 0 0
      = Some (db', Some (Ok b)) /\
      Booking.StartAtUTC b = monday_at 9 0 /\ Booking.EndAtUTC b = monday_at 9 30 /\
      booked_at db' "u" (monday_at 9 0).
Proof.
  destruct (X15_import_books_event empty_db "u" meet_event 30 0 0 0) as [fuel0 H].
  - vm_compute. reflexivity.
  - vm_compute. reflexivity.
  - vm_compute. reflexivity.
  - vm_compute. reflexivity.
  - vm_compute. reflexivity.
  - intros r Hr. vm_compute in Hr. destruct Hr.
  - intros b Hb. vm_compute in Hb. destruct Hb.
  - exists fuel0. intros fuel Hle.
    destruct (H fuel Hle) as (b & db' & H1 & H2 & H3 & _ & _ & H6).
    exists b, db'. split; [exact H1|]. split; [exact H2|]. split; [exact H3|exact H6].
Defined.

(** ** API keys *)

Section APIKeyFacts.
Variable sha256_hex : string -> string.
Variable Error : PgError -> string.


Lemma find_ext_in {A} (f g : A -> bool) l :
  (forall x, In x l -> f x = g x) -> List.find f l = List.find g l.
Proof.
  induction l as [|a l IH]; intros H; [reflexivity|].
  cbn. rewrite (H a (or_introl eq_refl)). destruct (g a); [reflexivity|].
  apply IH. intros x Hx. apply H. right. exact Hx.
Qed.

Lemma find_none_existsb {A} (f : A -> bool) l :
  existsb f l = false -> List.find f l = None.
Proof.
  induction l as [|a l IH]; [reflexivity|]. cbn.
  destruct (f a); [discriminate|]. exact IH.
Qed.

Lemma existsb_false_In {A} (f : A -> bool) l x :
  existsb f l = false -> In x l -> f x = false.
Proof.
  intros H Hx. destruct (f x) eqn:E; [|reflexivity].
  assert (existsb f l = true) by (apply existsb_exists; eauto). congruence.
Qed.

Lemma find_app_last {A} (f : A -> bool) l x :
  List.find f l = None -> List.find f (l ++ [x]) = if f x then Some x else None.
Proof.
  induction l as [|a l IH]; [reflexivity|]. cbn.
  destruct (f a); [discriminate|]. exact IH.
Qed.

Lemma find_app_first {A} (f : A -> bool) l l' x :
  List.find f l = Some x -> List.find f (l ++ l') = Some x.
Proof.
  induction l as [|a l IH]; [discriminate|]. cbn.
  destruct (f a); [trivial|]. exact IH.
Qed.

Lemma find_map_case {A} (f : A -> bool) (g : A -> A) l :
  (forall x, In x l -> f (g x) = f x) ->
  List.find f (map g l) = option_map g (List.find f l).
Proof.
  induction l as [|a l IH]; intros H; [reflexivity|]. cbn.
  rewrite (H a (or_introl eq_refl)). destruct (f a); [reflexivity|].
  apply IH. intros x Hx. apply H. right. exact Hx.
Qed.

Lemma UpdateAPIKeyHash_cases kdb email h :
  (exists e, UpdateAPIKeyHash kdb email h = (Some e, kdb)) \/
  (UpdateAPIKeyHash kdb email h
     = (None, mkKeyDB (rehashed email h (api_keys kdb)) (key_uuid_seq kdb)) /\
   existsb (fun k => negb (String.eqb (APIKey.Email k) email)
                     && String.eqb (APIKey.KeyHash k) h) (api_keys kdb) = false).
Proof.
  unfold UpdateAPIKeyHash.
  destruct (existsb _ _) eqn:E; cbn [orb]; [left; eauto|].
  destruct (_ <? _)%nat; [left; eauto|]. right. split; reflexivity.
Qed.

Lemma rehashed_email_hash email h rows k :
  existsb (fun k => negb (String.eqb (APIKey.Email k) email)
                    && String.eqb (APIKey.KeyHash k) h) rows = false ->
  In k (rehashed email h rows) -> has_hash h k = has_email email k.
Proof.
  intros Hno Hin. unfold rehashed in Hin. apply in_map_iff in Hin as (k0 & <- & Hk0).
  unfold has_hash, has_email.
  destruct (String.eqb (APIKey.Email k0) email) eqn:E.
  - cbn. rewrite E. apply String.eqb_refl.
  - rewrite E. pose proof (existsb_false_In _ _ _ Hno Hk0) as Hf. cbn in Hf.
    rewrite E in Hf. exact Hf.
Qed.

(** What a successful [GenerateAPIKey] did: it either added a row for an
    email without one, or rewrote the hash of the rows of the email. *)
Lemma Generate_success kdb email password uuid now key rec kdb' :
  GenerateAPIKey sha256_hex Error kdb email password uuid now = (Ok (key, rec), kdb') ->
  email <> ""%string /\ password <> ""%string /\
  key = String.append "sk_" uuid /\
  let h := sha256_hex key in
  ((List.find (has_email email) (api_keys kdb) = None /\
    existsb (has_hash h) (api_keys kdb) = false /\
    exists row, rec = Some row /\
      row = APIKey.mk (gen_random_uuid (key_uuid_seq kdb)) email h now None /\
      kdb' = mkKeyDB (api_keys kdb ++ [row]) (S (key_uuid_seq kdb)))
   \/
   (List.find (has_email email) (api_keys kdb) <> None /\
    existsb (fun k => negb (String.eqb (APIKey.Email k) email)
                      && String.eqb (APIKey.KeyHash k) h) (api_keys kdb) = false /\
    kdb' = mkKeyDB (rehashed email h (api_keys kdb)) (key_uuid_seq kdb) /\
    rec = List.find (has_email email) (api_keys kdb'))).
Proof.
  unfold GenerateAPIKey. intros H.
  destruct (String.eqb email "") eqn:Ee; [discriminate|].
  destruct (String.eqb password "") eqn:Ep; [discriminate|]. cbn [orb] in H.
  apply String.eqb_neq in Ee. apply String.eqb_neq in Ep.
  split; [exact Ee|]. split; [exact Ep|].
  unfold GetAPIKeyByEmail in H.
  fold (has_email email) in H.
  destruct (List.find (has_email email) (api_keys kdb)) as [ex|] eqn:Ef.
  - destruct (UpdateAPIKeyHash_cases kdb email (hashAPIKey sha256_hex (String.append "sk_" uuid)))
      as [[e He]|[Hu Hno]]; rewrite ?He, ?Hu in H; [discriminate|].
    cbn [api_keys] in H. injection H as <- <- <-.
    split; [reflexivity|]. right. split; [discriminate|]. split; [exact Hno|].
    split; reflexivity.
  - unfold CreateAPIKey in H. fold (has_email email) in H.
    assert (Hex : existsb (has_email email) (api_keys kdb) = false).
    { destruct (existsb (has_email email) (api_keys kdb)) eqn:E; [|reflexivity].
      apply existsb_exists in E as (x & Hx & Hfx).
      pose proof (find_none _ _ Ef x Hx). congruence. }
    rewrite Hex in H.
    fold (has_hash (hashAPIKey sha256_hex (String.append "sk_" uuid))) in H.
    destruct (existsb (has_hash _) (api_keys kdb)) eqn:Eh; [discriminate|].
    injection H as <- <- <-.
    split; [reflexivity|]. left. split; [reflexivity|]. split; [exact Eh|].
    eexists. split; [reflexivity|]. split; reflexivity.
Qed.

Lemma find_has_email_Some email rows k :
  List.find (has_email email) rows = Some k -> APIKey.Email k = email.
Proof.
  intros H. apply find_some in H as [_ H]. apply String.eqb_eq in H. exact H.
Qed.

(** The row a generated key is found by. *)
Lemma Generate_lookup kdb email password uuid now key rec kdb' :
  GenerateAPIKey sha256_hex Error kdb email password uuid now = (Ok (key, rec), kdb') ->
  exists k, List.find (has_hash (sha256_hex key)) (api_keys kdb') = Some k /\
            rec = Some k /\ APIKey.Email k = email /\ APIKey.KeyHash k = sha256_hex key.
Proof.
  intros H. apply Generate_success in H as (_ & _ & -> & [(Hnone & Hh & row & -> & Hrow & ->)
                                                         |(Hsome & Hno & -> & ->)]).
  - exists row. cbn [api_keys]. rewrite (find_app_last _ _ _ (find_none_existsb _ _ Hh)).
    subst row. unfold has_hash. cbn. rewrite String.eqb_refl. repeat split.
  - cbn [api_keys].
    rewrite (find_ext_in (has_hash _) (has_email email) _
               (fun k => rehashed_email_hash _ _ _ k Hno)).
    destruct (List.find (has_email email) (api_keys kdb)) as [k0|] eqn:E0; [|congruence].
    unfold rehashed.
    rewrite (find_map_case (has_email email)).
    2:{ intros x _. unfold has_email.
        destruct (String.eqb (APIKey.Email x) email) eqn:E; cbn; rewrite ?E; reflexivity. }
    rewrite E0. cbn. pose proof (find_has_email_Some _ _ _ E0) as Hk0.
    apply String.eqb_eq in Hk0. rewrite Hk0. eexists. split; [reflexivity|].
    split; [reflexivity|]. cbn. split; [|reflexivity]. apply String.eqb_eq. exact Hk0.
Qed.

Lemma Validate_found kdb key now k :
  key <> ""%string ->
  List.find (has_hash (sha256_hex key)) (api_keys kdb) = Some k ->
  ValidateAPIKey sha256_hex kdb key now = (Ok k, UpdateLastUsed kdb (sha256_hex key) now).
Proof.
  intros Hk Hf. unfold ValidateAPIKey. apply String.eqb_neq in Hk. rewrite Hk.
  unfold GetAPIKeyByHash, hashAPIKey. fold (has_hash (sha256_hex key)). rewrite Hf. reflexivity.
Qed.

Lemma Validate_missing kdb key now :
  List.find (has_hash (sha256_hex key)) (api_keys kdb) = None ->
  ValidateAPIKey sha256_hex kdb key now = (Err (if String.eqb key "" then errKeyRequired else errInvalidKey), kdb).
Proof.
  intros Hf. unfold ValidateAPIKey. destruct (String.eqb key ""); [reflexivity|].
  unfold GetAPIKeyByHash, hashAPIKey. fold (has_hash (sha256_hex key)). rewrite Hf. reflexivity.
Qed.

Lemma sk_nonempty uuid : String.append "sk_" uuid <> ""%string.
Proof. discriminate. Qed.

(** X16.  A key returned by [GenerateAPIKey] is accepted by
    [ValidateAPIKey] on the resulting table, with the record that
    [GenerateAPIKey] returned: the record of that email, which holds the
    hash of the key. *)
Theorem X16_generated_key_validates kdb email password uuid now now' key rec kdb' :
  GenerateAPIKey sha256_hex Error kdb email password uuid now = (Ok (key, rec), kdb') ->
  exists k,
    ValidateAPIKey sha256_hex kdb' key now' = (Ok k, UpdateLastUsed kdb' (sha256_hex key) now') /\
    rec = Some k /\ APIKey.Email k = email /\ APIKey.KeyHash k = sha256_hex key.
Proof.
  intros H. pose proof (Generate_lookup _ _ _ _ _ _ _ _ H) as (k & Hf & Hr & He & Hh).
  exists k. split; [|auto].
  apply Validate_found; [|exact Hf].
  apply Generate_success in H as (_ & _ & -> & _). apply sk_nonempty.
Qed.

(** Rows of the email after a successful generation carry the new hash,
    no other row does. *)
Lemma Generate_hash_owner kdb email password uuid now key rec kdb' :
  GenerateAPIKey sha256_hex Error kdb email password uuid now = (Ok (key, rec), kdb') ->
  forall k, In k (api_keys kdb') -> has_hash (sha256_hex key) k = has_email email k.
Proof.
  intros H k Hk. apply Generate_success in H as (_ & _ & -> & [(Hnone & Hh & row & -> & Hrow & ->)
                                                         |(Hsome & Hno & -> & ->)]).
  - cbn [api_keys] in Hk. apply in_app_or in Hk as [Hk|[<-|[]]].
    + rewrite (existsb_false_In _ _ _ Hh Hk). symmetry.
      pose proof (find_none _ _ Hnone k Hk). exact H.
    + subst row. unfold has_hash, has_email. cbn. rewrite !String.eqb_refl. reflexivity.
  - eapply rehashed_email_hash; eauto.
Qed.

(** X17.  Generating a key a second time for the same email replaces the
    first one: when the two keys have different hashes, the first key is
    rejected as invalid afterwards, the second is accepted for the email,
    and the table has not grown. *)
Theorem X17_new_key_replaces_old kdb email p1 p2 u1 u2 t1 t2 t3 key1 key2 r1 r2 kdb1 kdb2 :
  GenerateAPIKey sha256_hex Error kdb email p1 u1 t1 = (Ok (key1, r1), kdb1) ->
  GenerateAPIKey sha256_hex Error kdb1 email p2 u2 t2 = (Ok (key2, r2), kdb2) ->
  sha256_hex key1 <> sha256_hex key2 ->
  ValidateAPIKey sha256_hex kdb2 key1 t3 = (Err errInvalidKey, kdb2) /\
  List.length (api_keys kdb2) = List.length (api_keys kdb1) /\
  exists k, fst (ValidateAPIKey sha256_hex kdb2 key2 t3) = Ok k /\ APIKey.Email k = email.
Proof.
  intros H1 H2 Hne.
  pose proof (Generate_hash_owner _ _ _ _ _ _ _ _ H1) as Hown1.
  pose proof (Generate_lookup _ _ _ _ _ _ _ _ H1) as (k1 & Hf1 & _ & He1 & _).
  pose proof (Generate_lookup _ _ _ _ _ _ _ _ H2) as (k2 & Hf2 & _ & He2 & _).
  pose proof (Generate_success _ _ _ _ _ _ _ _ H1) as (_ & _ & Hk1 & _).
  pose proof (Generate_success _ _ _ _ _ _ _ _ H2) as (_ & _ & Hk2 & Hcase).
  destruct Hcase as [(Hnone & _)|(_ & Hno & Hdb & _)].
  { (* the email has a row in kdb1 *)
    apply find_some in Hf1 as [Hin1 Hh1]. rewrite (Hown1 _ Hin1) in Hh1.
    pose proof (find_none _ _ Hnone _ Hin1). congruence. }
  split.
  - assert (Hnone : List.find (has_hash (sha256_hex key1)) (api_keys kdb2) = None).
    { apply find_none_existsb.
      destruct (existsb (has_hash (sha256_hex key1)) (api_keys kdb2)) eqn:E; [|reflexivity].
      apply existsb_exists in E as (x & Hx & Hfx). exfalso.
      rewrite Hdb in Hx. cbn [api_keys] in Hx. unfold rehashed in Hx.
      apply in_map_iff in Hx as (x0 & <- & Hx0).
      pose proof (Hown1 _ Hx0) as Hx1. unfold has_hash, has_email in *.
      destruct (String.eqb (APIKey.Email x0) email) eqn:Ee.
      - cbn in Hfx. apply String.eqb_eq in Hfx. congruence.
      - congruence. }
    rewrite (Validate_missing _ _ _ Hnone). rewrite Hk1. reflexivity.
  - split.
    + rewrite Hdb. cbn [api_keys]. unfold rehashed. apply length_map.
    + exists k2. split; [|exact He2].
      assert (Hk : key2 <> ""%string) by (rewrite Hk2; apply sk_nonempty).
      rewrite (Validate_found _ _ _ _ Hk Hf2). reflexivity.
Qed.

(** X18.  Generating a key for one email leaves the keys of the other
    emails valid: a key that was accepted with the record of another email
    is accepted with the same record afterwards. *)
Theorem X18_other_keys_survive kdb email password uuid now key rec kdb' other k t :
  GenerateAPIKey sha256_hex Error kdb email password uuid now = (Ok (key, rec), kdb') ->
  fst (ValidateAPIKey sha256_hex kdb other t) = Ok k ->
  APIKey.Email k <> email ->
  fst (ValidateAPIKey sha256_hex kdb' other t) = Ok k.
Proof.
  intros H Hv Hne.
  unfold ValidateAPIKey in Hv |- *.
  destruct (String.eqb other ""); [discriminate|].
  unfold GetAPIKeyByHash, hashAPIKey in *. fold (has_hash (sha256_hex other)) in *.
  destruct (List.find (has_hash (sha256_hex other)) (api_keys kdb)) as [k0|] eqn:Ef;
    [|discriminate].
  cbn in Hv. injection Hv as ->.
  apply Generate_success in H as (_ & _ & -> & [(Hnone & Hh & row & -> & Hrow & ->)
                                               |(Hsome & Hno & -> & ->)]).
  - cbn [api_keys]. rewrite (find_app_first _ _ _ _ Ef). reflexivity.
  - cbn [api_keys].
    assert (Hgo : forall rows,
      existsb (fun k => negb (String.eqb (APIKey.Email k) email)
                 && String.eqb (APIKey.KeyHash k) (sha256_hex (String.append "sk_" uuid))) rows
        = false ->
      List.find (has_hash (sha256_hex other)) rows = Some k ->
      List.find (has_hash (sha256_hex other))
        (rehashed email (sha256_hex (String.append "sk_" uuid)) rows) = Some k).
    { induction rows as [|a rows IH]; [discriminate|]. cbn. intros Hex Hfind.
      apply orb_false_iff in Hex as [Ha Hex].
      destruct (has_hash (sha256_hex other) a) eqn:Eha.
      - injection Hfind as ->.
        destruct (String.eqb (APIKey.Email k) email) eqn:Ee;
          [apply String.eqb_eq in Ee; contradiction|].
        rewrite Eha. reflexivity.
      - destruct (String.eqb (APIKey.Email a) email) eqn:Ee.
        + (* the rewritten row carries the new hash: were it the hash of
             [other], the row of [k] would break the constraint *)
          destruct (has_hash (sha256_hex other) (with_KeyHash a _)) eqn:Enew.
          * exfalso. unfold has_hash in Enew. cbn in Enew. apply String.eqb_eq in Enew.
            apply find_some in Hfind as [Hin Hk]. unfold has_hash in Hk.
            pose proof (existsb_false_In _ _ _ Hex Hin) as Hc. cbn in Hc.
            destruct (String.eqb (APIKey.Email k) email) eqn:Ek;
              [apply String.eqb_eq in Ek; contradiction|].
            cbn in Hc. rewrite Enew in Hc. congruence.
          * apply IH; assumption.
        + rewrite Eha. apply IH; assumption. }
    rewrite (Hgo _ Hno Ef). reflexivity.
Qed.


(** X20.  [ValidateAPIKey] records the use after it has read the record: a
    successful validation returns a row of the table as it was before the
    call, and a second validation of the same key returns that record with
    [last_used_at] set to the time of the first; the emails and the hashes
    of the table stay as they are. *)
Theorem X20_validate_stamps_after_reading kdb key t1 t2 k kdb1 :
  ValidateAPIKey sha256_hex kdb key t1 = (Ok k, kdb1) ->
  In k (api_keys kdb) /\ APIKey.KeyHash k = sha256_hex key /\
  ValidateAPIKey sha256_hex kdb1 key t2
  = (Ok (with_LastUsedAt k t1), UpdateLastUsed kdb1 (sha256_hex key) t2) /\
  map APIKey.Email (api_keys kdb1) = map APIKey.Email (api_keys kdb) /\
  map APIKey.KeyHash (api_keys kdb1) = map APIKey.KeyHash (api_keys kdb).
Proof.
  unfold ValidateAPIKey at 1. intros H.
  destruct (String.eqb key "") eqn:Ek; [discriminate|].
  unfold GetAPIKeyByHash, hashAPIKey in H. fold (has_hash (sha256_hex key)) in H.
  destruct (List.find (has_hash (sha256_hex key)) (api_keys kdb)) as [k0|] eqn:Ef;
    [|discriminate].
  injection H as <- <-.
  pose proof (find_some _ _ Ef) as [Hin Hh]. split; [exact Hin|].
  split; [apply String.eqb_eq; exact Hh|].
  split; [|split].
  - apply String.eqb_neq in Ek. apply (Validate_found _ _ _ _ Ek).
    unfold UpdateLastUsed. cbn [api_keys]. fold (has_hash (sha256_hex key)).
    rewrite (find_map_case (has_hash (sha256_hex key))).
    + rewrite Ef. cbn [option_map]. unfold has_hash in Hh. rewrite Hh. reflexivity.
    + intros x _. unfold has_hash.
      destruct (String.eqb (APIKey.KeyHash x) (sha256_hex key)) eqn:E; cbn; rewrite ?E;
        reflexivity.
  - unfold UpdateLastUsed. cbn [api_keys]. rewrite List.map_map. apply List.map_ext.
    intros x. destruct (String.eqb (APIKey.KeyHash x) (sha256_hex key)); reflexivity.
  - unfold UpdateLastUsed. cbn [api_keys]. rewrite List.map_map. apply List.map_ext.
    intros x. destruct (String.eqb (APIKey.KeyHash x) (sha256_hex key)); reflexivity.
Qed.

End APIKeyFacts.

Lemma X16_generated_key_validates_witness :
  exists k,
    ValidateAPIKey example_hash keys_of_b "sk_0001" 3
    = (Ok k, UpdateLastUsed keys_of_b (example_hash "sk_0001") 3) /\
    APIKey.Email k = "b@example.org"%string.
Proof.
  destruct (X16_generated_key_validates example_hash example_violation no_keys
              "b@example.org" "pw" "0001" 0 3 "sk_0001"
              (Some (APIKey.mk "uuid-0" "b@example.org" "h:sk_0001" 0 None)) keys_of_b)
    as (k & H1 & _ & H2 & _).
  - vm_compute. reflexivity.
  - exists k. split; [exact H1|exact H2].
Defined.

Lemma X17_new_key_replaces_old_witness :
  let kdb2 := snd (GenerateAPIKey example_hash example_violation keys_of_b
                     "b@example.org" "pw" "0002" 1) in
  example_hash "sk_0001" <> example_hash "sk_0002" /\
  ValidateAPIKey example_hash kdb2 "sk_0001" 3 = (Err errInvalidKey, kdb2).
Proof.
  intros kdb2.
  assert (Hne : example_hash "sk_0001" <> example_hash "sk_0002") by (vm_compute; discriminate).
  split; [exact Hne|].
  refine (proj1 (X17_new_key_replaces_old example_hash example_violation no_keys
                   "b@example.org" "pw" "pw" "0001" "0002" 0 1 3 "sk_0001" "sk_0002"
                   (Some (APIKey.mk "uuid-0" "b@example.org" "h:sk_0001" 0 None))
                   (Some (APIKey.mk "uuid-0" "b@example.org" "h:sk_0002" 0 None))
                   keys_of_b kdb2 _ _ Hne)).
  - vm_compute. reflexivity.
  - vm_compute. reflexivity.
Defined.

Lemma X18_other_keys_survive_witness :
  let kdb' := snd (GenerateAPIKey example_hash example_violation keys_of_b
                     "a@example.org" "pw" "0002" 1) in
  fst (ValidateAPIKey example_hash kdb' "sk_0001" 3)
  = Ok (APIKey.mk "uuid-0" "b@example.org" "h:sk_0001" 0 None).
Proof.
  intros kdb'.
  apply (X18_other_keys_survive example_hash example_violation keys_of_b "a@example.org" "pw"
           "0002" 1 "sk_0002"
           (Some (APIKey.mk "uuid-1" "a@example.org" "h:sk_0002" 1 None)) kdb').
  - vm_compute. reflexivity.
  - vm_compute. reflexivity.
  - vm_compute. discriminate.
Defined.


Lemma X20_validate_stamps_after_reading_witness :
  let k := APIKey.mk "uuid-0" "b@example.org" "h:sk_0001" 0 None in
  let kdb1 := snd (ValidateAPIKey example_hash keys_of_b "sk_0001" 3) in
  ValidateAPIKey example_hash keys_of_b "sk_0001" 3 = (Ok k, kdb1) /\
  ValidateAPIKey example_hash kdb1 "sk_0001" 4
  = (Ok (with_LastUsedAt k 3), UpdateLastUsed kdb1 (example_hash "sk_0001") 4).
Proof.
  intros k kdb1.
  assert (H : ValidateAPIKey example_hash keys_of_b "sk_0001" 3 = (Ok k, kdb1))
    by (vm_compute; reflexivity).
  split; [exact H|].
  exact (proj1 (proj2 (proj2 (X20_validate_stamps_after_reading example_hash keys_of_b
                                "sk_0001" 3 4 k kdb1 H)))).
Defined.

(** ** Answers of the booking endpoints *)











(** X22.  DELETE /bookings/:id of a booking that is not cancelled answers
    200 and cancels it; every later DELETE of that identifier answers 409,
    with the text [booking not found]; DELETE of an identifier that no
    booking has answers 404 and leaves the store as it was. *)
Theorem X22_delete_booking_answers db id b :
  lookup_booking db id = Some b -> Booking.Status b <> "cancelled"%string ->
  handlers.CancelBooking (fun d => d) db id = ((200, handlers.OkTrue), cancelled_in db id) /\
  (forall others,
     handlers.CancelBooking others (cancelled_in db id) id
     = ((409, handlers.ErrorText "booking not found"), cancelled_in db id)) /\
  (forall others id', lookup_booking db id' = None ->
     handlers.CancelBooking others db id'
     = ((404, handlers.ErrorText "booking not found"), db)).
Proof.
  intros Hl Hs. split; [|split].
  - unfold handlers.CancelBooking. rewrite (CancelBooking_alone_succeeds _ _ _ Hl Hs).
    reflexivity.
  - intros others. unfold handlers.CancelBooking, BookingService.CancelBooking.
    change (BookingRepo.GetBookingStatus (cancelled_in db id) id)
      with (match lookup_booking (cancelled_in db id) id with
            | Some b => (Booking.Status b, None)
            | None => (""%string, Some ErrNoRows)
            end).
    destruct (lookup_booking (cancelled_in db id) id) as [b'|] eqn:Hl'.
    + rewrite (lookup_cancelled_in_status _ _ _ Hl'). reflexivity.
    + rewrite lookup_cancelled_in, Hl in Hl'. discriminate.
  - intros others id' Hnone. unfold handlers.CancelBooking, BookingService.CancelBooking.
    change (BookingRepo.GetBookingStatus db id')
      with (match lookup_booking db id' with
            | Some b => (Booking.Status b, None)
            | None => (""%string, Some ErrNoRows)
            end).
    rewrite Hnone. reflexivity.
Qed.

Lemma X22_delete_booking_answers_witness :
  let db := db_booked (db_with half_hours) (monday_at 9 0) (monday_at 9 30) in
  handlers.CancelBooking (fun d => d) db "uuid-1"
  = ((200, handlers.OkTrue), cancelled_in db "uuid-1") /\
  forall others,
    handlers.CancelBooking others (cancelled_in db "uuid-1") "uuid-1"
    = ((409, handlers.ErrorText "booking not found"), cancelled_in db "uuid-1").
Proof.
  intros db.
  destruct (X22_delete_booking_answers db "uuid-1" (stored_row "uuid-1" "u" first_half_hour 0))
    as (H1 & H2 & _).
  - vm_compute. reflexivity.
  - vm_compute. discriminate.
  - split; [exact H1|exact H2].
Defined.
